(** * 370Z CAN logger: the decoder command line tool, [can_decoder_cli.py]

    A shallow embedding of the frame parser, the per-identifier decode
    table, the identifier catalog loader, the decoded-value sink, the
    bounded live queue and the replay loop, with the properties that the
    design document states about them.

    Conventions of the embedding.
    - A Python [int] is a [Z]; a Python [float] is an IEEE-754 binary64
      value, [spec_float] at precision 53 and maximal exponent 1024, with
      the operations of [Floats.SpecFloat] (round to nearest, ties to even).
    - A Python [str] is a [string]; the model covers 7-bit ASCII text.
    - A [dict] that is iterated is an association list in insertion order;
      the identifier catalog, which is only looked up, is a [gmap].
    - A function that can raise returns a [result]. *)

From Stdlib Require Import ZArith Ascii String HexadecimalString List Bool Lia.
From Stdlib Require HexadecimalPos HexadecimalN.
From Stdlib Require Import Floats.SpecFloat.
From Stdlib Require Import Permutation Sorted.
From stdpp Require Import base decidable option numbers list gmap strings pretty.

Import ListNotations.
Local Open Scope Z_scope.

(** ** Exceptions and results *)

Inductive exn : Type :=
  | ValueError
  | OverflowError
  | ZeroDivisionError
  | KeyError
  | TypeError
  | IndexError
  | StopIteration
  | OSError
  | Sqlite3Error. (* [sqlite3.Error]: a value of a type that cannot be bound *)

Inductive result (A : Type) : Type :=
  | Ok (a : A)
  | Raise (e : exn).

Arguments Ok {A} a.
Arguments Raise {A} e.

Definition bind {A B : Type} (r : result A) (k : A -> result B) : result B :=
  match r with
  | Ok a => k a
  | Raise e => Raise e
  end.

Notation "'let*' x ':=' r 'in' k" := (bind r (fun x => k))
  (at level 10, x name, r at level 100, k at level 200, only parsing).

(** [mapM f l] is the list comprehension [[f(x) for x in l]] when [f] can
    raise: the first exception, left to right, ends it. *)
Fixpoint mapM {A B : Type} (f : A -> result B) (l : list A) : result (list B) :=
  match l with
  | [] => Ok []
  | x :: l' => let* y := f x in let* ys := mapM f l' in Ok (y :: ys)
  end.

(** ** Python floats *)

Module PyFloat.

Definition prec : Z := 53.
Definition emax : Z := 1024.

Definition float : Type := spec_float.

(** An integer as an exact, not yet rounded, binary value. *)
Definition exact (z : Z) : spec_float :=
  match z with
  | Z0 => S754_zero false
  | Zpos p => S754_finite false p 0
  | Zneg p => S754_finite true p 0
  end.

Definition is_finite (x : float) : bool :=
  match x with
  | S754_zero _ | S754_finite _ _ _ => true
  | _ => false
  end.

Definition is_nan (x : float) : bool :=
  match x with
  | S754_nan => true
  | _ => false
  end.

(** The quotient of two integers, correctly rounded. It is what a
    decimal literal [a/10^k] denotes and what [int / int] returns. *)
Definition ratio (a b : Z) : float := SFdiv prec emax (exact a) (exact b).

(** [a / b] on two [int]s. *)
Definition truediv (a b : Z) : result float :=
  if b =? 0 then Raise ZeroDivisionError
  else
    let q := ratio a b in
    if is_finite q then Ok q else Raise OverflowError.

(** [float(n)] for an [int]. *)
Definition of_int (n : Z) : result float :=
  let x := binary_normalize prec emax n 0 false in
  if is_finite x then Ok x else Raise OverflowError.

Definition mul (x y : float) : float := SFmul prec emax x y.
Definition sub (x y : float) : float := SFsub prec emax x y.
Definition neg (x : float) : float := SFopp x.
Definition ltb (x y : float) : bool := SFltb x y.
Definition leb (x y : float) : bool := SFleb x y.
Definition geb (x y : float) : bool := SFleb y x.

(** [x / y] on two [float]s. *)
Definition fdiv (x y : float) : result float :=
  match y with
  | S754_zero _ => Raise ZeroDivisionError
  | _ => Ok (SFdiv prec emax x y)
  end.

(** The integer nearest to [n / d], ties to the even one ([d > 0]). *)
Definition div_half_even (n d : Z) : Z :=
  let q := n / d in
  let r := n mod d in
  match 2 * r ?= d with
  | Lt => q
  | Gt => q + 1
  | Eq => if Z.even q then q else q + 1
  end.

(** [round(x, 1)]: the exact value of [x] is rounded to one decimal,
    ties to even, and the decimal is read back as a float. Zeros,
    infinities and NaN round to themselves. *)
Definition round1 (x : float) : float :=
  match x with
  | S754_finite s m e =>
      let tenths :=
        if 0 <=? e then 10 * Zpos m * 2 ^ e
        else div_half_even (10 * Zpos m) (2 ^ (- e)) in
      match tenths with
      | Z0 => S754_zero s
      | _ => ratio (if s then - tenths else tenths) 10
      end
  | _ => x
  end.

(** The float that a decimal literal denotes: [digits] with the point
    moved [places] to the left, rounded once. *)
Definition decimal (digits : Z) (places : nat) : float :=
  ratio digits (10 ^ Z.of_nat places).

(** The literal [0.621371]. *)
Definition lit_0_621371 : float := decimal 621371 6.

End PyFloat.

Abbreviation float := PyFloat.float.

(** ** Python strings *)

Module PyStr.

Definition code (c : ascii) : Z := Z.of_N (N_of_ascii c).

Definition in_range (lo hi : Z) (c : ascii) : bool :=
  (lo <=? code c) && (code c <=? hi).

(** [str.isspace] on ASCII: tab to carriage return, the four
    separators 28..31, and the space. *)
Definition is_space (c : ascii) : bool :=
  in_range 9 13 c || in_range 28 31 c || (code c =? 32).

(** The white space that [int] skips around an ASCII numeral: tab to
    carriage return, and the space. *)
Definition is_c_space (c : ascii) : bool := in_range 9 13 c || (code c =? 32).

Definition is_digit (c : ascii) : bool := in_range 48 57 c.

Definition is_alpha (c : ascii) : bool := in_range 65 90 c || in_range 97 122 c.

(** The class [\w]. *)
Definition is_word (c : ascii) : bool :=
  is_alpha c || is_digit c || (code c =? 95).

Definition is_newline (c : ascii) : bool := code c =? 10.

Definition to_lower (c : ascii) : ascii :=
  if in_range 65 90 c then ascii_of_N (N_of_ascii c + 32) else c.

Definition to_upper (c : ascii) : ascii :=
  if in_range 97 122 c then ascii_of_N (N_of_ascii c - 32) else c.

Fixpoint map_chars (f : ascii -> ascii) (s : string) : string :=
  match s with
  | EmptyString => EmptyString
  | String c s' => String (f c) (map_chars f s')
  end.

Definition lower : string -> string := map_chars to_lower.
Definition upper : string -> string := map_chars to_upper.

(** The longest prefix whose characters satisfy [p], and the rest. *)
Fixpoint span (p : ascii -> bool) (s : string) : string * string :=
  match s with
  | EmptyString => (EmptyString, EmptyString)
  | String c s' =>
      if p c then let '(a, b) := span p s' in (String c a, b)
      else (EmptyString, s)
  end.

(** Without the characters of [p] at the right end. *)
Fixpoint rstrip_by (p : ascii -> bool) (s : string) : string :=
  match s with
  | EmptyString => EmptyString
  | String c s' =>
      match rstrip_by p s' with
      | EmptyString => if p c then EmptyString else String c EmptyString
      | r => String c r
      end
  end.

Definition strip_by (p : ascii -> bool) (s : string) : string :=
  rstrip_by p (snd (span p s)).

(** [s.strip()]. *)
Definition strip (s : string) : string := strip_by is_space s.

(** [s.split()]: the maximal runs of characters that are not white
    space; [cur] is the run being read, if one is open. *)
Fixpoint split_go (s : string) (cur : option string) : list string :=
  match s with
  | EmptyString =>
      match cur with
      | Some t => [t]
      | None => []
      end
  | String c s' =>
      if is_space c then
        match cur with
        | Some t => t :: split_go s' None
        | None => split_go s' None
        end
      else split_go s' (Some (default EmptyString cur +:+ String c EmptyString))
  end.

Definition split (s : string) : list string := split_go s None.

Definition hex_digit (c : ascii) : option Z :=
  if is_digit c then Some (code c - 48)
  else if in_range 97 102 c then Some (code c - 87)
  else if in_range 65 70 c then Some (code c - 55)
  else None.

(** Where the digit scanner of [int] stands. *)
Inductive scan : Type := AtStart | AfterDigit | AfterUnderscore.

(** Hexadecimal digits, single underscores allowed between two of them. *)
Fixpoint hex_digits (s : string) (st : scan) (acc : Z) : option Z :=
  match s with
  | EmptyString =>
      match st with
      | AfterDigit => Some acc
      | _ => None
      end
  | String c s' =>
      if code c =? 95 then
        match st with
        | AfterDigit => hex_digits s' AfterUnderscore acc
        | _ => None
        end
      else
        match hex_digit c with
        | Some d => hex_digits s' AfterDigit (16 * acc + d)
        | None => None
        end
  end.

(** After the sign: an optional [0x] or [0X], which may be followed by
    one underscore, then the digits. *)
Definition hex_body (s : string) : option Z :=
  match s with
  | String "0" (String x s') =>
      if (code x =? 120) || (code x =? 88) then
        match s' with
        | String "_" s'' => hex_digits s'' AtStart 0
        | _ => hex_digits s' AtStart 0
        end
      else hex_digits s AtStart 0
  | _ => hex_digits s AtStart 0
  end.

(** [int(s, 16)]. *)
Definition int16 (s : string) : result Z :=
  let body :=
    match strip_by is_c_space s with
    | String "+" t => hex_body t
    | String "-" t => Z.opp <$> hex_body t
    | t => hex_body t
    end in
  match body with
  | Some z => Ok z
  | None => Raise ValueError
  end.

(** The digits of a decimal number, most significant first. *)
Fixpoint dec_digits (s : string) (acc : Z) : Z :=
  match s with
  | EmptyString => acc
  | String c s' => dec_digits s' (10 * acc + (code c - 48))
  end.

(** [float(s)] for [s] of the shape [\d+\.\d+]: the decimal is read
    exactly and rounded once; a number too large becomes [inf]. *)
Definition float_of_decimal (int_part frac_part : string) : float :=
  PyFloat.decimal (dec_digits (int_part +:+ frac_part) 0)
                  (String.length frac_part).

(** [str(n)] for an [int] of at most 4300 digits, the numerals that
    [str] writes; bytes and 16-bit values are such. *)
Definition str_of_int (n : Z) : string := pretty n.

(** [format(n, "X")]. *)
Definition format_X (n : Z) : string :=
  (if n <? 0 then "-" else "")
  +:+ upper (HexadecimalString.NilZero.string_of_uint (N.to_hex_uint (Z.abs_N n))).

End PyStr.

(** ** Values, dictionaries, sequences *)

Inductive pyval : Type :=
  | VInt (n : Z)
  | VFloat (x : float)
  | VStr (s : string)
  | VList (l : list Z)
  | VNone.

(** A [dict] with [str] keys, in insertion order. *)
Definition dict : Type := list (string * pyval).

Fixpoint dict_get (k : string) (d : dict) : option pyval :=
  match d with
  | [] => None
  | (k', v) :: d' => if String.eqb k k' then Some v else dict_get k d'
  end.

(** [d[k] = v]: an existing key keeps its place, a new one goes last. *)
Fixpoint dict_set (k : string) (v : pyval) (d : dict) : dict :=
  match d with
  | [] => [(k, v)]
  | (k', v') :: d' =>
      if String.eqb k k' then (k, v) :: d' else (k', v') :: dict_set k v d'
  end.

Definition dict_has (k : string) (d : dict) : bool :=
  match dict_get k d with
  | Some _ => true
  | None => false
  end.

(** [d[k]]. *)
Definition getitem_dict (d : dict) (k : string) : result pyval :=
  match dict_get k d with
  | Some v => Ok v
  | None => Raise KeyError
  end.

(** [l[i]] for [i >= 0]. *)
Definition getitem {A : Type} (l : list A) (i : nat) : result A :=
  match nth_error l i with
  | Some x => Ok x
  | None => Raise IndexError
  end.

Definition len {A : Type} (l : list A) : Z := Z.of_nat (List.length l).

(** ** [CANMessageParser] *)

(** The value stored per identifier by [_load_ids]. *)
Record CatalogEntry : Type := {
  source : string;
  frequency : string;
  data_bytes : string
}.

Record CANMessageParser : Type := {
  ids_lookup : gmap Z CatalogEntry
}.

(** The dict that [parse_line] returns: its six keys are fixed, so it is
    a record; [copy] lists its items in the order of the literal. *)
Record RawFrame : Type := {
  timestamp : float;
  can_id : Z;
  can_id_hex : string;
  msg_type : string;
  data : list Z;
  raw : string
}.

Definition copy (message : RawFrame) : dict :=
  [ ("timestamp", VFloat (timestamp message));
    ("can_id", VInt (can_id message));
    ("can_id_hex", VStr (can_id_hex message));
    ("msg_type", VStr (msg_type message));
    ("data", VList (data message));
    ("raw", VStr (raw message)) ].

(** *** [_load_ids]

    What [open] and [csv.reader] hand to the loader: the file cannot be
    opened, or the rows of the file, the header first, each row split at
    the semicolons. A reader that fails in the middle of the file is not
    modelled. *)
Inductive Descriptor : Type :=
  | Unreadable (e : exn)
  | Rows (rows : list (list string)).

(** What the loader prints, once. *)
Inductive Report : Type :=
  | Loaded (n : nat)
  | Warning (e : exn).

Definition startswith (pre s : string) : bool := String.prefix pre s.

(** The body of the [for] loop, on the dictionary built so far. *)
Definition load_row (row : list string) (ids : gmap Z CatalogEntry)
  : result (gmap Z CatalogEntry) :=
  if 4 <=? len row then
    let* r0 := getitem row 0 in
    let can_id_hex := PyStr.strip (PyStr.lower r0) in
    let* can_id_int :=
      if startswith "0x" can_id_hex then PyStr.int16 can_id_hex
      else PyStr.int16 can_id_hex in
    let* r1 := getitem row 1 in
    let* r2 := getitem row 2 in
    let* r3 := getitem row 3 in
    Ok (<[can_id_int := {| source := r1; frequency := r2; data_bytes := r3 |}]> ids)
  else Ok ids.

(** The loop: the dictionary as it stands when the loop ends, and the
    exception that ended it, if one did. *)
Fixpoint load_rows (rows : list (list string)) (ids : gmap Z CatalogEntry)
  : gmap Z CatalogEntry * option exn :=
  match rows with
  | [] => (ids, None)
  | row :: rows' =>
      match load_row row ids with
      | Ok ids' => load_rows rows' ids'
      | Raise e => (ids, Some e)
      end
  end.

Definition _load_ids (ids_file : Descriptor) : gmap Z CatalogEntry * Report :=
  match ids_file with
  | Unreadable e => (∅, Warning e)
  | Rows [] => (∅, Warning StopIteration)
  | Rows (_ :: rows) =>
      match load_rows rows ∅ with
      | (ids, None) => (ids, Loaded (size ids))
      | (ids, Some e) => (ids, Warning e)
      end
  end.

(** [CANMessageParser(ids_file)]. *)
Definition init_parser (ids_file : Descriptor) : CANMessageParser :=
  {| ids_lookup := fst (_load_ids ids_file) |}.

(** *** The line pattern

    Matched at the start of the line, in this order: group 1, a run of
    digits, a dot and a run of digits; white space; the text RX and a
    colon; white space; group 2, a run of word characters inside square
    brackets; group 3, a run of word characters inside parentheses;
    white space; group 4, everything up to the end of the line. All runs
    but the last are non-empty. Every run is followed by a character
    that is not in its class (or by group 4, which accepts the empty
    string), so the greedy first try of the matcher is its only one and
    no backtracking is modelled. *)

(** A non-empty run of [p]. *)
Definition plus (p : ascii -> bool) (s : string) : option (string * string) :=
  match PyStr.span p s with
  | (EmptyString, _) => None
  | r => Some r
  end.

(** The literal [lit] at the start of [s]. *)
Fixpoint literal (lit s : string) : option string :=
  match lit, s with
  | EmptyString, _ => Some s
  | String a lit', String b s' => if Ascii.eqb a b then literal lit' s' else None
  | _, EmptyString => None
  end.

(** The groups of a match: the two digit runs of group 1, then groups
    2, 3 and 4. *)
Definition pattern_match (line : string)
  : option (string * string * string * string * string) :=
  '(int_part, s) ← plus PyStr.is_digit line;
  s ← literal "." s;
  '(frac_part, s) ← plus PyStr.is_digit s;
  '(_, s) ← plus PyStr.is_space s;
  s ← literal "RX:" s;
  '(_, s) ← plus PyStr.is_space s;
  s ← literal "[" s;
  '(g2, s) ← plus PyStr.is_word s;
  s ← literal "]" s;
  s ← literal "(" s;
  '(g3, s) ← plus PyStr.is_word s;
  s ← literal ")" s;
  '(_, s) ← plus PyStr.is_space s;
  let '(g4, _) := PyStr.span (fun c => negb (PyStr.is_newline c)) s in
  Some (int_part, frac_part, g2, g3, g4).

Definition nonblank (s : string) : bool :=
  match PyStr.strip s with
  | EmptyString => false
  | _ => true
  end.

Definition parse_line (line : string) : result (option RawFrame) :=
  match pattern_match line with
  | None => Ok None
  | Some (int_part, frac_part, can_id_hex, msg_type, data_hex) =>
      let* can_id := PyStr.int16 can_id_hex in
      let* data_bytes :=
        mapM PyStr.int16 (List.filter nonblank (PyStr.split data_hex)) in
      Ok (Some {| timestamp := PyStr.float_of_decimal int_part frac_part;
                  can_id := can_id;
                  can_id_hex := "0x" +:+ PyStr.format_X can_id;
                  msg_type := msg_type;
                  data := data_bytes;
                  raw := PyStr.strip line |})
  end.

(** *** [decode_message] *)

Definition decode_message (self : CANMessageParser) (message : option RawFrame)
  : result (option dict) :=
  match message with
  | None => Ok None
  | Some message =>
      let decoded := copy message in
      let can_id := can_id message in
      let data := data message in
      let decoded :=
        match ids_lookup self !! can_id with
        | Some entry =>
            dict_set "frequency" (VStr (frequency entry))
              (dict_set "source" (VStr (source entry)) decoded)
        | None =>
            dict_set "frequency" (VStr "Unknown")
              (dict_set "source" (VStr "Unknown") decoded)
        end in
      let* decoded :=
        if can_id =? 0x180 then
          if 8 <=? len data then
            let* d0 := getitem data 0 in
            let* d1 := getitem data 1 in
            let rpm_raw := Z.shiftl d0 8 + d1 in
            let* rpm := PyFloat.truediv rpm_raw 8 in
            let decoded := dict_set "rpm" (VFloat rpm) decoded in
            let* d5 := getitem data 5 in
            let* frac := PyFloat.truediv d5 255 in
            let* hundred := PyFloat.of_int 100 in
            Ok (dict_set "throttle_pct"
                  (VFloat (PyFloat.round1 (PyFloat.mul frac hundred))) decoded)
          else Ok decoded
        else if can_id =? 0x1F9 then
          if 4 <=? len data then
            let* d2 := getitem data 2 in
            let* d3 := getitem data 3 in
            let rpm_raw := Z.shiftl d2 8 + d3 in
            let* rpm := PyFloat.truediv rpm_raw 8 in
            Ok (dict_set "rpm" (VFloat rpm) decoded)
          else Ok decoded
        else if can_id =? 0x280 then
          if 6 <=? len data then
            let* d4 := getitem data 4 in
            let* d5 := getitem data 5 in
            let speed_raw := Z.shiftl d4 8 + d5 in
            let* kph := PyFloat.truediv speed_raw 100 in
            let decoded := dict_set "speed_kph" (VFloat kph) decoded in
            let* v := getitem_dict decoded "speed_kph" in
            match v with
            | VFloat kph' =>
                Ok (dict_set "speed_mph"
                      (VFloat (PyFloat.mul kph' PyFloat.lit_0_621371)) decoded)
            | _ => Raise TypeError
            end
          else Ok decoded
        else if can_id =? 0x002 then
          if 2 <=? len data then
            let* d1 := getitem data 1 in
            let* d0 := getitem data 0 in
            let steering_raw := Z.shiftl d1 8 + d0 in
            if steering_raw >? 32767 then
              let* q := PyFloat.truediv (65535 - steering_raw) 10 in
              Ok (dict_set "steering_angle" (VFloat (PyFloat.neg q)) decoded)
            else
              let* q := PyFloat.truediv steering_raw 10 in
              Ok (dict_set "steering_angle" (VFloat q) decoded)
          else Ok decoded
        else if can_id =? 0x551 then
          if 6 <=? len data then
            let* d0 := getitem data 0 in
            let decoded := dict_set "engine_temp" (VInt (d0 - 40)) decoded in
            let* d4 := getitem data 4 in
            let decoded :=
              dict_set "cruise_setpoint_kph" (if d4 >? 0 then VInt d4 else VNone)
                decoded in
            let* d5 := getitem data 5 in
            Ok (dict_set "cruise_status"
                  (VStr (if d5 =? 2 then "Active" else "Inactive")) decoded)
          else Ok decoded
        else if can_id =? 0x216 then
          if 1 <=? len data then
            let* d0 := getitem data 0 in
            if d0 =? 100 then Ok (dict_set "clutch" (VStr "Engaged") decoded)
            else if d0 =? 108 then Ok (dict_set "clutch" (VStr "Pressed") decoded)
            else
              Ok (dict_set "clutch"
                    (VStr ("Unknown (" +:+ PyStr.str_of_int d0 +:+ ")")) decoded)
          else Ok decoded
        else if can_id =? 0x421 then
          if 1 <=? len data then
            let* gear_value := getitem data 0 in
            if gear_value =? 24 then Ok (dict_set "gear" (VStr "Neutral") decoded)
            else if gear_value =? 128 then Ok (dict_set "gear" (VStr "1") decoded)
            else if gear_value =? 16 then Ok (dict_set "gear" (VStr "R") decoded)
            else
              Ok (dict_set "gear"
                    (VStr ("Unknown (" +:+ PyStr.str_of_int gear_value +:+ ")"))
                    decoded)
          else Ok decoded
        else Ok decoded in
      Ok (Some decoded)
  end.

(** ** [CANDatabase]: the [decoded_values] table *)

Record DecodedRow : Type := {
  row_timestamp : pyval;
  row_can_id : pyval;
  parameter : string;
  value : pyval;
  session_id : string
}.

(** [isinstance(value, (int, float))]. *)
Definition is_numeric (value : pyval) : bool :=
  match value with
  | VInt _ | VFloat _ => true
  | _ => false
  end.

Fixpoint str_in (k : string) (ks : list string) : bool :=
  match ks with
  | [] => false
  | k' :: ks' => String.eqb k k' || str_in k ks'
  end.

(** What [execute] does with one parameter when it binds it: an [int]
    is stored as a signed 64-bit integer and one outside that range
    raises [OverflowError]; a float, a text and [None] are taken as they
    are; a list has no SQLite type and raises an [sqlite3.Error]. *)
Definition bind_param (v : pyval) : result unit :=
  match v with
  | VInt n =>
      if (- 2 ^ 63 <=? n) && (n <? 2 ^ 63) then Ok tt else Raise OverflowError
  | VList _ => Raise Sqlite3Error
  | _ => Ok tt
  end.

(** The loop over [decoded.items()]: the rows that the connection holds
    when the loop ends, and the exception that ended it, if one did. For
    an entry that passes the test the tuple of parameters is built,
    which reads the two keys, and [execute] binds the parameters in
    their order: timestamp, identifier, key (a text), value, session (a
    text). The commit that follows the loop is reached only when no
    exception ended it. *)
Fixpoint insert_items (items decoded : dict) (sid : string)
    (table : list DecodedRow) : list DecodedRow * option exn :=
  match items with
  | [] => (table, None)
  | (key, value) :: items' =>
      if is_numeric value && negb (str_in key ["timestamp"; "can_id"]) then
        let executed :=
          let* ts := getitem_dict decoded "timestamp" in
          let* cid := getitem_dict decoded "can_id" in
          let* _ := bind_param ts in
          let* _ := bind_param cid in
          let* _ := bind_param value in
          Ok {| row_timestamp := ts; row_can_id := cid;
                parameter := key; value := value;
                session_id := sid |} in
        match executed with
        | Ok row => insert_items items' decoded sid (table ++ [row])
        | Raise e => (table, Some e)
        end
      else insert_items items' decoded sid table
  end.

Definition insert_decoded_values (table : list DecodedRow) (decoded : dict)
    (sid : string) : list DecodedRow * option exn :=
  insert_items decoded decoded sid table.

(** ** [CANFileReader] *)

(** A dict is true when it is not empty; [None] is false. *)
Definition truthy (d : option dict) : bool :=
  match d with
  | Some (_ :: _) => true
  | _ => false
  end.

Definition frame_truthy (m : option RawFrame) : bool :=
  match m with
  | Some m => truthy (Some (copy m))
  | None => false
  end.

(** The loop of [read_all] over the lines of the file: the messages
    collected when the loop ends, and the exception that ended it. *)
Fixpoint read_lines (parser : CANMessageParser) (lines : list string)
    (messages : list dict) : list dict * option exn :=
  match lines with
  | [] => (messages, None)
  | line :: lines' =>
      match parse_line line with
      | Raise e => (messages, Some e)
      | Ok message =>
          if frame_truthy message then
            match decode_message parser message with
            | Raise e => (messages, Some e)
            | Ok decoded =>
                if truthy decoded then
                  read_lines parser lines' (messages ++ [default [] decoded])
                else read_lines parser lines' messages
            end
          else read_lines parser lines' messages
      end
  end.

(** [read_all]: [None] is a file that cannot be opened. *)
Definition read_all (parser : CANMessageParser) (file : option (list string))
  : list dict :=
  match file with
  | None => []
  | Some lines => fst (read_lines parser lines [])
  end.

(** ** [CANSerialReader]: the bounded queue

    [queue.Queue] takes its lock for each of [full], [put] and [get], so
    each is one atomic step. The read thread tests [full()] and then
    calls [put]; the consumer may run between the two. *)

Definition maxsize : Z := 1000.

Record CANSerialReader : Type := {
  message_queue : list dict;
  (* the frame of the read thread between [full()] and [put] *)
  in_hand : option dict
}.

Definition new_reader : CANSerialReader :=
  {| message_queue := []; in_hand := None |}.

(** [Queue.full]. *)
Definition full (q : list dict) : bool := (0 <? maxsize) && (maxsize <=? len q).

(** Who takes the next step: the read thread, with the line that the
    port would give it, or the consumer, in [get_message]. *)
Inductive Turn : Type :=
  | Producer (line : string)
  | Consumer.

Inductive Event : Type :=
  | NoFrame            (* the line gave no frame, or raised and was caught *)
  | Dropped (m : dict) (* the queue was full *)
  | Checked (m : dict) (* [full()] was false *)
  | Enqueued (m : dict)
  | Blocked            (* [put] has to wait for room *)
  | Got (m : dict)
  | Empty.

(** The part of one iteration of [_read_thread] up to the test of
    [full()]. *)
Definition read_step (parser : CANMessageParser) (line : string)
    (r : CANSerialReader) : CANSerialReader * Event :=
  match parse_line line with
  | Raise _ => (r, NoFrame)
  | Ok message =>
      if frame_truthy message then
        match decode_message parser message with
        | Raise _ => (r, NoFrame)
        | Ok decoded =>
            match decoded with
            | Some m =>
                if truthy decoded && negb (full (message_queue r)) then
                  ({| message_queue := message_queue r; in_hand := Some m |},
                   Checked m)
                else if truthy decoded then (r, Dropped m)
                else (r, NoFrame)
            | None => (r, NoFrame)
            end
        end
      else (r, NoFrame)
  end.

(** [Queue.put], blocking: with no room the caller waits. *)
Definition put (m : dict) (r : CANSerialReader) : CANSerialReader * Event :=
  if (0 <? maxsize) && (maxsize <=? len (message_queue r)) then (r, Blocked)
  else ({| message_queue := message_queue r ++ [m]; in_hand := None |},
        Enqueued m).

(** [get_message] without waiting. *)
Definition get_message (r : CANSerialReader) : CANSerialReader * Event :=
  match message_queue r with
  | [] => (r, Empty)
  | m :: q => ({| message_queue := q; in_hand := in_hand r |}, Got m)
  end.

Definition step (parser : CANMessageParser) (r : CANSerialReader) (t : Turn)
  : CANSerialReader * Event :=
  match t with
  | Producer line =>
      match in_hand r with
      | Some m => put m r
      | None => read_step parser line r
      end
  | Consumer => get_message r
  end.

(** A schedule is an interleaving; [run] gives the state it leads to and
    the events, oldest first. *)
Fixpoint run (parser : CANMessageParser) (schedule : list Turn)
    (r : CANSerialReader) : CANSerialReader * list Event :=
  match schedule with
  | [] => (r, [])
  | t :: schedule' =>
      let '(r', e) := step parser r t in
      let '(r'', es) := run parser schedule' r' in
      (r'', e :: es)
  end.

(** ** Replay of a log file *)

(** [x['timestamp']] as the sort key and in the pacing test.
    [decode_message] stores a float there; a value of another type is
    outside the model and is reported as [TypeError]. *)
Definition timestamp_of (x : dict) : result float :=
  let* v := getitem_dict x "timestamp" in
  match v with
  | VFloat t => Ok t
  | _ => Raise TypeError
  end.

(** [list.sort] is stable and compares keys with [<] only: an element
    goes before the first one whose key is greater than its own. *)
Fixpoint insert_keyed (k : float) (x : dict) (l : list (float * dict))
  : list (float * dict) :=
  match l with
  | [] => [(k, x)]
  | (k', x') :: l' =>
      if PyFloat.ltb k k' then (k, x) :: l else (k', x') :: insert_keyed k x l'
  end.

Definition sort_keyed (l : list (float * dict)) : list (float * dict) :=
  fold_left (fun acc kx => insert_keyed (fst kx) (snd kx) acc) l [].

(** [messages.sort(key=lambda x: x['timestamp'])]: the keys are
    computed first, then the list is sorted on them. *)
Definition sort_by_timestamp (messages : list dict) : result (list dict) :=
  let* keys := mapM timestamp_of messages in
  Ok (List.map snd (sort_keyed (combine keys messages))).

(** What one iteration of the curses loop reads from outside:
    [screen.getch()] and [time.time()]. *)
Record Reading : Type := {
  key : Z;
  now : float
}.

(** The surroundings of a replay: the clock when it starts, the readings
    of the curses loop by iteration, the character that standard input
    has for the console loop at a message index ([-1] for none), and
    whether [time.sleep] accepts a duration. *)
Record Env : Type := {
  start_time : float;
  readings : nat -> Reading;
  stdin : nat -> Z;
  sleep_ok : float -> bool
}.

Inductive Outcome : Type :=
  | Complete
  | NothingToReplay
  | Quit
  | Failed (e : exn)
  | Running.

Definition ord_q : Z := 113.

(** The pacing test of the curses loop. *)
Definition due (start ref_timestamp replay_speed : float) (now ts : float) : bool :=
  let elapsed := PyFloat.mul (PyFloat.sub now start) replay_speed in
  PyFloat.geb elapsed (PyFloat.sub ts ref_timestamp).

(** The [while] loop of [_replay_with_curses]; [monitor] is the list of
    messages given to [monitor.update] so far, [tick] counts iterations.
    The loop is not bound to end: [fuel] bounds the iterations observed. *)
Fixpoint replay_loop (fuel : nat) (env : Env) (tick : nat) (messages : list dict)
    (ref_timestamp replay_speed : float) (i : nat) (monitor : list dict)
  : list dict * Outcome :=
  match fuel with
  | O => (monitor, Running)
  | S fuel' =>
      if Z.of_nat i <? len messages then
        let r := readings env tick in
        if key r =? ord_q then (monitor, Quit)
        else
          match getitem messages i with
          | Raise e => (monitor, Failed e)
          | Ok message =>
              match timestamp_of message with
              | Raise e => (monitor, Failed e)
              | Ok ts =>
                  if due (start_time env) ref_timestamp replay_speed (now r) ts then
                    replay_loop fuel' env (S tick) messages ref_timestamp
                      replay_speed (S i) (monitor ++ [message])
                  else
                    replay_loop fuel' env (S tick) messages ref_timestamp
                      replay_speed i monitor
              end
          end
      else (monitor, Complete)
  end.

Definition _replay_with_curses (env : Env) (fuel : nat) (messages : list dict)
    (replay_speed : float) : list dict * Outcome :=
  match getitem messages 0 with
  | Raise e => ([], Failed e)
  | Ok first =>
      match timestamp_of first with
      | Raise e => ([], Failed e)
      | Ok ref_timestamp =>
          replay_loop fuel env 0 messages ref_timestamp replay_speed 0 []
      end
  end.

(** [time.sleep(max(0, time_diff / replay_speed))]. *)
Definition pause (env : Env) (time_diff replay_speed : float) : result unit :=
  let* d := PyFloat.fdiv time_diff replay_speed in
  if PyFloat.ltb (S754_zero false) d then
    if sleep_ok env d then Ok tt else Raise OverflowError
  else Ok tt.

(** The [for] loop of [_replay_without_curses] from index [i] on;
    [rest] is [messages[i:]]. *)
Fixpoint replay_each (env : Env) (messages rest : list dict)
    (replay_speed : float) (i : nat) (monitor : list dict)
  : list dict * Outcome :=
  match rest with
  | [] => (monitor, Complete)
  | message :: rest' =>
      let slept :=
        if (0 <? i)%nat then
          let* ts := timestamp_of message in
          let* previous := getitem messages (i - 1) in
          let* ts' := timestamp_of previous in
          pause env (PyFloat.sub ts ts') replay_speed
        else Ok tt in
      match slept with
      | Raise e => (monitor, Failed e)
      | Ok _ =>
          let monitor := monitor ++ [message] in
          if (Nat.modulo i 10 =? 0)%nat && (stdin env i =? ord_q) then (monitor, Quit)
          else replay_each env messages rest' replay_speed (S i) monitor
      end
  end.

Definition _replay_without_curses (env : Env) (messages : list dict)
    (replay_speed : float) : list dict * Outcome :=
  match getitem messages 0 with
  | Raise e => ([], Failed e)
  | Ok first =>
      match timestamp_of first with
      | Raise e => ([], Failed e)
      | Ok _ => replay_each env messages messages replay_speed 0 []
      end
  end.

(** [monitor_file] once the file has been read: the messages given to
    the monitor, in order, and how the replay ended. *)
Definition replay_messages (env : Env) (fuel : nat) (messages : list dict)
    (use_curses : bool) (replay_speed : float) : list dict * Outcome :=
  match messages with
  | [] => ([], NothingToReplay)
  | _ =>
      match sort_by_timestamp messages with
      | Raise e => ([], Failed e)
      | Ok messages =>
          if use_curses then _replay_with_curses env fuel messages replay_speed
          else _replay_without_curses env messages replay_speed
      end
  end.

Definition monitor_file (ids_file : Descriptor) (file : option (list string))
    (env : Env) (fuel : nat) (use_curses : bool) (replay_speed : float)
  : list dict * Outcome :=
  let parser := init_parser ids_file in
  let messages := read_all parser file in
  replay_messages env fuel messages use_curses replay_speed.

(** ** Vocabulary of the statements *)

(** The decoded frame before any signal is added: the items of the raw
    frame, then the catalog's source and frequency, or "Unknown". *)
Definition base_fields (self : CANMessageParser) (m : RawFrame) : dict :=
  copy m ++
  match ids_lookup self !! can_id m with
  | Some entry => [("source", VStr (source entry)); ("frequency", VStr (frequency entry))]
  | None => [("source", VStr "Unknown"); ("frequency", VStr "Unknown")]
  end.

Definition is_byte (b : Z) : Prop := 0 <= b < 256.

(** The signal names that [decode_message] can add. *)
Definition signal_names : list string :=
  [ "rpm"; "throttle_pct"; "speed_kph"; "speed_mph"; "steering_angle";
    "engine_temp"; "cruise_setpoint_kph"; "cruise_status"; "clutch"; "gear" ].

(** The byte positions that the rule of an identifier reads; no rule,
    no position. *)
Definition rule_offsets (can_id : Z) : list nat :=
  if can_id =? 0x180 then [0; 1; 5]%nat
  else if can_id =? 0x1F9 then [2; 3]%nat
  else if can_id =? 0x280 then [4; 5]%nat
  else if can_id =? 0x002 then [1; 0]%nat
  else if can_id =? 0x551 then [0; 4; 5]%nat
  else if can_id =? 0x216 then [0]%nat
  else if can_id =? 0x421 then [0]%nat
  else [].

(** The payload is too short for the rule: some position that the rule
    reads is not there. *)
Definition too_short (can_id : Z) (data : list Z) : bool :=
  existsb (fun off => (List.length data <=? off)%nat) (rule_offsets can_id).

(** The value of a signal in the outcome of a decode, if it is there. *)
Definition signal (k : string) (r : result (option dict)) : option pyval :=
  match r with
  | Ok (Some d) => dict_get k d
  | _ => None
  end.

(** Frames and a parser for the examples. *)
Definition frame_at (t : float) (can_id : Z) (data : list Z) : RawFrame :=
  {| timestamp := t;
     can_id := can_id;
     can_id_hex := "0x" +:+ PyStr.format_X can_id;
     msg_type := "ext";
     data := data;
     raw := "" |}.

Definition frame : Z -> list Z -> RawFrame := frame_at (PyFloat.decimal 10 1).

Definition no_catalog : CANMessageParser := {| ids_lookup := ∅ |}.

(** The line of the end-to-end scenario. *)
Definition scenario_line : string :=
  "1000.250 RX: [0180](ext) 07 D0 00 00 00 80 00 00".

(** *** The queue

    The invariant of the reader: the queue is within its capacity, and a
    frame in the hand of the read thread has room waiting for it. *)
Definition queue_inv (r : CANSerialReader) : Prop :=
  len (message_queue r) <= maxsize /\
  (in_hand r <> None -> len (message_queue r) < maxsize).

(** *** Catalog rows *)

(** The identifier of a descriptor row, as [_load_ids] reads it. *)
Definition row_key (row : list string) : result Z :=
  PyStr.int16 (PyStr.strip (PyStr.lower (nth 0 row EmptyString))).

Definition is_ok {A : Type} (r : result A) : bool :=
  match r with
  | Ok _ => true
  | Raise _ => false
  end.

Definition has_four_fields (row : list string) : bool :=
  (4 <=? List.length row)%nat.

(** A row that does not end the load: it has fewer than four fields, and
    is skipped, or its identifier is hexadecimal, and it is stored. *)
Definition row_loads (row : list string) : bool :=
  (List.length row <? 4)%nat || is_ok (row_key row).

(** The rows before the first one that ends the load. *)
Fixpoint loading_prefix (rows : list (list string)) : list (list string) :=
  match rows with
  | [] => []
  | row :: rows' => if row_loads row then row :: loading_prefix rows' else []
  end.

(** What a row with four fields or more and a hexadecimal identifier
    adds to the catalog; any other row adds nothing. *)
Definition add_row (ids : gmap Z CatalogEntry) (row : list string)
  : gmap Z CatalogEntry :=
  match row, row_key row with
  | _ :: r1 :: r2 :: r3 :: _, Ok k =>
      <[k := {| source := r1; frequency := r2; data_bytes := r3 |}]> ids
  | _, _ => ids
  end.

Definition catalog_of (rows : list (list string)) : gmap Z CatalogEntry :=
  fold_left add_row rows ∅.

(** A descriptor whose second data row has an identifier that is not
    hexadecimal. *)
Definition descriptor_with_bad_row : Descriptor :=
  Rows [ ["id"; "source"; "frequency"; "bytes"];
         ["0x180"; "ECM"; "100"; "8"];
         ["zz"; "BCM"; "50"; "8"];
         ["002"; "STRG"; "100"; "8"] ].

(** *** Rows of the [decoded_values] table *)

(** The entries that [insert_decoded_values] writes. *)
Definition persisted (item : string * pyval) : bool :=
  is_numeric (snd item) && negb (str_in (fst item) ["timestamp"; "can_id"]).

Definition row_of (ts cid : pyval) (sid : string) (item : string * pyval)
  : DecodedRow :=
  {| row_timestamp := ts; row_can_id := cid;
     parameter := fst item; value := snd item; session_id := sid |}.

Definition categorical : list string := ["gear"; "clutch"; "cruise_status"].

(** What [decode_message] may put after the base fields: a signal name,
    with text under a categorical one. *)
Definition signal_ok (item : string * pyval) : bool :=
  str_in (fst item) signal_names
  && (if str_in (fst item) categorical then negb (is_numeric (snd item)) else true).

(** *** Timestamps and their order *)

(** The place of a float on the number line, as a triple ordered
    lexicographically: class, then exponent, then mantissa, the last two
    negated for a negative float. Both zeros have the same place. *)
Definition rank (x : float) : Z * Z * Z :=
  match x with
  | S754_infinity true => (-2, 0, 0)
  | S754_finite true m e => (-1, - e, - Zpos m)
  | S754_zero _ => (0, 0, 0)
  | S754_finite false m e => (1, e, Zpos m)
  | S754_infinity false => (2, 0, 0)
  | S754_nan => (3, 0, 0)
  end.

Definition lex_lt (a b : Z * Z * Z) : Prop :=
  let '(a1, a2, a3) := a in
  let '(b1, b2, b3) := b in
  a1 < b1 \/ (a1 = b1 /\ (a2 < b2 \/ (a2 = b2 /\ a3 < b3))).

Definition stamp (x : dict) : float :=
  match timestamp_of x with
  | Ok t => t
  | Raise _ => S754_nan
  end.

Definition stamped (x : dict) : bool :=
  match timestamp_of x with
  | Ok t => negb (PyFloat.is_nan t)
  | Raise _ => false
  end.

(** [a] is not later than [b]. *)
Definition not_later (a b : dict) : Prop := PyFloat.leb (stamp a) (stamp b) = true.

(** The timestamp of [x] compares equal to [t]. *)
Definition at_time (t : float) (x : dict) : bool :=
  PyFloat.leb t (stamp x) && PyFloat.leb (stamp x) t.

Definition keyed (x : dict) : float * dict := (stamp x, x).

Definition well_keyed (kx : float * dict) : Prop :=
  fst kx = stamp (snd kx) /\ PyFloat.is_nan (fst kx) = false.

(** A speed above zero. *)
Definition positive_speed (x : float) : Prop := PyFloat.ltb (S754_zero false) x = true.

Definition finished (o : Outcome) : Prop := o = Complete \/ o = NothingToReplay.

(** The time since the start that the clock shows at an iteration,
    scaled by the speed: [(time.time() - start_time) * replay_speed]. *)
Definition elapsed (env : Env) (replay_speed : float) (tick : nat) : float :=
  PyFloat.mul (PyFloat.sub (now (readings env tick)) (start_time env)) replay_speed.

(** Nobody presses [q], and the clock goes on: whenever one looks, at
    some later iteration the scaled time since the start is at least
    the distance in time of the frame from the first frame. *)
Definition patient (env : Env) (replay_speed : float) (sorted : list dict) : Prop :=
  (forall tick, key (readings env tick) <> ord_q) /\
  (forall x, In x sorted -> forall tick, exists tick',
      (tick <= tick')%nat /\
      PyFloat.geb (elapsed env replay_speed tick')
                  (PyFloat.sub (stamp x) (stamp (hd [] sorted))) = true).

(** Nobody types [q], and [time.sleep] takes every duration. *)
Definition calm (env : Env) : Prop :=
  (forall i, stdin env i <> ord_q) /\ (forall d, sleep_ok env d = true).

(** Surroundings for the examples: the clock stands at 100 seconds
    after the start, no key is pressed, nothing is typed, every pause is
    accepted. *)
Definition steady_env : Env :=
  {| start_time := PyFloat.decimal 0 1;
     readings := fun _ => {| key := -1; now := PyFloat.decimal 1000 1 |};
     stdin := fun _ => -1;
     sleep_ok := fun _ => true |}.

(** Two decoded frames, the later one first. *)
Definition example_log : list dict :=
  [ base_fields no_catalog (frame_at (PyFloat.decimal 20 1) 0x421 [0x80]);
    base_fields no_catalog (frame_at (PyFloat.decimal 10 1) 0x180 []) ].

(** ** Further parts of the program, and the words of their statements *)

(** *** The decode table, identifier by identifier *)

(** The identifiers that [decode_message] has a rule for. *)
Definition known_ids : list Z := [0x180; 0x1F9; 0x280; 0x002; 0x551; 0x216; 0x421].

(** A 16-bit value from two bytes, the high one first. *)
Definition big_endian (hi lo : Z) : Z := 256 * hi + lo.

(** [100.0], the float that the integer 100 becomes. *)
Definition hundred : float := PyFloat.decimal 1000 1.

(** [round((b / 255) * 100, 1)] for an integer [b] whose quotient is finite. *)
Definition throttle_of (b : Z) : float :=
  PyFloat.round1 (PyFloat.mul (PyFloat.ratio b 255) hundred).

(** The keys of a dictionary, in order. *)
Definition keys (d : dict) : list string := List.map fst d.

(** All the bytes, as a list. *)
Fixpoint bytes_upto (n : nat) : list Z :=
  match n with
  | O => []
  | S n' => bytes_upto n' ++ [Z.of_nat n']
  end.

(** The length that the rule of an identifier asks of the payload
    before it reads it; no rule, no demand. *)
Definition rule_min_len (can_id : Z) : nat :=
  if can_id =? 0x180 then 8
  else if can_id =? 0x1F9 then 4
  else if can_id =? 0x280 then 6
  else if can_id =? 0x002 then 2
  else if can_id =? 0x551 then 6
  else if can_id =? 0x216 then 1
  else if can_id =? 0x421 then 1
  else 0.

(** *** Lines and their rendering *)

(** All the characters of [s] satisfy [p]. *)
Fixpoint all_chars (p : ascii -> bool) (s : string) : bool :=
  match s with
  | EmptyString => true
  | String c s' => p c && all_chars p s'
  end.

(** A non-empty run of [p]. *)
Definition run_of (p : ascii -> bool) (s : string) : bool :=
  negb (String.eqb s "") && all_chars p s.

(** [s] does not go on with a character of [p]. *)
Definition stops (p : ascii -> bool) (s : string) : bool :=
  match s with
  | EmptyString => true
  | String c _ => negb (p c)
  end.

(** [format(n, "02X")]: two places at least, filled with zeros after
    the sign. *)
Definition format_02X (n : Z) : string :=
  let s := PyStr.format_X n in
  if (String.length s <? 2)%nat then "0" +:+ s else s.

(** [sep.join(l)]. *)
Fixpoint join (sep : string) (l : list string) : string :=
  match l with
  | [] => ""
  | [x] => x
  | x :: l' => x +:+ sep +:+ join sep l'
  end.

(** The payload as [print_message], [_update_screen] and
    [export_to_csv] render it. *)
Definition data_str (data : list Z) : string :=
  join " " (List.map format_02X data).

(** A log line of the shape that the pattern of the parser describes,
    with single spaces: time, [RX:], the identifier in square brackets,
    the tag in parentheses, the payload. *)
Definition log_line (int_part frac_part id_text tag payload : string) : string :=
  int_part +:+ "." +:+ frac_part +:+ " RX: [" +:+ id_text +:+ "](" +:+ tag +:+ ") "
  +:+ payload.

(** A digit of an upper-case hexadecimal numeral. *)
Definition is_upper_hex (c : ascii) : bool :=
  PyStr.is_digit c || PyStr.in_range 65 70 c.

(** *** What a log file gives *)

Definition starts_with_digit (line : string) : bool :=
  match line with
  | String c _ => PyStr.is_digit c
  | EmptyString => false
  end.

(** The frames that one line adds to the list of [read_all]: the
    decoded frame of a line that parses, nothing otherwise. *)
Definition frames_of_line (parser : CANMessageParser) (line : string) : list dict :=
  match parse_line line with
  | Ok (Some m) =>
      match decode_message parser (Some m) with
      | Ok (Some d) => [d]
      | _ => []
      end
  | _ => []
  end.

(** The line makes [parse_line] or [decode_message] raise. *)
Definition line_raises (parser : CANMessageParser) (line : string) : bool :=
  match parse_line line with
  | Raise _ => true
  | Ok message => negb (is_ok (decode_message parser message))
  end.

(** The lines before the first one that raises. *)
Fixpoint before_raise (parser : CANMessageParser) (lines : list string) : list string :=
  match lines with
  | [] => []
  | line :: lines' =>
      if line_raises parser line then [] else line :: before_raise parser lines'
  end.

(** ** The bus logger, [src/main.py]

    The line written for each message of the bus. The text of the
    timestamp, a float, and of the payload, a [bytearray], are whatever
    [str] makes of them; the identifier is formatted with [#x]. *)
Module Logger.

Definition format_hash_x (n : Z) : string :=
  (if n <? 0 then "-" else "") +:+ "0x"
  +:+ HexadecimalString.NilZero.string_of_uint (N.to_hex_uint (Z.abs_N n)).

Definition log_entry (timestamp : string) (arbitration_id : Z) (data : string)
  : string :=
  "Timestamp: " +:+ timestamp +:+ ", ID: " +:+ format_hash_x arbitration_id
  +:+ ", Data: " +:+ data +:+ String "010" "".

End Logger.

(** ** The firmware, [src/pico/code.py]

    What the board prints: a banner, then two lines per message, each
    ended by [print] with a newline. The texts of the identifier and of
    the payload are whatever [str] makes of them. *)
Module Pico.

Definition banner : string := "CAN bus initialized" +:+ String "010" "".

Definition message_lines (id data : string) : list string :=
  [ "Message ID: " +:+ id +:+ String "010" "";
    "Message Data: " +:+ data +:+ String "010" "" ].

Definition output (messages : list (string * string)) : list string :=
  banner :: flat_map (fun '(id, data) => message_lines id data) messages.

End Pico.

(** A line that one of the two other programs of the repository
    writes. *)
Definition foreign_line (line : string) : Prop :=
  (exists timestamp arbitration_id data,
      line = Logger.log_entry timestamp arbitration_id data) \/
  (exists messages, In line (Pico.output messages)).

(** *** Events of the live reader *)

(** The frames that were put on the queue, oldest first. *)
Definition enqueued (events : list Event) : list dict :=
  flat_map (fun e => match e with Enqueued m => [m] | _ => [] end) events.

(** The frames that the consumer got, oldest first. *)
Definition got (events : list Event) : list dict :=
  flat_map (fun e => match e with Got m => [m] | _ => [] end) events.

(** The frames that passed the test of [full()], oldest first. *)
Definition checked (events : list Event) : list dict :=
  flat_map (fun e => match e with Checked m => [m] | _ => [] end) events.

(** The frames that found the queue full, oldest first. *)
Definition dropped (events : list Event) : list dict :=
  flat_map (fun e => match e with Dropped m => [m] | _ => [] end) events.

(** The frame that the read thread holds, if it holds one. *)
Definition held (r : CANSerialReader) : list dict :=
  match in_hand r with
  | Some m => [m]
  | None => []
  end.

(** ** [export_to_csv] *)

(** The keys that are not exported as columns of their own. *)
Definition base_keys : list string :=
  ["timestamp"; "can_id"; "can_id_hex"; "msg_type"; "data"; "raw"; "source"; "frequency"].

(** The text of the payload: [' '.join([f'{b:02X}' for b in v])]. A
    list of integers is rendered; the empty string has nothing to
    render; a character of a string has no format [X]; the other values
    are not iterable. *)
Definition render_data (v : pyval) : result string :=
  match v with
  | VList l => Ok (data_str l)
  | VStr EmptyString => Ok ""
  | VStr _ => Raise ValueError
  | _ => Raise TypeError
  end.

(** The row built for one message. *)
Definition export_row (msg : dict) : result dict :=
  let* timestamp := getitem_dict msg "timestamp" in
  let* can_id_hex := getitem_dict msg "can_id_hex" in
  let* source := getitem_dict msg "source" in
  let* data := getitem_dict msg "data" in
  let* raw_data := render_data data in
  let row := [ ("timestamp", timestamp); ("can_id", can_id_hex);
               ("source", source); ("raw_data", VStr raw_data) ] in
  Ok (fold_left (fun row '(key, value) =>
                   if str_in key base_keys then row else dict_set key value row)
                msg row).

(** [export_to_csv]: [None] when the function returns [False], the rows
    handed to the data frame when it returns [True]. Writing the file is
    left to the data-frame library and is not modelled. *)
Definition export_to_csv (parser : CANMessageParser) (file : option (list string))
  : result (option (list dict)) :=
  let messages := read_all parser file in
  match messages with
  | [] => Ok None
  | _ =>
      let* df_rows := mapM export_row messages in
      Ok (Some df_rows)
  end.

(** The row of a decoded frame, as the statements describe it: four
    columns, then the items of the frame whose key is not a base key. *)
Definition csv_row (d : dict) : dict :=
  [ ("timestamp", default VNone (dict_get "timestamp" d));
    ("can_id", default VNone (dict_get "can_id_hex" d));
    ("source", default VNone (dict_get "source" d));
    ("raw_data",
     VStr (match dict_get "data" d with
           | Some (VList l) => data_str l
           | _ => ""
           end)) ]
  ++ List.filter (fun item => negb (str_in (fst item) base_keys)) d.

(** ** [CANDatabase]: the [raw_messages] table

    A row as [insert_raw_message] binds it; the column [data] holds the
    JSON text of the value kept here. What the disk or a lock may do to
    an [execute] or a [commit] is not modelled; what the values
    themselves make them do is. *)
Record RawRow : Type := {
  rm_timestamp : pyval;
  rm_can_id : pyval;
  rm_can_id_hex : pyval;
  rm_message_type : pyval;
  rm_data : pyval;
  rm_raw_text : pyval;
  rm_session_id : string
}.

(** [sys.get_int_max_str_digits()]: an [int] of more digits has no
    decimal numeral. *)
Definition int_max_str_digits : Z := 4300.

(** [json.dumps(v)], as far as it can raise: the text of an [int] is its
    decimal numeral, which is refused, with [ValueError], to an [int] of
    more than 4300 digits; every other value has a text. The text itself
    is not modelled. *)
Definition json_dumps (v : pyval) : result unit :=
  let has_numeral (n : Z) := Z.abs n <? 10 ^ int_max_str_digits in
  match v with
  | VInt n => if has_numeral n then Ok tt else Raise ValueError
  | VList l => if forallb has_numeral l then Ok tt else Raise ValueError
  | _ => Ok tt
  end.

(** The tuple of parameters is built first, which reads the keys in the
    order of the tuple and serialises the payload; then [execute] binds
    the parameters in their order, the JSON text and the session being
    texts; then comes the commit. *)
Definition insert_raw_message (table : list RawRow) (message : dict) (sid : string)
  : result (list RawRow) :=
  let* timestamp := getitem_dict message "timestamp" in
  let* can_id := getitem_dict message "can_id" in
  let* can_id_hex := getitem_dict message "can_id_hex" in
  let* msg_type := getitem_dict message "msg_type" in
  let* data := getitem_dict message "data" in
  let* _ := json_dumps data in
  let* raw := getitem_dict message "raw" in
  let* _ := bind_param timestamp in
  let* _ := bind_param can_id in
  let* _ := bind_param can_id_hex in
  let* _ := bind_param msg_type in
  let* _ := bind_param raw in
  Ok (table ++ [ {| rm_timestamp := timestamp; rm_can_id := can_id;
                    rm_can_id_hex := can_id_hex; rm_message_type := msg_type;
                    rm_data := data; rm_raw_text := raw;
                    rm_session_id := sid |} ]).

(** The rows that the connection holds. *)
Record Database : Type := {
  raw_messages : list RawRow;
  decoded_values : list DecodedRow
}.

(** ** [CANMonitor]

    The fields that [update] reads and writes. [message_history] is a
    dictionary of deques in insertion order, keyed by the text under
    [can_id_hex].

    [_update_screen] reads the latest values and the history and writes
    to the terminal. What it writes is not modelled; that it can raise
    is: a window too small for a line, a value that has no text. A
    screen is given as what its drawing raises, if anything, for the
    values and the history that it is to draw. *)
Definition Screen : Type := dict -> list (string * list dict) -> option exn.

Record CANMonitor : Type := {
  screen : option Screen;
  db : option Database;
  monitor_session_id : string;
  history_length : Z;
  latest_values : dict;
  message_history : list (string * list dict)
}.

(** The values that [__init__] gives to [latest_values]. *)
Definition initial_values : dict :=
  [ ("rpm", VInt 0); ("speed_kph", VInt 0); ("throttle_pct", VInt 0);
    ("steering_angle", VInt 0); ("engine_temp", VInt 0); ("gear", VStr "N");
    ("clutch", VStr "Engaged"); ("cruise_status", VStr "Inactive");
    ("cruise_setpoint_kph", VInt 0) ].

(** [CANMonitor(screen, db_path, history_length)]: [existing] is what
    the database file holds when it is opened, [None] when no database
    path is given; [sid] is the text of the clock. *)
Definition new_monitor (screen : option Screen) (existing : option Database)
    (sid : string) (history_length : Z) : CANMonitor :=
  {| screen := screen; db := existing; monitor_session_id := sid;
     history_length := history_length;
     latest_values := initial_values; message_history := [] |}.

(** [d.append(x)] on a deque made with [maxlen]: over the length, the
    oldest element goes. *)
Definition deque_append (maxlen : Z) (d : list dict) (x : dict) : list dict :=
  let d' := d ++ [x] in
  if maxlen <? len d' then tl d' else d'.

Fixpoint history_get (k : string) (h : list (string * list dict)) : option (list dict) :=
  match h with
  | [] => None
  | (k', d) :: h' => if String.eqb k k' then Some d else history_get k h'
  end.

Fixpoint history_set (k : string) (d : list dict) (h : list (string * list dict))
  : list (string * list dict) :=
  match h with
  | [] => [(k, d)]
  | (k', d') :: h' =>
      if String.eqb k k' then (k, d) :: h' else (k', d') :: history_set k d h'
  end.

(** The key of the history: [decode_message] stores a [str] under
    [can_id_hex]; a list cannot be hashed; a key of another type is
    outside the model and is reported as [TypeError]. *)
Definition history_key (v : pyval) : result string :=
  match v with
  | VStr s => Ok s
  | _ => Raise TypeError
  end.

(** The two inserts of [update]: the database as they leave it, and the
    exception that one of them raised. The first insert commits its row;
    the rows of a second insert that raises are with the connection but
    not committed. *)
Definition update_db (d : Database) (message : dict) (sid : string)
  : Database * option exn :=
  match insert_raw_message (raw_messages d) message sid with
  | Raise e => (d, Some e)
  | Ok raws =>
      let '(decs, e) := insert_decoded_values (decoded_values d) message sid in
      ({| raw_messages := raws; decoded_values := decs |}, e)
  end.

(** The loop over the keys of [latest_values]. *)
Definition update_latest (latest message : dict) : dict :=
  List.map (fun item => (fst item, default (snd item) (dict_get (fst item) message)))
           latest.

(** The update of the history: a deque is made for an identifier that
    has none, and the message is appended to the deque of its
    identifier. *)
Definition update_history (history_length : Z) (h : list (string * list dict))
    (can_id : string) (message : dict) : result (list (string * list dict)) :=
  let* d :=
    match history_get can_id h with
    | Some d => Ok d
    | None => if history_length <? 0 then Raise ValueError else Ok []
    end in
  Ok (history_set can_id (deque_append history_length d message) h).

(** [self._update_screen()] when there is a screen. *)
Definition draw (self : CANMonitor) : option exn :=
  match screen self with
  | Some drawing => drawing (latest_values self) (message_history self)
  | None => None
  end.

(** [monitor.update(message)]: the monitor as the call leaves it, and
    the exception that ended it, if one did. *)
Definition update (self : CANMonitor) (message : dict) : CANMonitor * option exn :=
  let sid := monitor_session_id self in
  let '(db', failed) :=
    match db self with
    | None => (None, None)
    | Some d => let '(d', e) := update_db d message sid in (Some d', e)
    end in
  let self1 :=
    {| screen := screen self; db := db'; monitor_session_id := sid;
       history_length := history_length self;
       latest_values := latest_values self;
       message_history := message_history self |} in
  match failed with
  | Some e => (self1, Some e)
  | None =>
      match getitem_dict message "can_id_hex" with
      | Raise e => (self1, Some e)
      | Ok can_id =>
          let self2 :=
            {| screen := screen self; db := db'; monitor_session_id := sid;
               history_length := history_length self;
               latest_values := update_latest (latest_values self) message;
               message_history := message_history self |} in
          match history_key can_id with
          | Raise e => (self2, Some e)
          | Ok k =>
              match update_history (history_length self) (message_history self)
                      k message with
              | Raise e => (self2, Some e)
              | Ok h =>
                  let self3 :=
                    {| screen := screen self; db := db'; monitor_session_id := sid;
                       history_length := history_length self;
                       latest_values := update_latest (latest_values self) message;
                       message_history := h |} in
                  (self3, draw self3)
              end
          end
      end
  end.

(** The monitor after the messages of a replay, given to [update] one
    after the other; an exception ends the replay. *)
Fixpoint feed (self : CANMonitor) (messages : list dict) : CANMonitor * option exn :=
  match messages with
  | [] => (self, None)
  | message :: messages' =>
      match update self message with
      | (self', None) => feed self' messages'
      | failed => failed
      end
  end.

(** The last [n] elements of a list. *)
Definition last_n {A : Type} (n : Z) (l : list A) : list A :=
  skipn (List.length l - Z.to_nat n) l.

(** The text under [can_id_hex] is [k]. *)
Definition has_id (k : string) (message : dict) : bool :=
  match dict_get "can_id_hex" message with
  | Some (VStr s) => String.eqb k s
  | _ => false
  end.

(** The value of [key] after the messages: that of the last message
    that has the key, the value before them when none has. *)
Definition last_value (key : string) (before : pyval) (messages : list dict) : pyval :=
  fold_left (fun v message => default v (dict_get key message)) messages before.

(** Every deque is within the history length, and no identifier has two. *)
Definition history_inv (self : CANMonitor) : Prop :=
  NoDup (List.map fst (message_history self)) /\
  Forall (fun entry => len (snd entry) <= history_length self) (message_history self).

(** A frame that the decoder returned. *)
Definition decoded_frame (d : dict) : Prop :=
  exists (parser : CANMessageParser) (m : RawFrame),
    decode_message parser (Some m) = Ok (Some d).

(** A frame whose identifier fits a signed 64-bit integer and whose
    payload is made of bytes: the database takes it. *)
Definition storable (d : dict) : bool :=
  match dict_get "can_id" d, dict_get "data" d with
  | Some (VInt id), Some (VList payload) =>
      (- 2 ^ 63 <=? id) && (id <? 2 ^ 63)
      && forallb (fun b => (0 <=? b) && (b <? 256)) payload
  | _, _ => false
  end.

(** No screen, or a terminal that takes every drawing. *)
Definition quiet (screen : option Screen) : Prop :=
  match screen with
  | Some drawing => forall latest history, drawing latest history = None
  | None => True
  end.

(** The frame with the cruise identifier whose first payload value has
    nine bytes. *)
Definition wide_line : string :=
  "1.0 RX: [0551](ext) FFFFFFFFFFFFFFFFFF 00 00 00 00 02".

Arguments PyFloat.ratio : simpl never.
Arguments PyFloat.truediv : simpl never.
Arguments base_fields : simpl never.

(** * Properties *)

(** ** Floats: a quotient of integers of ordinary size is finite

    [binary_round_aux] returns a finite float as soon as its input is
    not negative and lies below [2^1022]; the division of two integers
    feeds it such an input. *)

Section RoundingIsFinite.

Lemma digits2_pos_size (p : positive) : digits2_pos p = Pos.size p.
Proof. induction p; simpl; congruence. Qed.

Lemma Zdigits2_log2 (m : Z) : 0 < m -> Zdigits2 m = Z.log2 m + 1.
Proof.
  destruct m as [|p|p]; try lia. intros _.
  simpl. rewrite digits2_pos_size.
  destruct p; simpl; lia.
Qed.

Lemma Zdigits2_nonneg (m : Z) : 0 <= Zdigits2 m.
Proof. destruct m; simpl; lia. Qed.

Lemma Zdigits2_mono (m n : Z) : 0 <= m <= n -> Zdigits2 m <= Zdigits2 n.
Proof.
  intros [Hm Hmn].
  destruct (Z.eq_dec m 0) as [->|Hne]; [apply Zdigits2_nonneg|].
  rewrite !Zdigits2_log2 by lia.
  pose proof (Z.log2_le_mono m n Hmn). lia.
Qed.

Lemma Zdigits2_succ (m : Z) : 0 <= m -> Zdigits2 (m + 1) <= Zdigits2 m + 1.
Proof.
  intros Hm.
  destruct (Z.eq_dec m 0) as [->|Hne]; [simpl; lia|].
  rewrite !Zdigits2_log2 by lia.
  pose proof (Z.log2_succ_le m). unfold Z.succ in *. lia.
Qed.

Lemma Zdigits2_shiftl (m s : Z) :
  0 < m -> 0 <= s -> Zdigits2 (Z.shiftl m s) = Zdigits2 m + s.
Proof.
  intros Hm Hs.
  assert (0 < Z.shiftl m s).
  { rewrite Z.shiftl_mul_pow2 by lia. apply Z.mul_pos_pos; [lia|]. apply Z.pow_pos_nonneg; lia. }
  rewrite !Zdigits2_log2 by lia.
  rewrite Z.log2_shiftl by lia. lia.
Qed.

Lemma shr_1_m (mrs : shr_record) :
  0 <= shr_m mrs ->
  0 <= shr_m (shr_1 mrs) /\
  Zdigits2 (shr_m (shr_1 mrs)) = Z.max 0 (Zdigits2 (shr_m mrs) - 1).
Proof.
  destruct mrs as [m r s]. simpl.
  destruct m as [|[p|p|]|p]; simpl; intros H; try lia.
Qed.

Lemma iter_shr_1_m (p : positive) : forall mrs : shr_record,
  0 <= shr_m mrs ->
  0 <= shr_m (SpecFloat.iter_pos shr_1 p mrs) /\
  Zdigits2 (shr_m (SpecFloat.iter_pos shr_1 p mrs)) = Z.max 0 (Zdigits2 (shr_m mrs) - Zpos p).
Proof.
  induction p as [p IH|p IH|]; intros mrs H; simpl SpecFloat.iter_pos.
  - destruct (shr_1_m mrs H) as [A1 A2].
    destruct (IH _ A1) as [B1 B2].
    destruct (IH _ B1) as [C1 C2].
    split; [exact C1|]. rewrite C2, B2, A2. lia.
  - destruct (IH _ H) as [B1 B2].
    destruct (IH _ B1) as [C1 C2].
    split; [exact C1|]. rewrite C2, B2. lia.
  - apply shr_1_m, H.
Qed.

Let fexp := fexp PyFloat.prec PyFloat.emax.

(** After [shr_fexp]: the mantissa is still non-negative, the exponent
    is the old one or the canonical one, and the magnitude did not grow. *)
Lemma shr_fexp_bounds (m e : Z) (l : location) :
  0 <= m ->
  let '(mrs, e') := shr_fexp PyFloat.prec PyFloat.emax m e l in
  0 <= shr_m mrs /\
  e' <= Z.max e (fexp (Zdigits2 m + e)) /\
  Zdigits2 (shr_m mrs) + e' <= Z.max (Zdigits2 m + e) (fexp (Zdigits2 m + e)).
Proof.
  intros Hm. unfold shr_fexp, shr.
  assert (Hrec : shr_m (shr_record_of_loc m l) = m).
  { destruct l as [|[]]; reflexivity. }
  fold (fexp (Zdigits2 m + e)).
  destruct (fexp (Zdigits2 m + e) - e) as [|p|p] eqn:E.
  - rewrite Hrec. lia.
  - destruct (iter_shr_1_m p (shr_record_of_loc m l)) as [A B]; [rewrite Hrec; lia|].
    rewrite Hrec in B. split; [exact A|]. rewrite B. lia.
  - rewrite Hrec. lia.
Qed.

Lemma round_nearest_even_bounds (m : Z) (l : location) :
  0 <= m ->
  0 <= round_nearest_even m l /\
  Zdigits2 (round_nearest_even m l) <= Zdigits2 m + 1.
Proof.
  intros Hm. pose proof (Zdigits2_succ m Hm).
  destruct l as [|[]]; simpl; try destruct (Z.even m); lia.
Qed.

Lemma binary_round_aux_finite (sx : bool) (mx ex : Z) (lx : location) :
  0 <= mx -> ex <= 969 -> Zdigits2 mx + ex <= 1022 ->
  PyFloat.is_finite (binary_round_aux PyFloat.prec PyFloat.emax sx mx ex lx) = true.
Proof.
  intros Hm He Hd. unfold binary_round_aux.
  pose proof (shr_fexp_bounds mx ex lx Hm) as S1.
  destruct (shr_fexp PyFloat.prec PyFloat.emax mx ex lx) as [mrs' e'].
  destruct S1 as (A1 & A2 & A3).
  destruct (round_nearest_even_bounds (shr_m mrs') (loc_of_shr_record mrs') A1) as [R1 R2].
  pose proof (shr_fexp_bounds _ e' loc_Exact R1) as S2.
  destruct (shr_fexp PyFloat.prec PyFloat.emax _ e' loc_Exact) as [mrs'' e''].
  destruct S2 as (B1 & B2 & B3).
  destruct (shr_m mrs'') as [|m|m] eqn:E; [reflexivity| |lia].
  assert (Hle : e'' <= PyFloat.emax - PyFloat.prec).
  { revert A2 A3 B2 R2. unfold fexp, SpecFloat.fexp, emin, PyFloat.emax, PyFloat.prec. lia. }
  apply Z.leb_le in Hle. rewrite Hle. reflexivity.
Qed.

Lemma div_core_finite (sx : bool) (pa pb : positive) :
  Zpos pa < 2 ^ 1021 ->
  PyFloat.is_finite
    (let '(mz, ez, lz) := SFdiv_core_binary PyFloat.prec PyFloat.emax (Zpos pa) 0 (Zpos pb) 0 in
     binary_round_aux PyFloat.prec PyFloat.emax sx mz ez lz) = true.
Proof.
  intros Ha. unfold SFdiv_core_binary.
  assert (Hd1 : Zdigits2 (Zpos pa) <= 1021).
  { rewrite Zdigits2_log2 by lia.
    assert (Z.log2 (Zpos pa) < 1021) by (apply Z.log2_lt_pow2; lia). lia. }
  remember (Zdigits2 (Zpos pa)) as d1 eqn:Ed1.
  remember (Z.min _ _) as e' eqn:Ee'.
  assert (He' : e' <= 0) by (subst e'; lia).
  clear Ee'.
  remember (match 0 - 0 - e' with Zpos _ => Z.shiftl (Zpos pa) (0 - 0 - e') | Z0 => Zpos pa | Zneg _ => 0 end) as m' eqn:Em'.
  assert (Hm' : 0 <= m' /\ Zdigits2 m' + e' <= d1).
  { subst m'. destruct (0 - 0 - e') as [|s|s] eqn:E; try lia.
    rewrite Zdigits2_shiftl by lia. rewrite <- Ed1.
    split; [|lia]. rewrite Z.shiftl_mul_pow2 by lia.
    apply Z.mul_nonneg_nonneg; [lia|]. apply Z.pow_nonneg; lia. }
  clear Em' Ha.
  destruct Hm' as [Hm0 Hmd].
  pose proof (Z.div_eucl_eq m' (Zpos pb) ltac:(lia)) as Hq.
  pose proof (Z.mod_pos_bound m' (Zpos pb) ltac:(lia)) as Hr.
  pose proof (Z.div_pos m' (Zpos pb) Hm0 ltac:(lia)) as Hq0.
  unfold Z.modulo, Z.div in Hr, Hq0.
  destruct (Z.div_eucl m' (Zpos pb)) as [q r].
  assert (Hqm : q <= m') by nia.
  pose proof (Zdigits2_mono q m' (conj Hq0 Hqm)).
  apply binary_round_aux_finite; lia.
Qed.

(** A quotient of integers is a finite float unless the dividend is
    huge. *)
Lemma ratio_finite (a b : Z) :
  b <> 0 -> Z.abs a < 2 ^ 1021 -> PyFloat.is_finite (PyFloat.ratio a b) = true.
Proof.
  intros Hb Ha. unfold PyFloat.ratio, SFdiv.
  destruct a as [|pa|pa]; destruct b as [|pb|pb]; try lia;
    cbn [PyFloat.exact]; try reflexivity.
  all: apply div_core_finite; lia.
Qed.

Lemma truediv_ok (a b : Z) :
  b <> 0 -> Z.abs a < 2 ^ 1021 -> PyFloat.truediv a b = Ok (PyFloat.ratio a b).
Proof.
  intros Hb Ha. unfold PyFloat.truediv.
  destruct (Z.eqb_spec b 0); [contradiction|].
  now rewrite ratio_finite.
Qed.
End RoundingIsFinite.

Lemma binary_round_aux_not_nan (sx : bool) (mx ex : Z) (lx : location) :
  0 <= mx ->
  PyFloat.is_nan (binary_round_aux PyFloat.prec PyFloat.emax sx mx ex lx) = false.
Proof.
  intros Hm. unfold binary_round_aux.
  pose proof (shr_fexp_bounds mx ex lx Hm) as S1.
  destruct (shr_fexp PyFloat.prec PyFloat.emax mx ex lx) as [mrs' e'].
  destruct S1 as (A1 & _).
  destruct (round_nearest_even_bounds (shr_m mrs') (loc_of_shr_record mrs') A1) as [R1 _].
  pose proof (shr_fexp_bounds _ e' loc_Exact R1) as S2.
  destruct (shr_fexp PyFloat.prec PyFloat.emax _ e' loc_Exact) as [mrs'' e''].
  destruct S2 as (B1 & _).
  destruct (shr_m mrs'') as [|m|m]; [reflexivity| |lia].
  now destruct (e'' <=? PyFloat.emax - PyFloat.prec).
Qed.

Lemma div_core_not_nan (sx : bool) (pa pb : positive) :
  PyFloat.is_nan
    (let '(mz, ez, lz) :=
       SFdiv_core_binary PyFloat.prec PyFloat.emax (Zpos pa) 0 (Zpos pb) 0 in
     binary_round_aux PyFloat.prec PyFloat.emax sx mz ez lz) = false.
Proof.
  unfold SFdiv_core_binary.
  remember (Z.min _ _) as e' eqn:Ee'. clear Ee'.
  remember (match 0 - 0 - e' with
            | Zpos _ => Z.shiftl (Zpos pa) (0 - 0 - e')
            | Z0 => Zpos pa
            | Zneg _ => 0
            end) as m' eqn:Em'.
  assert (Hm' : 0 <= m').
  { subst m'. destruct (0 - 0 - e') as [|s|s]; try lia.
    rewrite Z.shiftl_mul_pow2 by lia.
    apply Z.mul_nonneg_nonneg; [lia|]. apply Z.pow_nonneg; lia. }
  clear Em'.
  pose proof (Z.div_pos m' (Zpos pb) Hm' ltac:(lia)) as Hq0.
  unfold Z.div in Hq0.
  destruct (Z.div_eucl m' (Zpos pb)) as [q r].
  now apply binary_round_aux_not_nan.
Qed.

(** A quotient of integers is never NaN. *)
Lemma ratio_not_nan (a b : Z) : b <> 0 -> PyFloat.is_nan (PyFloat.ratio a b) = false.
Proof.
  intros Hb. unfold PyFloat.ratio, SFdiv.
  destruct a as [|pa|pa]; destruct b as [|pb|pb]; try lia;
    cbn [PyFloat.exact]; try reflexivity.
  all: apply div_core_not_nan.
Qed.

(** ** The decode table *)

Section Decode.

Variable self : CANMessageParser.
Variable m : RawFrame.

Lemma base_fields_eq :
  match ids_lookup self !! can_id m with
  | Some entry =>
      dict_set "frequency" (VStr (frequency entry))
        (dict_set "source" (VStr (source entry)) (copy m))
  | None =>
      dict_set "frequency" (VStr "Unknown")
        (dict_set "source" (VStr "Unknown") (copy m))
  end = base_fields self m.
Proof. unfold base_fields. destruct (ids_lookup self !! can_id m); reflexivity. Qed.

Lemma base_fields_no_signal (k : string) :
  In k signal_names -> dict_get k (base_fields self m) = None.
Proof.
  unfold base_fields, signal_names.
  intros H. destruct (ids_lookup self !! can_id m);
  repeat (destruct H as [<-|H]; [reflexivity|]); destruct H.
Qed.

Lemma base_fields_keep (k : string) (v : pyval) :
  In (k, v) (copy m) -> dict_get k (base_fields self m) = Some v.
Proof.
  unfold base_fields, copy. intros H.
  repeat (destruct H as [[= <- <-]|H]; [reflexivity|]); destruct H.
Qed.

End Decode.

(** Setting a key that is not there puts it last. *)
Lemma dict_set_fresh (k : string) (v : pyval) (d : dict) :
  dict_get k d = None -> dict_set k v d = d ++ [(k, v)].
Proof.
  induction d as [|[k' v'] d IH]; simpl; [reflexivity|].
  destruct (String.eqb k k'); [discriminate|].
  intros H. now rewrite IH.
Qed.

Lemma dict_get_app_fresh (k : string) (d d' : dict) :
  dict_get k d = None -> dict_get k (d ++ d') = dict_get k d'.
Proof.
  induction d as [|[k' v'] d IH]; simpl; [reflexivity|].
  destruct (String.eqb k k'); [discriminate|exact IH].
Qed.

Lemma len_ge {A : Type} (n : nat) (l : list A) :
  (n <= List.length l)%nat -> (Z.of_nat n <=? len l) = true.
Proof. intros H. apply Z.leb_le. unfold len. lia. Qed.

Lemma len_lt {A : Type} (n : nat) (l : list A) :
  (List.length l < n)%nat -> (Z.of_nat n <=? len l) = false.
Proof. intros H. apply Z.leb_gt. unfold len. lia. Qed.

Lemma dict_set_app_fresh (k : string) (v : pyval) (d d' : dict) :
  dict_get k d = None -> dict_set k v (d ++ d') = d ++ dict_set k v d'.
Proof.
  induction d as [|[k' v'] d IH]; simpl; [reflexivity|].
  destruct (String.eqb k k'); [discriminate|].
  intros H. now rewrite IH.
Qed.

(** Signals go after the base fields, in the order they are set. *)
Ltac set_signals :=
  repeat match goal with
    | |- context [dict_set ?k ?v (base_fields ?s ?m ++ ?d)] =>
        rewrite (dict_set_app_fresh k v (base_fields s m) d)
          by (apply base_fields_no_signal; simpl; tauto);
        simpl (dict_set k v d)
    | |- context [dict_set ?k ?v (base_fields ?s ?m)] =>
        rewrite (dict_set_fresh k v (base_fields s m))
          by (apply base_fields_no_signal; simpl; tauto)
    end.

(** C1, as amended. For a frame with identifier 0x002 whose payload has
    at least two bytes, the steering raw value is the first byte plus 256
    times the second, a 16-bit unsigned number; the decoded frame is the
    base fields followed by [steering_angle], which is
    [-((65535 - raw) / 10)] when [raw > 32767] and [raw / 10] otherwise.
    Raw 32768 gives [-3276.7] and raw 100 gives [10.0]. *)
Theorem steering_angle_decode (self : CANMessageParser) (m : RawFrame) :
  can_id m = 0x002 -> (2 <= List.length (data m))%nat ->
  is_byte (nth 0 (data m) 0) -> is_byte (nth 1 (data m) 0) ->
  let steering_raw := nth 0 (data m) 0 + 256 * nth 1 (data m) 0 in
  let angle :=
    if steering_raw >? 32767
    then PyFloat.neg (PyFloat.ratio (65535 - steering_raw) 10)
    else PyFloat.ratio steering_raw 10 in
  0 <= steering_raw <= 65535 /\
  decode_message self (Some m)
  = Ok (Some (base_fields self m ++ [("steering_angle", VFloat angle)])) /\
  (steering_raw = 32768 -> angle = PyFloat.neg (PyFloat.decimal 32767 1)) /\
  (steering_raw = 100 -> angle = PyFloat.decimal 100 1).
Proof.
  intros Hid Hlen.
  destruct (data m) as [|b0 [|b1 rest]] eqn:Hdata; simpl in Hlen; try lia.
  change (nth 0 (b0 :: b1 :: rest) 0) with b0.
  change (nth 1 (b0 :: b1 :: rest) 0) with b1.
  unfold is_byte. intros [H0 H0'] [H1 H1'].
  set (raw := b0 + 256 * b1).
  set (angle := if raw >? 32767 then _ else _).
  assert (Hraw : 0 <= raw <= 65535) by (unfold raw; lia).
  split; [exact Hraw|]. split.
  - unfold decode_message. rewrite base_fields_eq, Hid, Hdata.
    cbn [Z.eqb Pos.eqb].
    rewrite (len_ge 2) by (simpl; lia).
    cbn [getitem nth_error bind].
    rewrite Z.shiftl_mul_pow2 by lia.
    replace (b1 * 2 ^ 8 + b0) with raw by (unfold raw; lia).
    unfold angle.
    destruct (raw >? 32767) eqn:E;
      rewrite truediv_ok by lia; cbn [bind]; set_signals; reflexivity.
  - unfold angle. split; intros ->; reflexivity.
Qed.

(** The theorem at the payload [00 80], raw 32768. *)
Lemma steering_angle_decode_witness :
  decode_message no_catalog (Some (frame 0x002 [0x00; 0x80]))
  = Ok (Some (base_fields no_catalog (frame 0x002 [0x00; 0x80])
              ++ [("steering_angle", VFloat (PyFloat.neg (PyFloat.decimal 32767 1)))])).
Proof.
  refine (proj1 (proj2 (steering_angle_decode no_catalog (frame 0x002 [0x00; 0x80])
                           _ _ _ _))).
  - reflexivity.
  - simpl. lia.
  - unfold is_byte. simpl. lia.
  - unfold is_byte. simpl. lia.
Defined.

(** C1 as stated fails: raw 32768 decodes to [-3276.7], which is not
    [-326.7]. *)
Lemma steering_raw_32768_is_not_minus_326_7 :
  signal "steering_angle" (decode_message no_catalog (Some (frame 0x002 [0x00; 0x80])))
  = Some (VFloat (PyFloat.neg (PyFloat.decimal 32767 1))) /\
  signal "steering_angle" (decode_message no_catalog (Some (frame 0x002 [0x00; 0x80])))
  <> Some (VFloat (PyFloat.neg (PyFloat.decimal 3267 1))).
Proof.
  split.
  - vm_compute. reflexivity.
  - vm_compute. discriminate.
Qed.

(** C4, as amended. For a frame with identifier 0x551 whose payload has
    at least six bytes, the decoded frame is the base fields followed by
    [engine_temp], [cruise_setpoint_kph] and [cruise_status]. The
    setpoint key is always there: its value is the setpoint byte when
    that is greater than 0 and [None] when it is 0. The status is
    "Active" exactly when the status byte is 2, and "Inactive"
    otherwise. *)
Theorem cruise_decode (self : CANMessageParser) (m : RawFrame) :
  can_id m = 0x551 -> (6 <= List.length (data m))%nat ->
  let setpoint := nth 4 (data m) 0 in
  let status := nth 5 (data m) 0 in
  let decoded := decode_message self (Some m) in
  decoded
  = Ok (Some (base_fields self m ++
              [ ("engine_temp", VInt (nth 0 (data m) 0 - 40));
                ("cruise_setpoint_kph", if setpoint >? 0 then VInt setpoint else VNone);
                ("cruise_status", VStr (if status =? 2 then "Active" else "Inactive")) ])) /\
  (setpoint = 0 -> signal "cruise_setpoint_kph" decoded = Some VNone) /\
  (0 < setpoint -> signal "cruise_setpoint_kph" decoded = Some (VInt setpoint)) /\
  (signal "cruise_status" decoded = Some (VStr "Active") <-> status = 2) /\
  (signal "cruise_status" decoded = Some (VStr "Inactive") <-> status <> 2).
Proof.
  intros Hid Hlen setpoint status decoded.
  assert (E : decoded
    = Ok (Some (base_fields self m ++
              [ ("engine_temp", VInt (nth 0 (data m) 0 - 40));
                ("cruise_setpoint_kph", if setpoint >? 0 then VInt setpoint else VNone);
                ("cruise_status", VStr (if status =? 2 then "Active" else "Inactive")) ]))).
  { unfold decoded, setpoint, status, decode_message.
    rewrite base_fields_eq, Hid.
    destruct (data m) as [|d0 [|d1 [|d2 [|d3 [|d4 [|d5 rest]]]]]] eqn:Hdata;
      simpl in Hlen; try lia.
    cbn [Z.eqb Pos.eqb].
    rewrite (len_ge 6) by (simpl; lia).
    cbn [getitem nth_error bind nth].
    set_signals. reflexivity. }
  split; [exact E|].
  rewrite E. unfold signal.
  rewrite !dict_get_app_fresh by (apply base_fields_no_signal; simpl; tauto).
  cbn [dict_get String.eqb Ascii.eqb Bool.eqb].
  repeat split.
  - intros ->. reflexivity.
  - intros H. apply Z.gtb_lt in H. now rewrite H.
  - destruct (Z.eqb_spec status 2); [trivial|discriminate].
  - intros ->. reflexivity.
  - destruct (Z.eqb_spec status 2); [discriminate|trivial].
  - intros H. destruct (Z.eqb_spec status 2); [contradiction|reflexivity].
Qed.

(** The theorem at the payload [5A 00 00 00 00 02]. *)
Lemma cruise_decode_witness :
  signal "cruise_setpoint_kph"
    (decode_message no_catalog (Some (frame 0x551 [0x5A; 0; 0; 0; 0; 2])))
  = Some VNone.
Proof.
  refine (proj1 (proj2 (cruise_decode no_catalog (frame 0x551 [0x5A; 0; 0; 0; 0; 2]) _ _)) _).
  - reflexivity.
  - simpl. lia.
  - reflexivity.
Defined.

(** C4 as stated fails: with a setpoint byte of 0 the key
    [cruise_setpoint_kph] is in the decoded frame, with the value [None]. *)
Lemma cruise_setpoint_zero_is_present_as_none :
  exists d : dict,
    decode_message no_catalog (Some (frame 0x551 [0x5A; 0; 0; 0; 0; 2])) = Ok (Some d) /\
    dict_has "cruise_setpoint_kph" d = true /\
    dict_get "cruise_setpoint_kph" d = Some VNone.
Proof. eexists. repeat split. Qed.

(** C5, as amended. For a frame with identifier 0x421 whose payload has
    at least one byte, the decoded frame is the base fields followed by
    [gear]: "Neutral" for 24, "1" for 128, "R" for 16, and for any other
    value [v] the text "Unknown (", [v] in decimal, ")", with a space
    before the parenthesis. Byte 0x99 gives "Unknown (153)". *)
Theorem gear_decode (self : CANMessageParser) (m : RawFrame) :
  can_id m = 0x421 -> (1 <= List.length (data m))%nat ->
  let gear_value := nth 0 (data m) 0 in
  let gear :=
    if gear_value =? 24 then "Neutral"
    else if gear_value =? 128 then "1"
    else if gear_value =? 16 then "R"
    else "Unknown (" +:+ PyStr.str_of_int gear_value +:+ ")" in
  decode_message self (Some m)
  = Ok (Some (base_fields self m ++ [("gear", VStr gear)])) /\
  (gear_value = 0x99 -> gear = "Unknown (153)").
Proof.
  intros Hid Hlen gear_value gear. split.
  - unfold gear, gear_value, decode_message.
    rewrite base_fields_eq, Hid.
    destruct (data m) as [|v rest] eqn:Hdata; simpl in Hlen; try lia.
    cbn [Z.eqb Pos.eqb].
    rewrite (len_ge 1) by (simpl; lia).
    cbn [getitem nth_error bind nth].
    destruct (v =? 24); [|destruct (v =? 128); [|destruct (v =? 16)]];
      set_signals; reflexivity.
  - unfold gear. intros ->. reflexivity.
Qed.

(** The theorem at the payload [99]. *)
Lemma gear_decode_witness :
  decode_message no_catalog (Some (frame 0x421 [0x99]))
  = Ok (Some (base_fields no_catalog (frame 0x421 [0x99])
              ++ [("gear", VStr "Unknown (153)")])).
Proof.
  refine (proj1 (gear_decode no_catalog (frame 0x421 [0x99]) _ _)).
  - reflexivity.
  - simpl. lia.
Defined.

(** C5 as stated fails: byte 0x99 decodes to "Unknown (153)", with a
    space, not to "Unknown(153)". *)
Lemma gear_unknown_has_a_space :
  signal "gear" (decode_message no_catalog (Some (frame 0x421 [0x99])))
  = Some (VStr "Unknown (153)") /\
  signal "gear" (decode_message no_catalog (Some (frame 0x421 [0x99])))
  <> Some (VStr "Unknown(153)").
Proof. split; [reflexivity|discriminate]. Qed.

(** A payload too short for the rule of its identifier fails the length
    test of that rule. *)
Lemma too_short_length (id : Z) (payload : list Z) (n : nat) :
  too_short id payload = true ->
  Forall (fun off => (off < n)%nat) (rule_offsets id) ->
  (List.length payload < n)%nat.
Proof.
  unfold too_short. intros H F.
  apply existsb_exists in H. destruct H as (off & Hin & Hoff).
  rewrite List.Forall_forall in F. specialize (F off Hin).
  apply Nat.leb_le in Hoff. lia.
Qed.

Lemma dict_get_app_found (k : string) (v : pyval) (d d' : dict) :
  dict_get k d = Some v -> dict_get k (d ++ d') = Some v.
Proof.
  induction d as [|[k' v'] d IH]; simpl; [discriminate|].
  destruct (String.eqb k k'); [trivial|exact IH].
Qed.

Ltac rule_guard n :=
  match goal with
  | Hs : _ \/ _ |- _ =>
      rewrite (len_lt n);
      [ reflexivity
      | destruct Hs as [Hs| ->];
        [ apply (too_short_length _ _ n Hs); repeat constructor
        | simpl; lia ] ]
  end.

(** C6. When the payload is too short for the rule of the identifier,
    or is empty, [decode_message] raises nothing and returns the base
    fields and nothing else: no signal key is set, and every item of the
    raw frame is there unchanged. *)
Theorem short_payload_decode (self : CANMessageParser) (m : RawFrame) :
  too_short (can_id m) (data m) = true \/ data m = [] ->
  decode_message self (Some m) = Ok (Some (base_fields self m)) /\
  (forall k, In k signal_names -> signal k (decode_message self (Some m)) = None) /\
  (forall k v, In (k, v) (copy m) -> signal k (decode_message self (Some m)) = Some v).
Proof.
  intros Hs.
  assert (E : decode_message self (Some m) = Ok (Some (base_fields self m))).
  { unfold decode_message. rewrite base_fields_eq.
    destruct (Z.eqb_spec (can_id m) 0x180) as [Hid|_];
      [rewrite Hid in Hs; rule_guard 8%nat|].
    destruct (Z.eqb_spec (can_id m) 0x1F9) as [Hid|_];
      [rewrite Hid in Hs; rule_guard 4%nat|].
    destruct (Z.eqb_spec (can_id m) 0x280) as [Hid|_];
      [rewrite Hid in Hs; rule_guard 6%nat|].
    destruct (Z.eqb_spec (can_id m) 0x002) as [Hid|_];
      [rewrite Hid in Hs; rule_guard 2%nat|].
    destruct (Z.eqb_spec (can_id m) 0x551) as [Hid|_];
      [rewrite Hid in Hs; rule_guard 6%nat|].
    destruct (Z.eqb_spec (can_id m) 0x216) as [Hid|_];
      [rewrite Hid in Hs; rule_guard 1%nat|].
    destruct (Z.eqb_spec (can_id m) 0x421) as [Hid|_];
      [rewrite Hid in Hs; rule_guard 1%nat|].
    reflexivity. }
  rewrite E. unfold signal.
  split; [reflexivity|]. split.
  - apply base_fields_no_signal.
  - apply base_fields_keep.
Qed.

(** The theorem at an RPM frame that carries five bytes, and at one
    that carries none. *)
Lemma short_payload_decode_witness :
  decode_message no_catalog (Some (frame 0x180 [0x07; 0xD0; 0; 0; 0]))
  = Ok (Some (base_fields no_catalog (frame 0x180 [0x07; 0xD0; 0; 0; 0]))) /\
  decode_message no_catalog (Some (frame 0x180 []))
  = Ok (Some (base_fields no_catalog (frame 0x180 []))).
Proof.
  split.
  - apply (short_payload_decode no_catalog (frame 0x180 [0x07; 0xD0; 0; 0; 0])).
    left. reflexivity.
  - apply (short_payload_decode no_catalog (frame 0x180 [])).
    right. reflexivity.
Defined.

(** ** The parser and the decoder, end to end *)

(** C3. The scenario line parses to a frame with identifier 0x180 and
    the eight payload bytes, and that frame decodes, whatever the
    catalog, to a frame whose [can_id] is 0x180, whose [rpm] is 250.0
    (0x07D0 = 2000, divided by 8) and whose [throttle_pct] is 50.2
    (128/255*100 rounded to one decimal). *)
Theorem scenario_end_to_end (self : CANMessageParser) :
  exists (message : RawFrame) (decoded : dict),
    parse_line scenario_line = Ok (Some message) /\
    can_id message = 0x180 /\
    data message = [0x07; 0xD0; 0; 0; 0; 0x80; 0; 0] /\
    decode_message self (Some message) = Ok (Some decoded) /\
    dict_get "can_id" decoded = Some (VInt 0x180) /\
    dict_get "can_id_hex" decoded = Some (VStr "0x180") /\
    Z.shiftl 0x07 8 + 0xD0 = 2000 /\
    PyFloat.truediv 2000 8 = Ok (PyFloat.decimal 2500 1) /\
    dict_get "rpm" decoded = Some (VFloat (PyFloat.decimal 2500 1)) /\
    dict_get "throttle_pct" decoded = Some (VFloat (PyFloat.decimal 502 1)).
Proof.
  eexists. eexists.
  split; [vm_compute; reflexivity|].
  split; [reflexivity|]. split; [reflexivity|].
  split.
  - unfold decode_message. rewrite base_fields_eq.
    cbn [can_id data Z.eqb Pos.eqb].
    rewrite (len_ge 8) by (simpl; lia).
    cbn [getitem nth_error bind].
    replace (PyFloat.truediv (Z.shiftl 7 8 + 208) 8) with (Ok (PyFloat.decimal 2500 1))
      by (vm_compute; reflexivity).
    replace (PyFloat.truediv 128 255) with (Ok (PyFloat.ratio 128 255))
      by (vm_compute; reflexivity).
    replace (PyFloat.of_int 100) with (Ok (PyFloat.decimal 1000 1))
      by (vm_compute; reflexivity).
    cbn [bind].
    replace (PyFloat.round1 (PyFloat.mul (PyFloat.ratio 128 255) (PyFloat.decimal 1000 1)))
      with (PyFloat.decimal 502 1) by (vm_compute; reflexivity).
    set_signals. reflexivity.
  - repeat split;
      first [ apply dict_get_app_found, base_fields_keep; simpl; tauto
            | rewrite dict_get_app_fresh
                by (apply base_fields_no_signal; simpl; tauto);
              reflexivity
            | vm_compute; reflexivity ].
Qed.

(** ** The line parser *)

Lemma parse_line_no_match (line : string) :
  pattern_match line = None -> parse_line line = Ok None.
Proof. intros H. unfold parse_line. now rewrite H. Qed.

(** C2, at the failing inputs: a line of the right shape whose
    identifier, or one of whose byte tokens, is not hexadecimal makes
    [parse_line] raise [ValueError]; a line of another shape gives
    [None]. *)
Theorem parse_line_raises_on_non_hex :
  parse_line "1.0 RX: [ZZ](ext) 00" = Raise ValueError /\
  parse_line "1.0 RX: [18](ext) 0G 00" = Raise ValueError /\
  parse_line "1.0 TX: [18](ext) 00" = Ok None.
Proof. repeat split; vm_compute; reflexivity. Qed.

(** What follows for a log file: [read_all] stops at such a line and
    the frames after it are lost. *)
Lemma read_all_stops_at_non_hex :
  List.length
    (read_all no_catalog
       (Some [ "1.0 RX: [0180](ext) 07 D0 00 00 00 80 00 00";
               "2.0 RX: [ZZ](ext) 00";
               "3.0 RX: [0421](ext) 80" ])) = 1%nat.
Proof. vm_compute. reflexivity. Qed.

(** ** The identifier catalog *)

Lemma load_row_loads (row : list string) (ids : gmap Z CatalogEntry) :
  row_loads row = true -> load_row row ids = Ok (add_row ids row).
Proof.
  unfold row_loads, load_row, add_row, row_key, len.
  destruct row as [|r0 [|r1 [|r2 [|r3 rest]]]]; try reflexivity.
  cbn [List.length Nat.ltb Nat.leb orb nth getitem nth_error bind].
  replace (4 <=? Z.of_nat (S (S (S (S (List.length rest)))))) with true
    by (symmetry; apply Z.leb_le; lia).
  destruct (startswith "0x" (PyStr.strip (PyStr.lower r0)));
    destruct (PyStr.int16 (PyStr.strip (PyStr.lower r0))); simpl; congruence.
Qed.

Lemma load_row_fails (row : list string) (ids : gmap Z CatalogEntry) :
  row_loads row = false -> load_row row ids = Raise ValueError.
Proof.
  unfold row_loads, load_row, row_key, len.
  destruct row as [|r0 [|r1 [|r2 [|r3 rest]]]]; try discriminate.
  cbn [List.length Nat.ltb Nat.leb orb nth getitem nth_error bind].
  replace (4 <=? Z.of_nat (S (S (S (S (List.length rest)))))) with true
    by (symmetry; apply Z.leb_le; lia).
  unfold PyStr.int16.
  destruct (startswith "0x" (PyStr.strip (PyStr.lower r0)));
    destruct (match PyStr.strip_by PyStr.is_c_space (PyStr.strip (PyStr.lower r0)) with
              | EmptyString => _ | String _ _ => _ end);
    simpl; congruence.
Qed.

Lemma load_rows_prefix (rows : list (list string)) : forall ids,
  load_rows rows ids
  = (fold_left add_row (loading_prefix rows) ids,
     if decide (loading_prefix rows = rows) then None else Some ValueError).
Proof.
  induction rows as [|row rows IH]; intros ids; simpl.
  - reflexivity.
  - destruct (row_loads row) eqn:E.
    + rewrite load_row_loads by exact E. rewrite IH. simpl.
      repeat case_decide; congruence.
    + rewrite load_row_fails by exact E. simpl.
      case_decide; [congruence|reflexivity].
Qed.

Lemma add_row_skips_short (rows : list (list string)) : forall ids,
  fold_left add_row rows ids
  = fold_left add_row (List.filter has_four_fields rows) ids.
Proof.
  induction rows as [|row rows IH]; intros ids; cbn [List.filter fold_left];
    [reflexivity|].
  destruct (has_four_fields row) eqn:E; cbn [fold_left]; [apply IH|].
  rewrite <- IH. f_equal.
  apply Nat.leb_gt in E.
  destruct row as [|r0 [|r1 [|r2 [|r3 rest]]]]; simpl in E; try lia; reflexivity.
Qed.

(** C7, as amended. The load never raises. A file that cannot be read,
    or has no header, gives the empty catalog and one warning.
    Otherwise the catalog is what the rows before the first failing
    row add, and among them the rows with fewer than four fields add
    nothing; with no failing row all rows count and the count is
    reported, with a failing row one warning is. With an empty catalog
    every frame reports the source "Unknown". *)
Theorem load_ids_keeps_loading_prefix (ids_file : Descriptor) :
  match ids_file with
  | Unreadable e => _load_ids ids_file = (∅, Warning e)
  | Rows [] => _load_ids ids_file = (∅, Warning StopIteration)
  | Rows (_ :: rows) =>
      let good := loading_prefix rows in
      fst (_load_ids ids_file) = catalog_of good /\
      catalog_of good
      = catalog_of (List.filter has_four_fields good) /\
      (good = rows -> snd (_load_ids ids_file) = Loaded (size (catalog_of rows))) /\
      (good <> rows -> snd (_load_ids ids_file) = Warning ValueError)
  end /\
  (fst (_load_ids ids_file) = ∅ ->
   forall m, dict_get "source" (base_fields (init_parser ids_file) m)
             = Some (VStr "Unknown")).
Proof.
  split.
  - destruct ids_file as [e|[|header rows]]; try reflexivity.
    cbn zeta. unfold _load_ids. rewrite load_rows_prefix.
    fold (catalog_of (loading_prefix rows)).
    split; [case_decide; reflexivity|].
    split; [apply add_row_skips_short|].
    case_decide as E; simpl; split; try congruence; try reflexivity.
  - intros Hempty m. unfold base_fields, init_parser. cbn [ids_lookup].
    rewrite Hempty, lookup_empty. reflexivity.
Qed.

(** C7 as stated fails: a row with a bad identifier ends the load. The
    row after it is not loaded, and the catalog that is left is not
    empty. *)
Lemma bad_row_ends_the_load :
  snd (_load_ids descriptor_with_bad_row) = Warning ValueError /\
  fst (_load_ids descriptor_with_bad_row) !! 0x002 = None /\
  fst (_load_ids descriptor_with_bad_row) !! 0x180
  = Some {| source := "ECM"; frequency := "100"; data_bytes := "8" |} /\
  fst (_load_ids descriptor_with_bad_row) <> ∅.
Proof.
  repeat split; try (vm_compute; reflexivity).
  intros H. apply (f_equal (fun c => c !! 0x180)) in H.
  vm_compute in H. discriminate.
Qed.

(** ** The shape of a decoded frame *)

Ltac open_decode H :=
  repeat first
    [ progress cbn [bind] in H
    | discriminate H
    | match type of H with
      | context [if ?b then _ else _] => destruct b eqn:?
      | context [bind ?r _] =>
          lazymatch r with
          | bind _ _ => fail
          | getitem_dict _ _ =>
              revert H; set_signals; unfold getitem_dict;
              rewrite dict_get_app_fresh
                by (apply base_fields_no_signal; simpl; tauto);
              simpl dict_get; intros H
          | _ => destruct r eqn:?
          end
      end ].

(** Whatever [decode_message] returns is the base fields followed by
    signals, each under a signal name and with text under the
    categorical ones. *)
Lemma decode_message_shape (self : CANMessageParser) (m : RawFrame) (d : dict) :
  decode_message self (Some m) = Ok (Some d) ->
  exists extra : dict,
    d = base_fields self m ++ extra /\ forallb signal_ok extra = true.
Proof.
  unfold decode_message. rewrite base_fields_eq. intros H.
  open_decode H.
  all: revert H; set_signals; intros [= <-].
  all: try (exists []; rewrite app_nil_r; split; reflexivity).
  all: eexists; split; [reflexivity|reflexivity].
Qed.

Lemma base_fields_not_categorical (self : CANMessageParser) (m : RawFrame)
    (k : string) (v : pyval) :
  In (k, v) (base_fields self m) -> str_in k categorical = false.
Proof.
  unfold base_fields, copy. intros H.
  destruct (ids_lookup self !! can_id m);
    repeat (destruct H as [[= <- <-]|H]; [reflexivity|]); destruct H.
Qed.

(** ** Decoding never fails on bytes *)

(** A payload that passes the length test of a rule has the bytes that
    the rule reads. *)
Tactic Notation "payload_has" integer(n) :=
  match goal with
  | H : (_ <=? len ?l) = true |- _ =>
      apply Z.leb_le in H; unfold len in H;
      do n (let b := fresh "b" in
            destruct l as [|b l]; [cbn [List.length] in H; lia|]);
      clear H
  end.

Ltac bytes_of H :=
  repeat match type of H with
         | Forall is_byte (_ :: _) =>
             let Hb := fresh "Hb" in
             apply Forall_cons_iff in H; destruct H as [Hb H];
             unfold is_byte in Hb
         end.

(** On a payload of bytes, of any length, [decode_message] raises
    nothing. *)
Lemma decode_message_total_on_bytes (self : CANMessageParser) (m : RawFrame) :
  Forall is_byte (data m) ->
  exists d : dict, decode_message self (Some m) = Ok (Some d).
Proof.
  intros Hbytes. unfold decode_message. rewrite base_fields_eq.
  remember (data m) as payload eqn:Hp. clear Hp.
  destruct (can_id m =? 384).
  { destruct (8 <=? len payload) eqn:Hlen; [|eexists; reflexivity].
    payload_has 8. bytes_of Hbytes. cbn [getitem nth_error bind].
    rewrite !truediv_ok by (rewrite ?Z.shiftl_mul_pow2; lia).
    cbn [bind]. change (PyFloat.of_int 100) with (Ok (PyFloat.decimal 1000 1)).
    cbn [bind]. eexists; reflexivity. }
  destruct (can_id m =? 505).
  { destruct (4 <=? len payload) eqn:Hlen; [|eexists; reflexivity].
    payload_has 4. bytes_of Hbytes. cbn [getitem nth_error bind].
    rewrite !truediv_ok by (rewrite ?Z.shiftl_mul_pow2; lia).
    cbn [bind]. eexists; reflexivity. }
  destruct (can_id m =? 640).
  { destruct (6 <=? len payload) eqn:Hlen; [|eexists; reflexivity].
    payload_has 6. bytes_of Hbytes. cbn [getitem nth_error bind].
    rewrite !truediv_ok by (rewrite ?Z.shiftl_mul_pow2; lia).
    cbn [bind]. set_signals. unfold getitem_dict.
    rewrite dict_get_app_fresh by (apply base_fields_no_signal; simpl; tauto).
    cbn. eexists; reflexivity. }
  destruct (can_id m =? 2).
  { destruct (2 <=? len payload) eqn:Hlen; [|eexists; reflexivity].
    payload_has 2. bytes_of Hbytes. cbn [getitem nth_error bind].
    destruct (_ >? 32767) eqn:E;
      rewrite !truediv_ok by (rewrite ?Z.shiftl_mul_pow2; lia);
      cbn [bind]; eexists; reflexivity. }
  destruct (can_id m =? 1361).
  { destruct (6 <=? len payload) eqn:Hlen; [|eexists; reflexivity].
    payload_has 6. cbn [getitem nth_error bind]. eexists; reflexivity. }
  destruct (can_id m =? 534).
  { destruct (1 <=? len payload) eqn:Hlen; [|eexists; reflexivity].
    payload_has 1. cbn [getitem nth_error bind].
    repeat match goal with
           | |- context [if ?b then _ else _] => destruct b
           end; eexists; reflexivity. }
  destruct (can_id m =? 1057).
  { destruct (1 <=? len payload) eqn:Hlen; [|eexists; reflexivity].
    payload_has 1. cbn [getitem nth_error bind].
    repeat match goal with
           | |- context [if ?b then _ else _] => destruct b
           end; eexists; reflexivity. }
  eexists; reflexivity.
Qed.

(** ** The decoded-values table *)

Lemma insert_items_rows (decoded : dict) (sid : string) (ts cid : pyval) :
  dict_get "timestamp" decoded = Some ts ->
  dict_get "can_id" decoded = Some cid ->
  forall (items : dict) (table : list DecodedRow),
    let rows := List.map (row_of ts cid sid) (List.filter persisted items) in
    (exists n, fst (insert_items items decoded sid table) = table ++ firstn n rows) /\
    (snd (insert_items items decoded sid table) = None ->
     fst (insert_items items decoded sid table) = table ++ rows) /\
    (bind_param ts = Ok tt -> bind_param cid = Ok tt ->
     Forall (fun item => bind_param (snd item) = Ok tt) (List.filter persisted items) ->
     insert_items items decoded sid table = (table ++ rows, None)).
Proof.
  intros Hts Hcid items.
  induction items as [|[k v] items IH]; intros table; cbn [insert_items].
  - cbn. rewrite app_nil_r. split; [now exists 0%nat; rewrite app_nil_r|].
    split; reflexivity.
  - unfold getitem_dict. rewrite Hts, Hcid. cbn [bind].
    cbn [List.filter].
    change (persisted (k, v))
      with (is_numeric v && negb (str_in k ["timestamp"; "can_id"])).
    destruct (is_numeric v && negb (str_in k ["timestamp"; "can_id"])).
    + cbn [List.map].
      destruct (bind_param ts) as [[]|e1] eqn:B1; cbn [bind].
      2:{ cbn [fst snd]. split; [exists 0%nat; now rewrite app_nil_r|].
          split; [discriminate|]. intros H. discriminate H. }
      destruct (bind_param cid) as [[]|e2] eqn:B2; cbn [bind].
      2:{ cbn [fst snd]. split; [exists 0%nat; now rewrite app_nil_r|].
          split; [discriminate|]. intros _ H. discriminate H. }
      destruct (bind_param v) as [[]|e3] eqn:B3; cbn [bind].
      2:{ cbn [fst snd]. split; [exists 0%nat; now rewrite app_nil_r|].
          split; [discriminate|]. intros _ _ H.
          apply Forall_cons_iff in H as [H _]. cbn [snd] in H. congruence. }
      specialize (IH (table ++ [row_of ts cid sid (k, v)])).
      cbn zeta in IH. destruct IH as ((n & Hn) & Hnone & Hall).
      change {| row_timestamp := ts; row_can_id := cid; parameter := k;
                value := v; session_id := sid |} with (row_of ts cid sid (k, v)).
      split; [|split].
      * exists (S n). rewrite Hn. cbn [firstn]. now rewrite <- app_assoc.
      * intros H. rewrite (Hnone H). now rewrite <- app_assoc.
      * intros _ _ H. apply Forall_cons_iff in H as [_ H].
        rewrite (Hall eq_refl eq_refl H). now rewrite <- app_assoc.
    + apply IH.
Qed.

(** When every value binds, the rows are written as they come. *)
Lemma insert_items_binds (decoded : dict) (sid : string) (ts cid : pyval)
    (table : list DecodedRow) :
  dict_get "timestamp" decoded = Some ts ->
  dict_get "can_id" decoded = Some cid ->
  bind_param ts = Ok tt -> bind_param cid = Ok tt ->
  Forall (fun item => bind_param (snd item) = Ok tt) (List.filter persisted decoded) ->
  insert_decoded_values table decoded sid
  = (table ++ List.map (row_of ts cid sid) (List.filter persisted decoded), None).
Proof.
  intros Hts Hcid B1 B2 Hall.
  exact (proj2 (proj2 (insert_items_rows decoded sid ts cid Hts Hcid decoded table))
           B1 B2 Hall).
Qed.

(** C10, at the failing input: a decoded frame that carries an integer
    beyond 64 bits. The line [wide_line] parses and decodes, whatever
    the catalog;
    the decoded frame has [engine_temp] with the integer 2^72 - 41, an
    entry whose value is an [int] and whose key is neither "timestamp"
    nor "can_id", so an entry that is to be persisted; and
    [insert_decoded_values] raises [OverflowError] when it binds that
    value, having written no row. The same frame with the byte FF in
    that place has its [engine_temp] written. *)
Theorem decoded_values_overflow_not_persisted (self : CANMessageParser) :
  exists (m : RawFrame) (d : dict),
    parse_line wide_line = Ok (Some m) /\
    decode_message self (Some m) = Ok (Some d) /\
    In ("engine_temp", VInt (2 ^ 72 - 41)) d /\
    persisted ("engine_temp", VInt (2 ^ 72 - 41)) = true /\
    (forall table sid,
        insert_decoded_values table d sid = (table, Some OverflowError)) /\
    (forall table sid,
        insert_decoded_values table
          (base_fields self (frame 0x551 [0xFF; 0; 0; 0; 0; 2])
           ++ [ ("engine_temp", VInt 215); ("cruise_setpoint_kph", VNone);
                ("cruise_status", VStr "Active") ]) sid
        = (table ++ [ {| row_timestamp := VFloat (PyFloat.decimal 10 1);
                         row_can_id := VInt 0x551;
                         parameter := "engine_temp"; value := VInt 215;
                         session_id := sid |} ], None)).
Proof.
  eexists. eexists.
  split; [vm_compute; reflexivity|].
  assert (Hdec : forall m : RawFrame,
            can_id m = 0x551 ->
            data m = [0xFFFFFFFFFFFFFFFFFF; 0; 0; 0; 0; 2] ->
            decode_message self (Some m)
            = Ok (Some (base_fields self m
                        ++ [ ("engine_temp", VInt (2 ^ 72 - 41));
                             ("cruise_setpoint_kph", VNone);
                             ("cruise_status", VStr "Active") ]))).
  { intros m Hid Hdata. unfold decode_message.
    rewrite base_fields_eq, Hid, Hdata.
    cbn [Z.eqb Pos.eqb].
    rewrite (len_ge 6) by (simpl; lia).
    cbn [getitem nth_error bind].
    change (0 >? 0) with false. change (2 =? 2) with true. cbv iota.
    set_signals. reflexivity. }
  split; [apply Hdec; reflexivity|].
  split; [apply in_or_app; right; now left|].
  split; [reflexivity|]. split.
  - intros table sid. unfold insert_decoded_values, base_fields, copy.
    destruct (ids_lookup self !! _); reflexivity.
  - intros table sid. unfold insert_decoded_values, base_fields, copy.
    destruct (ids_lookup self !! _); reflexivity.
Qed.

(** X25. [insert_decoded_values] writes rows only for the entries whose
    value is an [int] or a [float] and whose key is neither "timestamp"
    nor "can_id", in the order of the entries: what it has written when
    it ends is a beginning of these rows, all of them when it raised
    nothing, and it raises nothing when the timestamp, the identifier
    and the values bind, an [int] binding when it fits 64 bits. So no
    row carries [None], and for a frame that comes from
    [decode_message] no row is for gear, clutch or cruise_status. *)
Theorem decoded_values_persisted (table : list DecodedRow) (decoded : dict)
    (sid : string) (ts cid : pyval) :
  dict_get "timestamp" decoded = Some ts ->
  dict_get "can_id" decoded = Some cid ->
  let rows := List.map (row_of ts cid sid) (List.filter persisted decoded) in
  (exists n,
      fst (insert_decoded_values table decoded sid) = table ++ firstn n rows) /\
  (snd (insert_decoded_values table decoded sid) = None ->
   fst (insert_decoded_values table decoded sid) = table ++ rows) /\
  (bind_param ts = Ok tt -> bind_param cid = Ok tt ->
   Forall (fun item => bind_param (snd item) = Ok tt) (List.filter persisted decoded) ->
   insert_decoded_values table decoded sid = (table ++ rows, None)) /\
  (forall k v,
      In {| row_timestamp := ts; row_can_id := cid; parameter := k;
            value := v; session_id := sid |} rows
      <-> In (k, v) decoded /\ is_numeric v = true
          /\ k <> "timestamp" /\ k <> "can_id") /\
  (forall r, In r rows -> value r <> VNone) /\
  (forall self m, decode_message self (Some m) = Ok (Some decoded) ->
                  forall r, In r rows -> ~ In (parameter r) categorical).
Proof.
  intros Hts Hcid rows.
  assert (Hrow : forall r, In r rows <->
            exists k v, r = row_of ts cid sid (k, v) /\ In (k, v) decoded
                        /\ is_numeric v = true
                        /\ str_in k ["timestamp"; "can_id"] = false).
  { intros r. unfold rows. rewrite in_map_iff. split.
    - intros ([k v] & <- & Hin). apply filter_In in Hin.
      destruct Hin as [Hin Hp]. unfold persisted in Hp. cbn [fst snd] in Hp.
      apply andb_true_iff in Hp. destruct Hp as [Hn Hk].
      apply negb_true_iff in Hk. eauto 8.
    - intros (k & v & -> & Hin & Hn & Hk). exists (k, v).
      split; [reflexivity|]. apply filter_In. split; [exact Hin|].
      unfold persisted. cbn [fst snd]. now rewrite Hn, Hk. }
  destruct (insert_items_rows decoded sid ts cid Hts Hcid decoded table)
    as (Hprefix & Hnone & Hall).
  split; [exact Hprefix|]. split; [exact Hnone|]. split; [exact Hall|].
  split; [|split].
  - intros k v. rewrite Hrow. unfold row_of. cbn [fst snd str_in].
    split.
    + intros (k' & v' & [= -> ->] & Hin & Hn & Hk).
      apply orb_false_iff in Hk. destruct Hk as [Hk1 Hk2].
      apply orb_false_iff in Hk2. destruct Hk2 as [Hk2 _].
      apply String.eqb_neq in Hk1, Hk2. auto.
    + intros (Hin & Hn & Hk1 & Hk2). exists k, v.
      apply String.eqb_neq in Hk1, Hk2. rewrite Hk1, Hk2. auto.
  - intros r Hr. apply Hrow in Hr. destruct Hr as (k & v & -> & _ & Hn & _).
    cbn. intros ->. discriminate.
  - intros self m Hdec r Hr.
    apply Hrow in Hr. destruct Hr as (k & v & -> & Hin & Hn & _). cbn [row_of parameter fst].
    destruct (decode_message_shape self m decoded Hdec) as (extra & -> & Hex).
    assert (Hc : str_in k categorical = false).
    { apply in_app_or in Hin. destruct Hin as [Hin|Hin].
      - exact (base_fields_not_categorical self m k v Hin).
      - rewrite forallb_forall in Hex. specialize (Hex _ Hin).
        unfold signal_ok in Hex. cbn [fst snd] in Hex.
        apply andb_true_iff in Hex. destruct Hex as [_ Hex].
        destruct (str_in k categorical); [|reflexivity].
        rewrite Hn in Hex. discriminate. }
    intros Hk. unfold categorical in *.
    repeat (destruct Hk as [<-|Hk]; [discriminate Hc|]). destruct Hk.
Qed.

(** The theorem at the decoded cruise frame [5A 00 00 00 00 02]: one
    row, for [engine_temp]; nothing for the setpoint, which is [None],
    nor for the status. *)
Lemma decoded_values_persisted_witness :
  insert_decoded_values []
    (base_fields no_catalog (frame 0x551 [0x5A; 0; 0; 0; 0; 2])
     ++ [ ("engine_temp", VInt 50); ("cruise_setpoint_kph", VNone);
          ("cruise_status", VStr "Active") ]) "20240101_120000"
  = ([ {| row_timestamp := VFloat (PyFloat.decimal 10 1);
          row_can_id := VInt 0x551;
          parameter := "engine_temp"; value := VInt 50;
          session_id := "20240101_120000" |} ], None).
Proof.
  refine (proj1 (proj2 (proj2 (decoded_values_persisted [] _ "20240101_120000"
                                 (VFloat (PyFloat.decimal 10 1)) (VInt 0x551) _ _)))
            _ _ _).
  - reflexivity.
  - reflexivity.
  - reflexivity.
  - reflexivity.
  - repeat constructor.
Defined.

(** ** The bounded queue under every interleaving *)

Section Queue.

Variable parser : CANMessageParser.

Lemma full_spec (q : list dict) : full q = true <-> maxsize <= len q.
Proof.
  unfold full. change (0 <? maxsize) with true. cbn [andb].
  apply Z.leb_le.
Qed.

Lemma len_app_one (q : list dict) (m : dict) : len (q ++ [m]) = len q + 1.
Proof. unfold len. rewrite List.length_app. simpl. lia. Qed.

Lemma read_step_cases (line : string) (r : CANSerialReader) :
  read_step parser line r = (r, NoFrame) \/
  (exists m, read_step parser line r = (r, Dropped m)
             /\ full (message_queue r) = true) \/
  (exists m, read_step parser line r
             = ({| message_queue := message_queue r; in_hand := Some m |}, Checked m)
             /\ full (message_queue r) = false).
Proof.
  unfold read_step.
  destruct (parse_line line) as [message|]; [|now left].
  destruct (frame_truthy message); [|now left].
  destruct (decode_message parser message) as [[m|]|]; try now left.
  destruct (truthy (Some m)); cbn [andb]; [|now left].
  destruct (full (message_queue r)) eqn:F; cbn [negb]; right; [left|right]; eauto.
Qed.

Lemma step_keeps_queue_inv (r : CANSerialReader) (t : Turn) :
  queue_inv r ->
  queue_inv (fst (step parser r t)) /\ snd (step parser r t) <> Blocked.
Proof.
  intros [Hcap Hroom]. destruct t as [line|]; cbn [step].
  - destruct (in_hand r) as [m|] eqn:Hand.
    + (* put: the test of full() was passed and only the consumer ran since *)
      assert (Hlt : len (message_queue r) < maxsize) by (apply Hroom; discriminate).
      unfold put.
      change (0 <? maxsize) with true. cbn [andb].
      destruct (Z.leb_spec maxsize (len (message_queue r))) as [Hfull|_]; [lia|].
      cbn [fst snd]. split; [|discriminate].
      split; cbn [message_queue in_hand]; [rewrite len_app_one; lia|congruence].
    + destruct (read_step_cases line r) as [E|[(m & E & F)|(m & E & F)]];
        rewrite E; cbn [fst snd]; (split; [|discriminate]).
      * split; [exact Hcap|rewrite Hand; congruence].
      * split; [exact Hcap|rewrite Hand; congruence].
      * split; cbn [message_queue in_hand]; [exact Hcap|].
        intros _. destruct (Z.lt_ge_cases (len (message_queue r)) maxsize) as [H|H];
          [exact H|]. apply full_spec in H. congruence.
  - unfold get_message. destruct (message_queue r) as [|m q] eqn:Q;
      cbn [fst snd]; (split; [|discriminate]).
    + split; [rewrite Q; exact Hcap|rewrite Q; exact Hroom].
    + split; cbn [message_queue in_hand]; unfold len in *; cbn [List.length] in *;
        [lia|]. intros H. specialize (Hroom H). lia.
Qed.

Lemma run_keeps_queue_inv (schedule : list Turn) : forall r : CANSerialReader,
  queue_inv r ->
  queue_inv (fst (run parser schedule r)) /\ ~ In Blocked (snd (run parser schedule r)).
Proof.
  induction schedule as [|t schedule IH]; intros r Hinv; cbn [run].
  - split; [exact Hinv|intros []].
  - destruct (step_keeps_queue_inv r t Hinv) as [Hinv' Hev].
    destruct (step parser r t) as [r' e]. cbn [fst snd] in *.
    destruct (IH r' Hinv') as [Hinv'' Hevs].
    destruct (run parser schedule r') as [r'' es]. cbn [fst snd] in *.
    split; [exact Hinv''|]. intros [H|H]; [congruence|contradiction].
Qed.

End Queue.

(** C9. Whatever the interleaving of the read thread and the consumer,
    from the empty queue: the queue never holds more than 1000 frames;
    [put] never has to wait; and when the queue is full the read thread
    holds no frame, and a frame that it decodes then is dropped, the
    queue staying as it is. *)
Theorem queue_bounded_and_never_blocks (parser : CANMessageParser)
    (schedule : list Turn) :
  let r := fst (run parser schedule new_reader) in
  let events := snd (run parser schedule new_reader) in
  len (message_queue r) <= 1000 /\
  ~ In Blocked events /\
  (full (message_queue r) = true ->
   in_hand r = None /\
   forall line,
     step parser r (Producer line) = (r, NoFrame) \/
     exists m, step parser r (Producer line) = (r, Dropped m)).
Proof.
  intros r events.
  assert (Hinit : queue_inv new_reader).
  { split; [cbv; discriminate|cbn; congruence]. }
  destruct (run_keeps_queue_inv parser schedule new_reader Hinit) as [[Hcap Hroom] Hev].
  fold r in Hcap, Hroom. fold events in Hev.
  split; [exact Hcap|]. split; [exact Hev|].
  intros Hfull. apply full_spec in Hfull.
  assert (Hand : in_hand r = None).
  { destruct (in_hand r); [|reflexivity].
    assert (len (message_queue r) < maxsize) by (apply Hroom; discriminate). lia. }
  split; [exact Hand|]. intros line. cbn [step]. rewrite Hand.
  destruct (read_step_cases parser line r) as [E|[(m & E & F)|(m & E & F)]].
  - now left.
  - right. eauto.
  - apply full_spec in Hfull. congruence.
Qed.

(** ** The order of floats *)

Lemma compare_cont_eq (p q : positive) : Pos.compare_cont Eq p q = (Zpos p ?= Zpos q).
Proof. reflexivity. Qed.

Lemma ltb_rank (x y : float) :
  PyFloat.is_nan x = false -> PyFloat.is_nan y = false ->
  (PyFloat.ltb x y = true <-> lex_lt (rank x) (rank y)).
Proof.
  unfold PyFloat.ltb, SFltb, SFcompare.
  destruct x as [sx|sx| |sx mx ex], y as [sy|sy| |sy my ey];
    try discriminate; intros _ _;
    try destruct sx; try destruct sy; cbn [rank lex_lt];
    try rewrite compare_cont_eq;
    try (destruct (Z.compare_spec ex ey));
    try (destruct (Z.compare_spec (Zpos mx) (Zpos my)));
    cbn [CompOpp]; split; intros Hxy; try discriminate Hxy; try reflexivity; try lia.
Qed.

Lemma leb_rank (x y : float) :
  PyFloat.is_nan x = false -> PyFloat.is_nan y = false ->
  (PyFloat.leb x y = true <-> ~ lex_lt (rank y) (rank x)).
Proof.
  unfold PyFloat.leb, SFleb, SFcompare.
  destruct x as [sx|sx| |sx mx ex], y as [sy|sy| |sy my ey];
    try discriminate; intros _ _;
    try destruct sx; try destruct sy; cbn [rank lex_lt];
    try rewrite compare_cont_eq;
    try (destruct (Z.compare_spec ex ey));
    try (destruct (Z.compare_spec (Zpos mx) (Zpos my)));
    cbn [CompOpp]; split; intros Hxy; try discriminate Hxy; try reflexivity; try lia.
Qed.

(** ** Sorting by timestamp *)

Section Sorting.

Implicit Types (k : float) (x : dict) (l : list (float * dict)).

Let sorted l := StronglySorted (fun a b => not_later (snd a) (snd b)) l.

Lemma not_later_trans (a b c : dict) :
  stamped a = true -> stamped b = true -> stamped c = true ->
  not_later a b -> not_later b c -> not_later a c.
Proof.
  unfold stamped, not_later, stamp.
  destruct (timestamp_of a) as [ta|]; [|discriminate].
  destruct (timestamp_of b) as [tb|]; [|discriminate].
  destruct (timestamp_of c) as [tc|]; [|discriminate].
  intros Ha Hb Hc. apply negb_true_iff in Ha, Hb, Hc.
  rewrite !leb_rank by assumption. unfold lex_lt.
  destruct (rank ta) as [[a1 a2] a3], (rank tb) as [[b1 b2] b3], (rank tc) as [[c1 c2] c3].
  lia.
Qed.

Lemma ltb_false_leb (s t : float) :
  PyFloat.is_nan s = false -> PyFloat.is_nan t = false ->
  PyFloat.ltb s t = false -> PyFloat.leb t s = true.
Proof.
  intros Hs Ht H. apply leb_rank; [assumption..|].
  intros L. apply ltb_rank in L; [congruence|assumption..].
Qed.

Lemma ltb_true_leb (s t : float) :
  PyFloat.is_nan s = false -> PyFloat.is_nan t = false ->
  PyFloat.ltb s t = true -> PyFloat.leb s t = true /\ PyFloat.leb t s = false.
Proof.
  intros Hs Ht H. apply ltb_rank in H; [|assumption..].
  split.
  - apply leb_rank; [assumption..|]. revert H. unfold lex_lt.
    destruct (rank s) as [[a1 a2] a3], (rank t) as [[b1 b2] b3]. lia.
  - apply not_true_is_false. intros L. apply leb_rank in L; [|assumption..].
    contradiction.
Qed.

Lemma insert_keyed_perm k x l : Permutation (insert_keyed k x l) ((k, x) :: l).
Proof.
  induction l as [|[k' x'] l IH]; cbn [insert_keyed]; [reflexivity|].
  destruct (PyFloat.ltb k k'); [reflexivity|].
  rewrite IH. apply perm_swap.
Qed.

Lemma insert_keyed_well_keyed k x l :
  well_keyed (k, x) -> Forall well_keyed l -> Forall well_keyed (insert_keyed k x l).
Proof.
  intros Hk Hl.
  eapply Permutation_Forall; [symmetry; apply insert_keyed_perm|].
  now constructor.
Qed.

Lemma well_keyed_stamped (kx : float * dict) : well_keyed kx -> stamped (snd kx) = true.
Proof.
  destruct kx as [k x]. unfold well_keyed, stamped, stamp. cbn [fst snd].
  destruct (timestamp_of x); intros [-> H]; [now rewrite H|discriminate].
Qed.

Lemma insert_keyed_sorted k x l :
  well_keyed (k, x) -> Forall well_keyed l -> sorted l -> sorted (insert_keyed k x l).
Proof.
  intros Hk Hl Hs. induction Hs as [|[k' x'] l Hs IH Hall]; cbn [insert_keyed].
  - repeat constructor.
  - apply Forall_cons_iff in Hl. destruct Hl as [Hk' Hl]. specialize (IH Hl).
    destruct Hk as [Ek Nk]. destruct Hk' as [Ek' Nk']. cbn [fst snd] in *.
    destruct (PyFloat.ltb k k') eqn:L.
    + apply ltb_true_leb in L; [|assumption..]. destruct L as [L _].
      assert (Hxx' : not_later x x') by (unfold not_later; now rewrite <- Ek, <- Ek').
      constructor; [constructor; assumption|].
      constructor; [exact Hxx'|].
      rewrite List.Forall_forall in Hall |- *. intros [k'' x''] Hin. cbn [snd].
      pose proof (Hall _ Hin) as Hx'x''. cbn [snd] in Hx'x''.
      rewrite List.Forall_forall in Hl. pose proof (Hl _ Hin) as Hk''.
      apply (not_later_trans x x' x''); try assumption.
      * apply (well_keyed_stamped (k, x)). now split.
      * apply (well_keyed_stamped (k', x')). now split.
      * apply (well_keyed_stamped _ Hk'').
    + apply ltb_false_leb in L; [|assumption..].
      constructor; [exact IH|].
      eapply Permutation_Forall; [symmetry; apply insert_keyed_perm|].
      constructor; [|exact Hall].
      cbn [snd]. unfold not_later. now rewrite <- Ek, <- Ek'.
Qed.

(** An element goes after every element that compares equal to it. *)
Lemma insert_keyed_stable k x l (t : float) :
  well_keyed (k, x) -> Forall well_keyed l -> sorted l ->
  List.filter (fun kx => at_time t (snd kx)) (insert_keyed k x l)
  = List.filter (fun kx => at_time t (snd kx)) l
    ++ (if at_time t x then [(k, x)] else []).
Proof.
  intros Hk Hl Hs. induction Hs as [|[k' x'] l Hs IH Hall]; cbn [insert_keyed].
  - reflexivity.
  - apply Forall_cons_iff in Hl. destruct Hl as [Hk' Hl]. specialize (IH Hl).
    destruct (PyFloat.ltb k k') eqn:L.
    + cbn [List.filter snd].
      destruct (at_time t x) eqn:T; [|now rewrite app_nil_r].
      (* everything from [x'] on is later than [x], so not at time [t] *)
      assert (Hnone : forall kx, In kx ((k', x') :: l) -> at_time t (snd kx) = false).
      { destruct Hk as [Ek Nk]. destruct Hk' as [Ek' Nk']. cbn [fst snd] in *.
        apply ltb_true_leb in L; [|assumption..]. destruct L as [_ L].
        rewrite Ek, Ek' in L.
        intros [k'' x''] Hin. cbn [snd].
        assert (Hx'x'' : not_later x' x'').
        { destruct Hin as [[= <- <-]|Hin].
          - unfold not_later. apply leb_rank; try congruence.
            unfold lex_lt. destruct (rank (stamp x')) as [[a1 a2] a3]. lia.
          - rewrite List.Forall_forall in Hall. exact (Hall _ Hin). }
        assert (Nk'' : PyFloat.is_nan (stamp x'') = false).
        { destruct Hin as [[= <- <-]|Hin]; [congruence|].
          rewrite List.Forall_forall in Hl. destruct (Hl _ Hin) as [E N].
          cbn [fst snd] in *. congruence. }
        unfold at_time in T |- *. apply andb_true_iff in T. destruct T as [T1 T2].
        apply andb_false_iff. right.
        apply not_true_is_false. intros T3.
        unfold not_later in Hx'x''.
        destruct (PyFloat.is_nan t) eqn:Nt.
        { destruct t; try discriminate Nt. destruct (stamp x); discriminate T1. }
        rewrite Ek in Nk. rewrite Ek' in Nk'.
        apply leb_rank in T1, T3, Hx'x''; try assumption.
        enough (PyFloat.leb (stamp x') (stamp x) = true) by congruence.
        apply leb_rank; try assumption.
        revert T1 T3 Hx'x''. unfold lex_lt.
        destruct (rank t) as [[a1 a2] a3], (rank (stamp x)) as [[b1 b2] b3],
          (rank (stamp x')) as [[c1 c2] c3], (rank (stamp x'')) as [[d1 d2] d3].
        lia. }
      assert (Hempty : List.filter (fun kx => at_time t (snd kx)) ((k', x') :: l) = []).
      { generalize dependent ((k', x') :: l). intros l0. clear.
        induction l0 as [|a l0 IH]; intros Hnone; cbn [List.filter]; [reflexivity|].
        rewrite (Hnone a) by (now left). apply IH. intros kx Hin. apply Hnone. now right. }
      cbn [List.filter snd] in Hempty. rewrite Hempty. reflexivity.
    + cbn [List.filter snd]. rewrite IH.
      destruct (at_time t x'); reflexivity.
Qed.

(** The invariant of the sort loop. *)
Lemma sort_loop (l acc : list (float * dict)) (t : float) :
  Forall well_keyed l -> Forall well_keyed acc -> sorted acc ->
  let out := fold_left (fun acc kx => insert_keyed (fst kx) (snd kx) acc) l acc in
  Permutation out (acc ++ l) /\ Forall well_keyed out /\ sorted out /\
  List.filter (fun kx => at_time t (snd kx)) out
  = List.filter (fun kx => at_time t (snd kx)) acc
    ++ List.filter (fun kx => at_time t (snd kx)) l.
Proof.
  revert acc. induction l as [|[k x] l IH]; intros acc Hl Hacc Hs; cbn [fold_left fst snd].
  - rewrite !app_nil_r. auto.
  - apply Forall_cons_iff in Hl. destruct Hl as [Hk Hl].
    pose proof (insert_keyed_well_keyed k x acc Hk Hacc) as W.
    pose proof (insert_keyed_sorted k x acc Hk Hacc Hs) as S'.
    destruct (IH (insert_keyed k x acc) Hl W S') as (P & W' & S'' & F).
    cbn zeta in *. split; [|split; [exact W'|split; [exact S''|]]].
    + rewrite P, insert_keyed_perm. apply Permutation_middle.
    + rewrite F, insert_keyed_stable by assumption.
      cbn [List.filter snd]. rewrite <- app_assoc.
      destruct (at_time t x); reflexivity.
Qed.

End Sorting.

Lemma mapM_timestamps (messages : list dict) :
  Forall (fun x => stamped x = true) messages ->
  mapM timestamp_of messages = Ok (List.map stamp messages).
Proof.
  induction 1 as [|x l Hx Hl IH]; cbn [mapM List.map]; [reflexivity|].
  unfold stamped in Hx. unfold stamp.
  destruct (timestamp_of x); [|discriminate].
  cbn [bind]. now rewrite IH.
Qed.

Lemma combine_keyed (messages : list dict) :
  combine (List.map stamp messages) messages = List.map keyed messages.
Proof. induction messages as [|x l IH]; cbn; [reflexivity|now rewrite IH]. Qed.

Lemma keyed_well_keyed (messages : list dict) :
  Forall (fun x => stamped x = true) messages ->
  Forall well_keyed (List.map keyed messages).
Proof.
  induction 1 as [|x l Hx Hl IH]; cbn [List.map]; constructor; [|exact IH].
  unfold well_keyed, keyed, stamped, stamp in *. cbn [fst snd].
  destruct (timestamp_of x); [|discriminate].
  split; [reflexivity|now apply negb_true_iff].
Qed.

Lemma map_snd_keyed (messages : list dict) :
  List.map snd (List.map keyed messages) = messages.
Proof. induction messages as [|x l IH]; cbn; [reflexivity|now rewrite IH]. Qed.

Lemma filter_map_snd (p : dict -> bool) (l : list (float * dict)) :
  List.filter p (List.map snd l) = List.map snd (List.filter (fun kx => p (snd kx)) l).
Proof.
  induction l as [|kx l IH]; cbn [List.map List.filter]; [reflexivity|].
  destruct (p (snd kx)); cbn [List.map]; now rewrite IH.
Qed.

Lemma StronglySorted_map_snd (l : list (float * dict)) :
  StronglySorted (fun a b => not_later (snd a) (snd b)) l ->
  StronglySorted not_later (List.map snd l).
Proof.
  induction 1 as [|kx l Hs IH Hall]; cbn [List.map]; constructor; [exact IH|].
  rewrite List.Forall_forall in Hall |- *.
  intros x Hin. apply in_map_iff in Hin. destruct Hin as (kx' & <- & Hin). auto.
Qed.

(** The sort of [monitor_file] on decoded frames: it does not raise; it
    rearranges the frames so that none is later than one that follows
    it; frames whose timestamps compare equal keep their order. *)
Lemma sort_by_timestamp_sorts (messages : list dict) :
  Forall (fun x => stamped x = true) messages ->
  exists sorted : list dict,
    sort_by_timestamp messages = Ok sorted /\
    Permutation sorted messages /\
    StronglySorted not_later sorted /\
    (forall t, List.filter (at_time t) sorted = List.filter (at_time t) messages).
Proof.
  intros Hst. unfold sort_by_timestamp.
  rewrite mapM_timestamps by exact Hst. cbn [bind]. rewrite combine_keyed.
  eexists. split; [reflexivity|]. unfold sort_keyed.
  pose proof (keyed_well_keyed messages Hst) as W.
  assert (S0 : StronglySorted (fun a b : float * dict => not_later (snd a) (snd b)) [])
    by constructor.
  split; [|split].
  - destruct (sort_loop (List.map keyed messages) [] (S754_zero false) W
                (List.Forall_nil _) S0) as (P & _).
    cbn zeta in P. cbn [app] in P.
    rewrite <- (map_snd_keyed messages) at 2. now apply Permutation_map.
  - destruct (sort_loop (List.map keyed messages) [] (S754_zero false) W
                (List.Forall_nil _) S0) as (_ & _ & S1 & _).
    now apply StronglySorted_map_snd.
  - intros t.
    destruct (sort_loop (List.map keyed messages) [] t W (List.Forall_nil _) S0)
      as (_ & _ & _ & F).
    cbn zeta in F. cbn [List.filter app] in F.
    rewrite filter_map_snd, F, <- filter_map_snd, map_snd_keyed. reflexivity.
Qed.

(** ** The replay loops *)

Lemma firstn_snoc (l : list dict) (i : nat) (x : dict) :
  nth_error l i = Some x -> firstn (S i) l = firstn i l ++ [x].
Proof.
  revert i. induction l as [|y l IH]; intros [|i] H; cbn in *; try discriminate.
  - now injection H as ->.
  - now rewrite (IH i H).
Qed.

Lemma stamped_timestamp (x : dict) :
  stamped x = true -> timestamp_of x = Ok (stamp x).
Proof. unfold stamped, stamp. destruct (timestamp_of x); [reflexivity|discriminate]. Qed.

Section Curses.

Variables (env : Env) (messages : list dict) (ref_timestamp replay_speed : float).

(** The curses loop gives the monitor the messages in list order. *)
Lemma replay_loop_prefix (fuel : nat) : forall (tick i : nat),
  let out := replay_loop fuel env tick messages ref_timestamp replay_speed i
               (firstn i messages) in
  (exists n, fst out = firstn n messages) /\
  (finished (snd out) -> fst out = messages).
Proof.
  assert (Hstop : forall (i : nat) (o : Outcome), o <> Complete -> o <> NothingToReplay ->
            (exists n, firstn i messages = firstn n messages) /\
            (finished o -> firstn i messages = messages)).
  { intros i o H1 H2. split; [eauto|]. intros [H|H]; contradiction. }
  induction fuel as [|fuel IH]; intros tick i; cbn [replay_loop].
  - cbn [fst snd]. now apply Hstop.
  - destruct (Z.ltb_spec (Z.of_nat i) (len messages)) as [Hi|Hi].
    + destruct (key (readings env tick) =? ord_q); [now apply Hstop|].
      unfold getitem. destruct (nth_error messages i) as [message|] eqn:Hnth;
        [|now apply Hstop].
      destruct (timestamp_of message); [|now apply Hstop].
      destruct (due _ _ _ _ _).
      * rewrite <- (firstn_snoc messages i message Hnth). apply IH.
      * apply IH.
    + cbn [fst snd]. unfold len in Hi.
      split; [eauto|]. intros _. apply firstn_all2. lia.
Qed.

Hypothesis all_stamped : Forall (fun x => stamped x = true) messages.
Hypothesis nobody_quits : forall tick, key (readings env tick) <> ord_q.
Hypothesis clock_goes_on : forall x, In x messages -> forall tick, exists tick',
  (tick <= tick')%nat /\
  PyFloat.geb (elapsed env replay_speed tick') (PyFloat.sub (stamp x) ref_timestamp)
  = true.

(** Waiting for message [i]: after some iterations it is delivered. *)
Lemma replay_loop_waits (i : nat) (message : dict) (wait : nat) :
  nth_error messages i = Some message ->
  forall tick,
  due (start_time env) ref_timestamp replay_speed
      (now (readings env (tick + wait))) (stamp message) = true ->
  exists n tick', forall fuel,
    replay_loop (n + fuel) env tick messages ref_timestamp replay_speed i
      (firstn i messages)
    = replay_loop fuel env tick' messages ref_timestamp replay_speed (S i)
        (firstn (S i) messages).
Proof.
  intros Hnth.
  assert (Hi : (Z.of_nat i <? len messages) = true).
  { apply Z.ltb_lt. unfold len.
    assert (i < List.length messages)%nat by (apply nth_error_Some; congruence). lia. }
  assert (Hts : timestamp_of message = Ok (stamp message)).
  { apply stamped_timestamp. rewrite List.Forall_forall in all_stamped.
    apply all_stamped. eapply nth_error_In. exact Hnth. }
  assert (Hstep : forall tick fuel,
    replay_loop (S fuel) env tick messages ref_timestamp replay_speed i (firstn i messages)
    = if due (start_time env) ref_timestamp replay_speed (now (readings env tick)) (stamp message)
      then replay_loop fuel env (S tick) messages ref_timestamp replay_speed (S i)
             (firstn (S i) messages)
      else replay_loop fuel env (S tick) messages ref_timestamp replay_speed i
             (firstn i messages)).
  { intros tick fuel. cbn [replay_loop]. rewrite Hi.
    destruct (Z.eqb_spec (key (readings env tick)) ord_q) as [Hq|_];
      [now apply nobody_quits in Hq|].
    unfold getitem. rewrite Hnth, Hts.
    now rewrite (firstn_snoc messages i message Hnth). }
  induction wait as [|wait IH]; intros tick Hdue.
  - rewrite Nat.add_0_r in Hdue. exists 1%nat, (S tick). intros fuel.
    cbn [Nat.add]. now rewrite Hstep, Hdue.
  - destruct (due (start_time env) ref_timestamp replay_speed
                (now (readings env tick)) (stamp message)) eqn:Hnow.
    + exists 1%nat, (S tick). intros fuel. cbn [Nat.add]. now rewrite Hstep, Hnow.
    + destruct (IH (S tick)) as (n & tick' & Hrun).
      { now replace (S tick + wait)%nat with (tick + S wait)%nat by lia. }
      exists (S n), tick'. intros fuel. cbn [Nat.add]. now rewrite Hstep, Hnow.
Qed.

(** With enough iterations the curses loop delivers everything. *)
Lemma replay_loop_completes (remaining : nat) : forall (i tick : nat),
  (List.length messages = i + remaining)%nat ->
  exists fuel,
    replay_loop fuel env tick messages ref_timestamp replay_speed i (firstn i messages)
    = (messages, Complete).
Proof.
  induction remaining as [|remaining IH]; intros i tick Hlen.
  - exists 1%nat. cbn [replay_loop].
    destruct (Z.ltb_spec (Z.of_nat i) (len messages)) as [Hi|Hi];
      [unfold len in Hi; lia|].
    now rewrite firstn_all2 by lia.
  - destruct (nth_error messages i) as [message|] eqn:Hnth.
    2:{ apply nth_error_None in Hnth. lia. }
    destruct (clock_goes_on message (nth_error_In _ _ Hnth) tick) as (tick' & Hle & Hgeb).
    (* the test of the loop is this comparison *)
    assert (Hdue : due (start_time env) ref_timestamp replay_speed
                     (now (readings env tick')) (stamp message) = true)
      by exact Hgeb.
    destruct (replay_loop_waits i message (tick' - tick) Hnth tick) as (n & tick2 & Hrun).
    { now replace (tick + (tick' - tick))%nat with tick' by lia. }
    destruct (IH (S i) tick2) as (fuel & Hdone); [lia|].
    exists (n + fuel)%nat. now rewrite Hrun.
Qed.

End Curses.

Section Console.

Variables (env : Env) (messages : list dict) (replay_speed : float).

(** The console loop gives the monitor the messages in list order. *)
Lemma replay_each_prefix (rest : list dict) : forall (i : nat) (monitor : list dict),
  let out := replay_each env messages rest replay_speed i monitor in
  (exists n, fst out = monitor ++ firstn n rest) /\
  (finished (snd out) -> fst out = monitor ++ rest).
Proof.
  induction rest as [|message rest IH]; intros i monitor; cbn [replay_each].
  - cbn [fst snd]. split; [exists 0%nat; cbn|intros _]; now rewrite app_nil_r.
  - destruct (if (0 <? i)%nat then _ else Ok tt) as [[]|e].
    + destruct ((i `mod` 10 =? 0)%nat && (stdin env i =? ord_q)).
      * cbn [fst snd]. split; [exists 1%nat; reflexivity|].
        intros [H|H]; discriminate H.
      * destruct (IH (S i) (monitor ++ [message])) as [(n & Hn) Hc].
        split.
        -- exists (S n). rewrite Hn, <- app_assoc. reflexivity.
        -- intros H. rewrite (Hc H), <- app_assoc. reflexivity.
    + cbn [fst snd]. split; [exists 0%nat; cbn; now rewrite app_nil_r|].
      intros [H|H]; discriminate H.
Qed.

Hypothesis all_stamped : Forall (fun x => stamped x = true) messages.
Hypothesis speed_positive : positive_speed replay_speed.
Hypothesis surroundings_calm : calm env.

Lemma pause_ok (time_diff : float) : pause env time_diff replay_speed = Ok tt.
Proof.
  unfold pause, PyFloat.fdiv. destruct surroundings_calm as [_ Hsleep].
  destruct replay_speed as [s|s| |s m e]; try discriminate speed_positive;
    cbn [bind]; rewrite Hsleep; now destruct (PyFloat.ltb _ _).
Qed.

(** In calm surroundings the console loop delivers everything. *)
Lemma replay_each_completes (rest : list dict) : forall (monitor : list dict),
  messages = monitor ++ rest ->
  replay_each env messages rest replay_speed (List.length monitor) monitor
  = (messages, Complete).
Proof.
  induction rest as [|message rest IH]; intros monitor Hsplit; cbn [replay_each].
  - now rewrite Hsplit, app_nil_r.
  - assert (Hslept : (if (0 <? List.length monitor)%nat
                      then bind (timestamp_of message) (fun ts =>
                           bind (getitem messages (List.length monitor - 1)) (fun previous =>
                           bind (timestamp_of previous) (fun ts' =>
                           pause env (PyFloat.sub ts ts') replay_speed)))
                      else Ok tt) = Ok tt).
    { destruct (0 <? List.length monitor)%nat eqn:Hpos; [|reflexivity].
      apply Nat.ltb_lt in Hpos.
      rewrite List.Forall_forall in all_stamped.
      rewrite (stamped_timestamp message)
        by (apply all_stamped; rewrite Hsplit; apply in_or_app; right; now left).
      cbn [bind]. unfold getitem.
      destruct (nth_error messages (List.length monitor - 1)) as [previous|] eqn:Hnth.
      2:{ apply nth_error_None in Hnth. rewrite Hsplit, List.length_app in Hnth. lia. }
      cbn [bind].
      rewrite (stamped_timestamp previous)
        by (apply all_stamped; eapply nth_error_In; exact Hnth).
      cbn [bind]. apply pause_ok. }
    rewrite Hslept.
    destruct surroundings_calm as [Hq _].
    destruct (Z.eqb_spec (stdin env (List.length monitor)) ord_q) as [E|_];
      [now apply Hq in E|].
    rewrite andb_false_r.
    replace (S (List.length monitor)) with (List.length (monitor ++ [message]))
      by (rewrite List.length_app; cbn; lia).
    apply IH. now rewrite <- app_assoc.
Qed.

End Console.

Lemma Forall_stamped_perm (l l' : list dict) :
  Permutation l l' ->
  Forall (fun x => stamped x = true) l' -> Forall (fun x => stamped x = true) l.
Proof. intros P H. eapply Permutation_Forall; [symmetry; exact P|exact H]. Qed.

(** Once sorted, the frames reach the monitor front to back, in either
    mode. *)
Lemma replay_messages_prefix (env : Env) (fuel : nat) (messages sorted : list dict)
    (use_curses : bool) (replay_speed : float) :
  sort_by_timestamp messages = Ok sorted ->
  Permutation sorted messages ->
  Forall (fun x => stamped x = true) sorted ->
  (exists n,
      fst (replay_messages env fuel messages use_curses replay_speed)
      = firstn n sorted) /\
  (finished (snd (replay_messages env fuel messages use_curses replay_speed)) ->
   fst (replay_messages env fuel messages use_curses replay_speed) = sorted).
Proof.
  intros Hsort Hperm Hst'.
  destruct messages as [|m0 messages'].
  { apply Permutation_sym, Permutation_nil in Hperm. subst sorted.
    cbn [replay_messages fst snd]. split; [now exists 0%nat|reflexivity]. }
  unfold replay_messages. rewrite Hsort.
  destruct sorted as [|first sorted'].
  { apply Permutation_nil in Hperm. discriminate. }
  assert (Hfirst : timestamp_of first = Ok (stamp first)).
  { apply stamped_timestamp. now inversion Hst'. }
  unfold _replay_with_curses, _replay_without_curses.
  cbn [getitem nth_error]. rewrite Hfirst.
  destruct use_curses.
  - apply (replay_loop_prefix env (first :: sorted') (stamp first) replay_speed fuel 0 0).
  - apply (replay_each_prefix env (first :: sorted') replay_speed (first :: sorted') 0 []).
Qed.

(** C8. Decoded frames are replayed in the order of their timestamps,
    whatever the speed. The list [sorted] that [monitor_file] makes of
    the frames depends on the frames alone; it is a rearrangement of
    them in which no frame is later than one that follows it, frames
    with equal timestamps keeping their order. What the monitor has been
    given, at any moment and in either mode, is a beginning of [sorted];
    when the replay ends normally it is all of [sorted]. It does end so:
    in the console mode when nobody types [q] and [time.sleep] accepts
    the pauses, and in the curses mode, given enough iterations, when
    nobody presses [q] and the clock goes on, that is, the time since
    the start, scaled by the speed, reaches the distance in time of
    every frame from the first. *)
Theorem replay_delivers_in_timestamp_order (env : Env) (fuel : nat)
    (messages : list dict) (use_curses : bool) (replay_speed : float) :
  Forall (fun x => stamped x = true) messages ->
  positive_speed replay_speed ->
  exists sorted : list dict,
    sort_by_timestamp messages = Ok sorted /\
    Permutation sorted messages /\
    StronglySorted not_later sorted /\
    (forall t, List.filter (at_time t) sorted = List.filter (at_time t) messages) /\
    (exists n,
        fst (replay_messages env fuel messages use_curses replay_speed)
        = firstn n sorted) /\
    (finished (snd (replay_messages env fuel messages use_curses replay_speed)) ->
     fst (replay_messages env fuel messages use_curses replay_speed) = sorted) /\
    (calm env ->
     fst (replay_messages env fuel messages false replay_speed) = sorted /\
     finished (snd (replay_messages env fuel messages false replay_speed))) /\
    (patient env replay_speed sorted ->
     exists fuel',
       fst (replay_messages env fuel' messages true replay_speed) = sorted /\
       finished (snd (replay_messages env fuel' messages true replay_speed))).
Proof.
  intros Hst Hpos.
  destruct (sort_by_timestamp_sorts messages Hst) as (sorted & Hsort & Hperm & Hsorted & Hstable).
  exists sorted. repeat (split; [assumption|]).
  pose proof (Forall_stamped_perm sorted messages Hperm Hst) as Hst'.
  destruct (replay_messages_prefix env fuel messages sorted use_curses replay_speed
              Hsort Hperm Hst') as [Hprefix Hall].
  split; [exact Hprefix|]. split; [exact Hall|].
  clear Hprefix Hall.
  destruct messages as [|m0 messages'].
  { (* nothing to replay *)
    apply Permutation_sym, Permutation_nil in Hperm. subst sorted.
    cbn [replay_messages fst snd].
    split; [intros _; split; [reflexivity|now right]|].
    intros _. exists 0%nat. split; [reflexivity|now right]. }
  unfold replay_messages. rewrite Hsort.
  destruct sorted as [|first sorted'].
  { apply Permutation_nil in Hperm. discriminate. }
  assert (Hfirst : timestamp_of first = Ok (stamp first)).
  { apply stamped_timestamp. now inversion Hst'. }
  unfold _replay_with_curses, _replay_without_curses.
  cbn [getitem nth_error]. rewrite Hfirst.
  split.
  - intros Hcalm.
    pose proof (replay_each_completes env (first :: sorted') replay_speed Hst' Hpos
                  Hcalm (first :: sorted') [] eq_refl) as Hdone.
    cbn [List.length] in Hdone. rewrite Hdone.
    split; [reflexivity|now left].
  - intros [Hq Hdue]. cbn [hd] in Hdue.
    destruct (replay_loop_completes env (first :: sorted') (stamp first) replay_speed
                Hst' Hq Hdue (List.length (first :: sorted')) 0 0 eq_refl)
      as (fuel' & Hdone).
    exists fuel'. cbn [firstn] in Hdone. rewrite Hdone. split; [reflexivity|now left].
Qed.

(** The theorem at the example log in steady surroundings, in the
    console mode and in the curses mode: in both the earlier frame is
    delivered first and the replay delivers both frames. *)
Lemma replay_delivers_in_timestamp_order_witness :
  fst (replay_messages steady_env 0 example_log false (PyFloat.decimal 10 1))
  = rev example_log /\
  exists fuel',
    fst (replay_messages steady_env fuel' example_log true (PyFloat.decimal 10 1))
    = rev example_log /\
    finished (snd (replay_messages steady_env fuel' example_log true
                     (PyFloat.decimal 10 1))).
Proof.
  destruct (replay_delivers_in_timestamp_order steady_env 0 example_log false
              (PyFloat.decimal 10 1))
    as (sorted & Hsort & _ & _ & _ & _ & _ & Hcalm & Hpatient).
  - repeat constructor.
  - reflexivity.
  - vm_compute in Hsort. injection Hsort as <-. split.
    + destruct Hcalm as [Hfst _]; [|exact Hfst].
      split; [intros i H; discriminate H|reflexivity].
    + apply Hpatient. split; [intros tick H; discriminate H|].
      intros x Hx tick. exists tick. split; [lia|].
      destruct Hx as [<-|[<-|[]]]; vm_compute; reflexivity.
Defined.

(** ** Frames read from a file are stamped *)

Lemma parse_line_not_nan (line : string) (m : RawFrame) :
  parse_line line = Ok (Some m) -> PyFloat.is_nan (timestamp m) = false.
Proof.
  unfold parse_line.
  destruct (pattern_match line) as [[[[[int_part frac_part] g2] g3] g4]|]; [|discriminate].
  destruct (PyStr.int16 g2); [|discriminate]. cbn [bind].
  destruct (mapM _ _); [|discriminate]. cbn [bind].
  intros [= <-]. cbn [timestamp].
  unfold PyStr.float_of_decimal, PyFloat.decimal.
  apply ratio_not_nan. apply Z.pow_nonzero; lia.
Qed.

Lemma decode_message_stamped (self : CANMessageParser) (m : RawFrame) (d : dict) :
  decode_message self (Some m) = Ok (Some d) ->
  PyFloat.is_nan (timestamp m) = false -> stamped d = true.
Proof.
  intros Hdec Hnan.
  destruct (decode_message_shape self m d Hdec) as (extra & -> & _).
  unfold stamped, timestamp_of, getitem_dict.
  rewrite (dict_get_app_found "timestamp" (VFloat (timestamp m)))
    by (apply base_fields_keep; cbn; tauto).
  cbn [bind]. now rewrite Hnan.
Qed.

Lemma read_lines_stamped (parser : CANMessageParser) (lines : list string) :
  forall messages,
    Forall (fun x => stamped x = true) messages ->
    Forall (fun x => stamped x = true) (fst (read_lines parser lines messages)).
Proof.
  induction lines as [|line lines IH]; intros messages Hm; cbn [read_lines];
    [exact Hm|].
  destruct (parse_line line) as [message|] eqn:Hparse; [|exact Hm].
  destruct (frame_truthy message); [|now apply IH].
  destruct (decode_message parser message) as [decoded|] eqn:Hdec; [|exact Hm].
  destruct (truthy decoded) eqn:Ht; [|now apply IH].
  apply IH. apply Forall_app. split; [exact Hm|].
  destruct message as [m|]; [|cbn in Hdec; injection Hdec as <-; discriminate Ht].
  destruct decoded as [d|]; [|discriminate Ht].
  constructor; [|constructor]. cbn [default].
  eapply decode_message_stamped; [exact Hdec|].
  eapply parse_line_not_nan. exact Hparse.
Qed.

(** Every frame that [read_all] returns carries a float timestamp that
    is a number. *)
Lemma read_all_stamped (parser : CANMessageParser) (file : option (list string)) :
  Forall (fun x => stamped x = true) (read_all parser file).
Proof.
  destruct file as [lines|]; cbn [read_all]; [|constructor].
  apply read_lines_stamped. constructor.
Qed.

(** X24. [monitor_file], on any file and any catalog, sorts the frames
    that [read_all] returns without raising: the sorted list holds the
    same frames, each as many times, no frame in it is later than one
    that follows it, and frames with equal timestamps keep the order
    they have in the file. What the monitor is given, in either mode
    and at any speed, is a beginning of the sorted list, and all of it
    when the replay ends normally. *)
Corollary monitor_file_order (ids_file : Descriptor) (file : option (list string))
    (env : Env) (fuel : nat) (use_curses : bool) (replay_speed : float) :
  exists sorted : list dict,
    sort_by_timestamp (read_all (init_parser ids_file) file) = Ok sorted /\
    Permutation sorted (read_all (init_parser ids_file) file) /\
    StronglySorted not_later sorted /\
    (forall t, List.filter (at_time t) sorted
               = List.filter (at_time t) (read_all (init_parser ids_file) file)) /\
    (exists n,
        fst (monitor_file ids_file file env fuel use_curses replay_speed)
        = firstn n sorted) /\
    (finished (snd (monitor_file ids_file file env fuel use_curses replay_speed)) ->
     fst (monitor_file ids_file file env fuel use_curses replay_speed) = sorted).
Proof.
  unfold monitor_file.
  pose proof (read_all_stamped (init_parser ids_file) file) as Hst.
  destruct (sort_by_timestamp_sorts _ Hst)
    as (sorted & Hsort & Hperm & Hsorted & Hstable).
  exists sorted. do 4 (split; [assumption|]).
  apply replay_messages_prefix; [exact Hsort|exact Hperm|].
  exact (Forall_stamped_perm _ _ Hperm Hst).
Qed.

(** * More of the program *)
(** ** More of the decode table *)

Lemma not_known_id (id : Z) :
  ~ In id known_ids ->
  (id =? 0x180) = false /\ (id =? 0x1F9) = false /\ (id =? 0x280) = false /\
  (id =? 0x002) = false /\ (id =? 0x551) = false /\ (id =? 0x216) = false /\
  (id =? 0x421) = false.
Proof.
  unfold known_ids. cbn [In]. intros H.
  repeat split; apply Z.eqb_neq; intros ->; apply H; tauto.
Qed.

(** X1. A frame whose identifier has no rule decodes to the base fields
    alone, whatever its payload: nothing is raised and no signal is
    added. *)
Theorem unknown_identifier_decode (self : CANMessageParser) (m : RawFrame) :
  ~ In (can_id m) known_ids ->
  decode_message self (Some m) = Ok (Some (base_fields self m)).
Proof.
  intros H. apply not_known_id in H.
  destruct H as (H1 & H2 & H3 & H4 & H5 & H6 & H7).
  unfold decode_message. rewrite base_fields_eq.
  now rewrite H1, H2, H3, H4, H5, H6, H7.
Qed.

Lemma unknown_identifier_decode_witness :
  decode_message no_catalog (Some (frame 0x7FF [1; 2; 3]))
  = Ok (Some (base_fields no_catalog (frame 0x7FF [1; 2; 3]))).
Proof.
  apply (unknown_identifier_decode no_catalog (frame 0x7FF [1; 2; 3])).
  cbn. intros H. repeat (destruct H as [H|H]; [discriminate H|]). exact H.
Defined.

Lemma bytes_upto_spec (n : nat) (b : Z) : 0 <= b < Z.of_nat n -> In b (bytes_upto n).
Proof.
  induction n as [|n IH]; intros Hb; [lia|].
  cbn [bytes_upto]. apply in_or_app.
  destruct (Z.eq_dec b (Z.of_nat n)) as [->|Hne]; [right; now left|].
  left. apply IH. lia.
Qed.

Lemma throttle_table :
  forallb (fun b => PyFloat.leb (S754_zero false) (throttle_of b)
                    && PyFloat.leb (throttle_of b) hundred)
          (bytes_upto 256) = true.
Proof. vm_compute. reflexivity. Qed.

Lemma throttle_range (b : Z) :
  is_byte b ->
  PyFloat.leb (S754_zero false) (throttle_of b) = true /\
  PyFloat.leb (throttle_of b) hundred = true.
Proof.
  intros Hb. pose proof throttle_table as T.
  rewrite forallb_forall in T.
  specialize (T b (bytes_upto_spec 256 b Hb)).
  now apply andb_true_iff in T.
Qed.

(** X2. For a frame with identifier 0x180 and at least eight payload
    bytes, [rpm] is the first two bytes, high byte first, divided by 8,
    and [throttle_pct] is the sixth byte over 255 times 100, rounded to
    one decimal; nothing is raised. The throttle lies between 0.0 and
    100.0, byte 0 giving 0.0 and byte 255 giving 100.0. *)
Theorem rpm_throttle_decode (self : CANMessageParser) (m : RawFrame) :
  can_id m = 0x180 -> (8 <= List.length (data m))%nat ->
  is_byte (nth 0 (data m) 0) -> is_byte (nth 1 (data m) 0) ->
  is_byte (nth 5 (data m) 0) ->
  let rpm_raw := big_endian (nth 0 (data m) 0) (nth 1 (data m) 0) in
  let throttle := throttle_of (nth 5 (data m) 0) in
  0 <= rpm_raw <= 65535 /\
  decode_message self (Some m)
  = Ok (Some (base_fields self m ++
              [ ("rpm", VFloat (PyFloat.ratio rpm_raw 8));
                ("throttle_pct", VFloat throttle) ])) /\
  PyFloat.leb (S754_zero false) throttle = true /\
  PyFloat.leb throttle hundred = true /\
  throttle_of 0 = S754_zero false /\
  throttle_of 255 = hundred.
Proof.
  intros Hid Hlen.
  destruct (data m) as [|b0 [|b1 [|b2 [|b3 [|b4 [|b5 [|b6 [|b7 rest]]]]]]]] eqn:Hdata;
    simpl in Hlen; try lia.
  cbn [nth]. unfold is_byte, big_endian. intros H0 H1 H5.
  split; [lia|]. split; [|split; [|split; [|split]]].
  - unfold decode_message. rewrite base_fields_eq, Hid, Hdata.
    cbn [Z.eqb Pos.eqb].
    rewrite (len_ge 8) by (simpl; lia).
    cbn [getitem nth_error bind].
    rewrite Z.shiftl_mul_pow2 by lia.
    replace (b0 * 2 ^ 8 + b1) with (256 * b0 + b1) by lia.
    rewrite !truediv_ok by lia. cbn [bind].
    change (PyFloat.of_int 100) with (Ok hundred). cbn [bind].
    set_signals. reflexivity.
  - now apply throttle_range.
  - now apply throttle_range.
  - vm_compute. reflexivity.
  - vm_compute. reflexivity.
Qed.

Lemma rpm_throttle_decode_witness :
  decode_message no_catalog (Some (frame 0x180 [0x07; 0xD0; 0; 0; 0; 0x80; 0; 0]))
  = Ok (Some (base_fields no_catalog (frame 0x180 [0x07; 0xD0; 0; 0; 0; 0x80; 0; 0])
              ++ [ ("rpm", VFloat (PyFloat.decimal 2500 1));
                   ("throttle_pct", VFloat (PyFloat.decimal 502 1)) ])).
Proof.
  refine (proj1 (proj2 (rpm_throttle_decode no_catalog
                          (frame 0x180 [0x07; 0xD0; 0; 0; 0; 0x80; 0; 0]) _ _ _ _ _))).
  - reflexivity.
  - simpl. lia.
  - unfold is_byte. simpl. lia.
  - unfold is_byte. simpl. lia.
  - unfold is_byte. simpl. lia.
Defined.

(** X3. For a frame with identifier 0x1F9 and at least four payload
    bytes, [rpm] is the third and fourth bytes, high byte first, divided
    by 8; nothing is raised and nothing else is added. *)
Theorem rpm_decode_1F9 (self : CANMessageParser) (m : RawFrame) :
  can_id m = 0x1F9 -> (4 <= List.length (data m))%nat ->
  is_byte (nth 2 (data m) 0) -> is_byte (nth 3 (data m) 0) ->
  let rpm_raw := big_endian (nth 2 (data m) 0) (nth 3 (data m) 0) in
  0 <= rpm_raw <= 65535 /\
  decode_message self (Some m)
  = Ok (Some (base_fields self m ++ [("rpm", VFloat (PyFloat.ratio rpm_raw 8))])).
Proof.
  intros Hid Hlen.
  destruct (data m) as [|b0 [|b1 [|b2 [|b3 rest]]]] eqn:Hdata; simpl in Hlen; try lia.
  cbn [nth]. unfold is_byte, big_endian. intros H2 H3.
  split; [lia|].
  unfold decode_message. rewrite base_fields_eq, Hid, Hdata.
  cbn [Z.eqb Pos.eqb].
  rewrite (len_ge 4) by (simpl; lia).
  cbn [getitem nth_error bind].
  rewrite Z.shiftl_mul_pow2 by lia.
  replace (b2 * 2 ^ 8 + b3) with (256 * b2 + b3) by lia.
  rewrite !truediv_ok by lia. cbn [bind].
  set_signals. reflexivity.
Qed.

Lemma rpm_decode_1F9_witness :
  decode_message no_catalog (Some (frame 0x1F9 [0; 0; 0x07; 0xD0]))
  = Ok (Some (base_fields no_catalog (frame 0x1F9 [0; 0; 0x07; 0xD0])
              ++ [("rpm", VFloat (PyFloat.decimal 2500 1))])).
Proof.
  refine (proj2 (rpm_decode_1F9 no_catalog (frame 0x1F9 [0; 0; 0x07; 0xD0]) _ _ _ _)).
  - reflexivity.
  - simpl. lia.
  - unfold is_byte. simpl. lia.
  - unfold is_byte. simpl. lia.
Defined.

(** X4. For a frame with identifier 0x280 and at least six payload
    bytes, [speed_kph] is the fifth and sixth bytes, high byte first,
    divided by 100, and [speed_mph] is that float times 0.621371;
    nothing is raised. Raw 10000 gives 100.0 km/h. *)
Theorem speed_decode (self : CANMessageParser) (m : RawFrame) :
  can_id m = 0x280 -> (6 <= List.length (data m))%nat ->
  is_byte (nth 4 (data m) 0) -> is_byte (nth 5 (data m) 0) ->
  let speed_raw := big_endian (nth 4 (data m) 0) (nth 5 (data m) 0) in
  let kph := PyFloat.ratio speed_raw 100 in
  0 <= speed_raw <= 65535 /\
  decode_message self (Some m)
  = Ok (Some (base_fields self m ++
              [ ("speed_kph", VFloat kph);
                ("speed_mph", VFloat (PyFloat.mul kph PyFloat.lit_0_621371)) ])) /\
  (speed_raw = 10000 -> kph = hundred).
Proof.
  intros Hid Hlen.
  destruct (data m) as [|b0 [|b1 [|b2 [|b3 [|b4 [|b5 rest]]]]]] eqn:Hdata;
    simpl in Hlen; try lia.
  cbn [nth]. unfold is_byte, big_endian. intros H4 H5.
  split; [lia|]. split.
  - unfold decode_message. rewrite base_fields_eq, Hid, Hdata.
    cbn [Z.eqb Pos.eqb].
    rewrite (len_ge 6) by (simpl; lia).
    cbn [getitem nth_error bind].
    rewrite Z.shiftl_mul_pow2 by lia.
    replace (b4 * 2 ^ 8 + b5) with (256 * b4 + b5) by lia.
    rewrite !truediv_ok by lia. cbn [bind].
    set_signals. unfold getitem_dict.
    rewrite dict_get_app_fresh by (apply base_fields_no_signal; simpl; tauto).
    cbn [dict_get String.eqb Ascii.eqb Bool.eqb bind].
    set_signals. reflexivity.
  - intros ->. reflexivity.
Qed.

Lemma speed_decode_witness :
  signal "speed_kph" (decode_message no_catalog (Some (frame 0x280 [0; 0; 0; 0; 0x27; 0x10])))
  = Some (VFloat hundred).
Proof.
  rewrite (proj1 (proj2 (speed_decode no_catalog (frame 0x280 [0; 0; 0; 0; 0x27; 0x10])
                           eq_refl ltac:(simpl; lia)
                           ltac:(unfold is_byte; simpl; lia)
                           ltac:(unfold is_byte; simpl; lia)))).
  reflexivity.
Defined.

(** X5. For a frame with identifier 0x216 whose payload has at least
    one value, the first one a byte, [clutch] is "Engaged" for 100,
    "Pressed" for 108, and for any other byte [v] the text "Unknown (",
    [v] in decimal, ")". *)
Theorem clutch_decode (self : CANMessageParser) (m : RawFrame) :
  can_id m = 0x216 -> (1 <= List.length (data m))%nat ->
  is_byte (nth 0 (data m) 0) ->
  let v := nth 0 (data m) 0 in
  let clutch :=
    if v =? 100 then "Engaged"
    else if v =? 108 then "Pressed"
    else "Unknown (" +:+ PyStr.str_of_int v +:+ ")" in
  decode_message self (Some m)
  = Ok (Some (base_fields self m ++ [("clutch", VStr clutch)])) /\
  (v = 0 -> clutch = "Unknown (0)").
Proof.
  intros Hid Hlen _ v clutch. split.
  - unfold clutch, v, decode_message.
    rewrite base_fields_eq, Hid.
    destruct (data m) as [|b rest] eqn:Hdata; simpl in Hlen; try lia.
    cbn [Z.eqb Pos.eqb].
    rewrite (len_ge 1) by (simpl; lia).
    cbn [getitem nth_error bind nth].
    destruct (b =? 100); [|destruct (b =? 108)]; set_signals; reflexivity.
  - unfold clutch. intros ->. reflexivity.
Qed.

Lemma clutch_decode_witness :
  decode_message no_catalog (Some (frame 0x216 [108]))
  = Ok (Some (base_fields no_catalog (frame 0x216 [108]) ++ [("clutch", VStr "Pressed")])).
Proof.
  refine (proj1 (clutch_decode no_catalog (frame 0x216 [108]) _ _ _)).
  - reflexivity.
  - simpl. lia.
  - unfold is_byte. simpl. lia.
Defined.

(** The signals of a successful decode, one case per rule. *)
Lemma decode_message_keys (self : CANMessageParser) (m : RawFrame) (d : dict) :
  decode_message self (Some m) = Ok (Some d) ->
  exists extra : dict,
    d = base_fields self m ++ extra /\
    In (keys extra)
       [ []; ["rpm"; "throttle_pct"]; ["rpm"]; ["speed_kph"; "speed_mph"];
         ["steering_angle"];
         ["engine_temp"; "cruise_setpoint_kph"; "cruise_status"];
         ["clutch"]; ["gear"] ].
Proof.
  unfold decode_message. rewrite base_fields_eq. intros H.
  open_decode H.
  all: revert H; set_signals; intros [= <-].
  all: try (exists []; rewrite app_nil_r; split; [reflexivity|cbn; tauto]).
  all: eexists; split; [reflexivity|cbn; tauto].
Qed.

Lemma base_fields_keys (self : CANMessageParser) (m : RawFrame) :
  keys (base_fields self m)
  = ["timestamp"; "can_id"; "can_id_hex"; "msg_type"; "data"; "raw"; "source"; "frequency"].
Proof. unfold base_fields. now destruct (ids_lookup self !! can_id m). Qed.

(** X6. Every decoded frame is well formed: it is the base fields, the
    items of the raw frame unchanged and then the source and frequency
    of the catalog or "Unknown", followed by items under signal names;
    no key occurs twice. *)
Theorem decoded_frame_well_formed (self : CANMessageParser) (m : RawFrame) (d : dict) :
  decode_message self (Some m) = Ok (Some d) ->
  NoDup (keys d) /\
  (exists extra, d = base_fields self m ++ extra /\
                 Forall (fun k => In k signal_names) (keys extra)) /\
  (forall k v, In (k, v) (copy m) -> dict_get k d = Some v) /\
  dict_get "source" d
  = Some (VStr (match ids_lookup self !! can_id m with
                | Some entry => source entry
                | None => "Unknown"
                end)) /\
  dict_get "frequency" d
  = Some (VStr (match ids_lookup self !! can_id m with
                | Some entry => frequency entry
                | None => "Unknown"
                end)).
Proof.
  intros Hdec.
  destruct (decode_message_keys self m d Hdec) as (extra & -> & Hkeys).
  split; [|split; [|split; [|split]]].
  - unfold keys in *. rewrite List.map_app.
    change (List.map fst (base_fields self m)) with (keys (base_fields self m)).
    rewrite base_fields_keys.
    cbn [In] in Hkeys.
    repeat (destruct Hkeys as [<-|Hkeys];
            [apply (bool_decide_unpack _); vm_compute; reflexivity|]).
    destruct Hkeys.
  - exists extra. split; [reflexivity|]. unfold keys in *.
    cbn [In] in Hkeys.
    repeat (destruct Hkeys as [<-|Hkeys];
            [repeat constructor; cbn; tauto|]).
    destruct Hkeys.
  - intros k v Hin. apply dict_get_app_found. now apply base_fields_keep.
  - apply dict_get_app_found. unfold base_fields.
    now destruct (ids_lookup self !! can_id m).
  - apply dict_get_app_found. unfold base_fields.
    now destruct (ids_lookup self !! can_id m).
Qed.

Lemma decoded_frame_well_formed_witness :
  NoDup (keys (base_fields no_catalog (frame 0x421 [0x80]) ++ [("gear", VStr "1")])).
Proof.
  refine (proj1 (decoded_frame_well_formed no_catalog (frame 0x421 [0x80]) _ _)).
  reflexivity.
Defined.

(** X7. On a payload of bytes [decode_message] never raises, and it adds
    signals exactly when the identifier has a rule and the payload has
    the length the rule asks for: eight bytes for 0x180, four for 0x1F9,
    six for 0x280 and 0x551, two for 0x002, one for 0x216 and 0x421. *)
Theorem signals_iff_rule_applies (self : CANMessageParser) (m : RawFrame) :
  Forall is_byte (data m) ->
  exists extra : dict,
    decode_message self (Some m) = Ok (Some (base_fields self m ++ extra)) /\
    (extra <> [] <->
     In (can_id m) known_ids /\ (rule_min_len (can_id m) <= List.length (data m))%nat).
Proof.
  intros Hbytes. unfold decode_message, rule_min_len, known_ids.
  rewrite base_fields_eq.
  remember (data m) as payload eqn:Hp. clear Hp.
  assert (Hno : forall n : nat, (Z.of_nat n <=? len payload) = false ->
                  ~ (n <= List.length payload)%nat).
  { intros n H. apply Z.leb_gt in H. unfold len in H. lia. }
  assert (Hyes : forall n : nat, (Z.of_nat n <=? len payload) = true ->
                  (n <= List.length payload)%nat).
  { intros n H. apply Z.leb_le in H. unfold len in H. lia. }
  destruct (Z.eqb_spec (can_id m) 0x180) as [->|N1].
  { destruct (8 <=? len payload) eqn:Hlen.
    - pose proof (Hyes 8%nat Hlen).
      payload_has 8. bytes_of Hbytes. cbn [getitem nth_error bind].
      rewrite !truediv_ok by (rewrite ?Z.shiftl_mul_pow2; lia).
      cbn [bind]. change (PyFloat.of_int 100) with (Ok (PyFloat.decimal 1000 1)).
      cbn [bind]. set_signals. eexists; split; [reflexivity|].
      split; [intros _; split; [cbn; tauto|assumption]|discriminate].
    - exists []. rewrite app_nil_r. split; [reflexivity|].
      split; [congruence|]. intros [_ H]. now apply (Hno 8%nat) in H. }
  destruct (Z.eqb_spec (can_id m) 0x1F9) as [->|N2].
  { destruct (4 <=? len payload) eqn:Hlen.
    - pose proof (Hyes 4%nat Hlen).
      payload_has 4. bytes_of Hbytes. cbn [getitem nth_error bind].
      rewrite !truediv_ok by (rewrite ?Z.shiftl_mul_pow2; lia).
      cbn [bind]. set_signals. eexists; split; [reflexivity|].
      split; [intros _; split; [cbn; tauto|assumption]|discriminate].
    - exists []. rewrite app_nil_r. split; [reflexivity|].
      split; [congruence|]. intros [_ H]. now apply (Hno 4%nat) in H. }
  destruct (Z.eqb_spec (can_id m) 0x280) as [->|N3].
  { destruct (6 <=? len payload) eqn:Hlen.
    - pose proof (Hyes 6%nat Hlen).
      payload_has 6. bytes_of Hbytes. cbn [getitem nth_error bind].
      rewrite !truediv_ok by (rewrite ?Z.shiftl_mul_pow2; lia).
      cbn [bind]. set_signals. unfold getitem_dict.
      rewrite dict_get_app_fresh by (apply base_fields_no_signal; simpl; tauto).
      cbn [dict_get String.eqb Ascii.eqb Bool.eqb bind].
      set_signals. eexists; split; [reflexivity|].
      split; [intros _; split; [cbn; tauto|assumption]|discriminate].
    - exists []. rewrite app_nil_r. split; [reflexivity|].
      split; [congruence|]. intros [_ H]. now apply (Hno 6%nat) in H. }
  destruct (Z.eqb_spec (can_id m) 0x002) as [->|N4].
  { destruct (2 <=? len payload) eqn:Hlen.
    - pose proof (Hyes 2%nat Hlen).
      payload_has 2. bytes_of Hbytes. cbn [getitem nth_error bind].
      destruct (_ >? 32767) eqn:E;
        rewrite !truediv_ok by (rewrite ?Z.shiftl_mul_pow2; lia);
        cbn [bind]; set_signals; (eexists; split; [reflexivity|]);
        (split; [intros _; split; [cbn; tauto|assumption]|discriminate]).
    - exists []. rewrite app_nil_r. split; [reflexivity|].
      split; [congruence|]. intros [_ H]. now apply (Hno 2%nat) in H. }
  destruct (Z.eqb_spec (can_id m) 0x551) as [->|N5].
  { destruct (6 <=? len payload) eqn:Hlen.
    - pose proof (Hyes 6%nat Hlen).
      payload_has 6. cbn [getitem nth_error bind].
      set_signals. eexists; split; [reflexivity|].
      split; [intros _; split; [cbn; tauto|assumption]|discriminate].
    - exists []. rewrite app_nil_r. split; [reflexivity|].
      split; [congruence|]. intros [_ H]. now apply (Hno 6%nat) in H. }
  destruct (Z.eqb_spec (can_id m) 0x216) as [->|N6].
  { destruct (1 <=? len payload) eqn:Hlen.
    - pose proof (Hyes 1%nat Hlen).
      payload_has 1. cbn [getitem nth_error bind].
      repeat match goal with
             | |- context [if ?b then _ else _] => destruct b
             end; set_signals; (eexists; split; [reflexivity|]);
        (split; [intros _; split; [cbn; tauto|assumption]|discriminate]).
    - exists []. rewrite app_nil_r. split; [reflexivity|].
      split; [congruence|]. intros [_ H]. now apply (Hno 1%nat) in H. }
  destruct (Z.eqb_spec (can_id m) 0x421) as [->|N7].
  { destruct (1 <=? len payload) eqn:Hlen.
    - pose proof (Hyes 1%nat Hlen).
      payload_has 1. cbn [getitem nth_error bind].
      repeat match goal with
             | |- context [if ?b then _ else _] => destruct b
             end; set_signals; (eexists; split; [reflexivity|]);
        (split; [intros _; split; [cbn; tauto|assumption]|discriminate]).
    - exists []. rewrite app_nil_r. split; [reflexivity|].
      split; [congruence|]. intros [_ H]. now apply (Hno 1%nat) in H. }
  exists []. rewrite app_nil_r. split; [reflexivity|].
  split; [congruence|]. intros [H _]. cbn [In] in H.
  repeat (destruct H as [H|H]; [congruence|]). destruct H.
Qed.

Lemma signals_iff_rule_applies_witness :
  exists extra : dict,
    decode_message no_catalog (Some (frame 0x216 [100]))
    = Ok (Some (base_fields no_catalog (frame 0x216 [100]) ++ extra)) /\
    (extra <> [] <->
     In 0x216 known_ids /\ (rule_min_len 0x216 <= 1)%nat).
Proof.
  apply (signals_iff_rule_applies no_catalog (frame 0x216 [100])).
  repeat constructor; unfold is_byte; simpl; lia.
Defined.

(** ** Strings *)

Lemma span_all (p : ascii -> bool) (s : string) :
  all_chars p s = true -> PyStr.span p s = (s, "").
Proof.
  induction s as [|c s IH]; cbn; [reflexivity|].
  intros [Hc Hs]%andb_true_iff. now rewrite Hc, IH.
Qed.

Lemma append_nil_l (s : string) : "" +:+ s = s.
Proof. reflexivity. Qed.

Lemma append_cons (c : ascii) (a b : string) : String c a +:+ b = String c (a +:+ b).
Proof. reflexivity. Qed.

Lemma append_nil_r (s : string) : s +:+ "" = s.
Proof. induction s as [|c s IH]; [reflexivity|]. now rewrite append_cons, IH. Qed.

Lemma append_assoc (a b c : string) : (a +:+ b) +:+ c = a +:+ (b +:+ c).
Proof. induction a as [|x a IH]; [reflexivity|]. now rewrite !append_cons, IH. Qed.

Lemma span_app (p : ascii -> bool) (a b : string) :
  all_chars p a = true -> stops p b = true -> PyStr.span p (a +:+ b) = (a, b).
Proof.
  intros Ha Hb. induction a as [|c a IH].
  - rewrite append_nil_l. destruct b as [|c b]; [reflexivity|]. cbn in Hb |- *.
    destruct (p c); [discriminate Hb|reflexivity].
  - rewrite append_cons. cbn in Ha |- *.
    apply andb_true_iff in Ha as [Hc Ha]. now rewrite Hc, IH.
Qed.

Lemma plus_app (p : ascii -> bool) (a b : string) :
  run_of p a = true -> stops p b = true -> plus p (a +:+ b) = Some (a, b).
Proof.
  intros [Hne Ha]%andb_true_iff Hb. unfold plus.
  rewrite span_app by assumption.
  now destruct a.
Qed.

Lemma rstrip_by_id (p : ascii -> bool) (s : string) :
  all_chars (fun c => negb (p c)) s = true -> PyStr.rstrip_by p s = s.
Proof.
  induction s as [|c s IH]; cbn; [reflexivity|].
  intros [Hc Hs]%andb_true_iff. rewrite IH by exact Hs.
  destruct s; [|reflexivity]. now destruct (p c).
Qed.

Lemma strip_by_id (p : ascii -> bool) (s : string) :
  all_chars (fun c => negb (p c)) s = true -> PyStr.strip_by p s = s.
Proof.
  intros H. unfold PyStr.strip_by.
  replace (PyStr.span p s) with (("", s) : string * string).
  - now apply rstrip_by_id.
  - destruct s as [|c s]; [reflexivity|]. cbn in *.
    apply andb_true_iff in H as [Hc _]. now destruct (p c).
Qed.

Lemma all_chars_impl (p q : ascii -> bool) (s : string) :
  (forall c, p c = true -> q c = true) ->
  all_chars p s = true -> all_chars q s = true.
Proof.
  intros Hpq. induction s as [|c s IH]; cbn; [reflexivity|].
  intros [Hc Hs]%andb_true_iff. now rewrite (Hpq c Hc), IH.
Qed.

Lemma all_chars_app (p : ascii -> bool) (a b : string) :
  all_chars p (a +:+ b) = all_chars p a && all_chars p b.
Proof.
  induction a as [|c a IH]; [reflexivity|].
  rewrite append_cons. cbn. now rewrite IH, andb_assoc.
Qed.

(** ** Hexadecimal numerals, written and read back *)

Lemma hex_digits_acc (d : Hexadecimal.uint) : forall acc : positive,
  PyStr.hex_digits (PyStr.upper (NilEmpty.string_of_uint d)) PyStr.AfterDigit (Zpos acc)
  = Some (Zpos (Pos.of_hex_uint_acc d acc)).
Proof.
  induction d; intros acc; cbn [NilEmpty.string_of_uint]; [reflexivity|..].
  all: change (PyStr.upper (String ?c ?s)) with (String (PyStr.to_upper c) (PyStr.upper s)).
  all: cbn [PyStr.hex_digits].
  all: match goal with
       | |- context [PyStr.code ?c =? 95] =>
           let b := eval vm_compute in (PyStr.code c =? 95) in
           change (PyStr.code c =? 95) with b
       end; cbv iota.
  all: match goal with
       | |- context [PyStr.hex_digit ?c] =>
           let v := eval vm_compute in (PyStr.hex_digit c) in
           change (PyStr.hex_digit c) with v
       end; cbv iota.
  all: cbn [Pos.of_hex_uint_acc]; rewrite <- IHd; f_equal; lia.
Qed.

Lemma hex_digits_zero (d : Hexadecimal.uint) :
  PyStr.hex_digits (PyStr.upper (NilEmpty.string_of_uint d)) PyStr.AfterDigit 0
  = Some (Z.of_N (Pos.of_hex_uint d)).
Proof.
  induction d; cbn [NilEmpty.string_of_uint]; [reflexivity|..].
  all: change (PyStr.upper (String ?c ?s)) with (String (PyStr.to_upper c) (PyStr.upper s)).
  all: cbn [PyStr.hex_digits].
  all: match goal with
       | |- context [PyStr.code ?c =? 95] =>
           let b := eval vm_compute in (PyStr.code c =? 95) in
           change (PyStr.code c =? 95) with b
       end; cbv iota.
  all: match goal with
       | |- context [PyStr.hex_digit ?c] =>
           let v := eval vm_compute in (PyStr.hex_digit c) in
           change (PyStr.hex_digit c) with v
       end; cbv iota.
  all: cbn [Pos.of_hex_uint]; try exact IHd.
  all: cbn [Z.of_N]; rewrite <- hex_digits_acc; reflexivity.
Qed.

Lemma hex_digits_start (d : Hexadecimal.uint) :
  d <> Hexadecimal.Nil ->
  PyStr.hex_digits (PyStr.upper (NilEmpty.string_of_uint d)) PyStr.AtStart 0
  = Some (Z.of_N (Pos.of_hex_uint d)).
Proof.
  intros Hd. rewrite <- hex_digits_zero.
  destruct d; [congruence|..]; reflexivity.
Qed.

Ltac each_ascii c :=
  destruct c as [[] [] [] [] [] [] [] []]; try reflexivity; try discriminate.

Lemma upper_hex_is_word (c : ascii) : is_upper_hex c = true -> PyStr.is_word c = true.
Proof. each_ascii c. Qed.

Lemma word_not_space (c : ascii) : PyStr.is_word c = true -> negb (PyStr.is_space c) = true.
Proof. each_ascii c. Qed.

Lemma word_not_c_space (c : ascii) : PyStr.is_word c = true -> negb (PyStr.is_c_space c) = true.
Proof. each_ascii c. Qed.

Lemma word_not_newline (c : ascii) : PyStr.is_word c = true -> negb (PyStr.is_newline c) = true.
Proof. each_ascii c. Qed.

Lemma digit_is_word (c : ascii) : PyStr.is_digit c = true -> PyStr.is_word c = true.
Proof. each_ascii c. Qed.

Lemma upper_cons (c : ascii) (s : string) :
  PyStr.upper (String c s) = String (PyStr.to_upper c) (PyStr.upper s).
Proof. reflexivity. Qed.

Lemma upper_hex_chars (d : Hexadecimal.uint) :
  all_chars is_upper_hex (PyStr.upper (NilEmpty.string_of_uint d)) = true.
Proof.
  induction d; cbn [NilEmpty.string_of_uint]; [reflexivity|..].
  all: rewrite upper_cons; cbn [all_chars]; rewrite IHd; reflexivity.
Qed.

Lemma to_hex_uint_nonnil (n : N) : N.to_hex_uint n <> Hexadecimal.Nil.
Proof.
  destruct n as [|p]; [discriminate|]. apply HexadecimalPos.Unsigned.to_uint_nonnil.
Qed.

Lemma format_X_nonneg (n : Z) :
  0 <= n ->
  PyStr.format_X n
  = PyStr.upper (NilEmpty.string_of_uint (N.to_hex_uint (Z.abs_N n))).
Proof.
  intros Hn. unfold PyStr.format_X.
  destruct (Z.ltb_spec n 0); [lia|]. rewrite append_nil_l.
  pose proof (to_hex_uint_nonnil (Z.abs_N n)) as Hd.
  unfold NilZero.string_of_uint. now destruct (N.to_hex_uint (Z.abs_N n)).
Qed.

Lemma int16_upper_hex (d : Hexadecimal.uint) :
  d <> Hexadecimal.Nil ->
  PyStr.int16 (PyStr.upper (NilEmpty.string_of_uint d)) = Ok (Z.of_N (Pos.of_hex_uint d)) /\
  PyStr.int16 ("0x" +:+ PyStr.upper (NilEmpty.string_of_uint d))
  = Ok (Z.of_N (Pos.of_hex_uint d)).
Proof.
  intros Hd. pose proof (hex_digits_start d Hd) as Hs.
  pose proof (upper_hex_chars d) as Hc.
  assert (Hw : all_chars PyStr.is_word (PyStr.upper (NilEmpty.string_of_uint d)) = true).
  { revert Hc. apply all_chars_impl, upper_hex_is_word. }
  assert (Hn : all_chars (fun c => negb (PyStr.is_c_space c))
                 (PyStr.upper (NilEmpty.string_of_uint d)) = true).
  { revert Hw. apply all_chars_impl, word_not_c_space. }
  unfold PyStr.int16. split.
  - rewrite strip_by_id by exact Hn.
    remember (PyStr.upper (NilEmpty.string_of_uint d)) as S eqn:HS.
    assert (Hb : PyStr.hex_body S = PyStr.hex_digits S PyStr.AtStart 0).
    { destruct S as [|c S]; [reflexivity|].
      destruct S as [|x S]; [now each_ascii c|].
      cbn in Hc. apply andb_true_iff in Hc as [_ Hc].
      apply andb_true_iff in Hc as [Hx _].
      assert (Hx' : (PyStr.code x =? 120) || (PyStr.code x =? 88) = false)
        by (revert Hx; clear; each_ascii x).
      unfold PyStr.hex_body. rewrite Hx'.
      clear. now each_ascii c. }
    destruct S as [|c S]; [discriminate Hs|].
    cbn in Hw. apply andb_true_iff in Hw as [Hw _].
    assert (Hsign : c <> "+"%char /\ c <> "-"%char)
      by (split; intros ->; discriminate Hw).
    replace (match String c S with
             | String "+" t => PyStr.hex_body t
             | String "-" t => Z.opp <$> PyStr.hex_body t
             | t => PyStr.hex_body t
             end) with (PyStr.hex_body (String c S)).
    + now rewrite Hb, Hs.
    + clear -Hsign. destruct Hsign as [H1 H2]. each_ascii c; congruence.
  - rewrite strip_by_id.
    + change ("0x" +:+ ?s) with (String "0" (String "x" s)).
      cbv beta iota.
      remember (PyStr.upper (NilEmpty.string_of_uint d)) as S eqn:HS.
      change (PyStr.hex_body (String "0" (String "x" S)))
        with (match S with
              | String "_" s'' => PyStr.hex_digits s'' PyStr.AtStart 0
              | _ => PyStr.hex_digits S PyStr.AtStart 0
              end).
      destruct S as [|c S]; [discriminate Hs|].
      cbn in Hc. apply andb_true_iff in Hc as [Hc _].
      replace (match String c S with
               | String "_" s'' => PyStr.hex_digits s'' PyStr.AtStart 0
               | _ => PyStr.hex_digits (String c S) PyStr.AtStart 0
               end) with (PyStr.hex_digits (String c S) PyStr.AtStart 0)
        by (revert Hc; clear; each_ascii c).
      now rewrite Hs.
    + change ("0x" +:+ ?s) with (String "0" (String "x" s)).
      cbn [all_chars]. now rewrite Hn.
Qed.

Lemma int16_format_X (n : Z) :
  0 <= n ->
  PyStr.int16 (PyStr.format_X n) = Ok n /\
  PyStr.int16 ("0x" +:+ PyStr.format_X n) = Ok n.
Proof.
  intros Hn. rewrite format_X_nonneg by exact Hn.
  destruct (int16_upper_hex _ (to_hex_uint_nonnil (Z.abs_N n))) as [H1 H2].
  rewrite H1, H2.
  change (Pos.of_hex_uint ?d) with (N.of_hex_uint d).
  rewrite HexadecimalN.Unsigned.of_to.
  split; f_equal; lia.
Qed.

Lemma format_X_upper_hex (n : Z) :
  0 <= n -> run_of is_upper_hex (PyStr.format_X n) = true.
Proof.
  intros Hn. rewrite format_X_nonneg by exact Hn.
  pose proof (to_hex_uint_nonnil (Z.abs_N n)) as Hd.
  unfold run_of. rewrite upper_hex_chars, andb_true_r.
  destruct (N.to_hex_uint (Z.abs_N n)); [congruence|..]; reflexivity.
Qed.

Lemma int16_format_02X (n : Z) :
  0 <= n ->
  PyStr.int16 (format_02X n) = Ok n /\ run_of is_upper_hex (format_02X n) = true.
Proof.
  intros Hn. unfold format_02X.
  destruct (int16_format_X n Hn) as [Hi _].
  pose proof (format_X_upper_hex n Hn) as Hr.
  destruct (PyStr.format_X n) as [|c [|c' s]] eqn:E; [discriminate Hr| |].
  - cbn [String.length Nat.ltb Nat.leb].
    change ("0" +:+ String c "") with (String "0" (String c "")).
    split.
    + revert Hi. clear.
      destruct c as [[] [] [] [] [] [] [] []]; vm_compute; intros H; congruence.
    + revert Hr. clear.
      destruct c as [[] [] [] [] [] [] [] []]; vm_compute; intros H; congruence.
  - cbn [String.length Nat.ltb Nat.leb]. now split.
Qed.

(** ** [split] after [join] *)

Lemma split_go_token (t : string) : forall (rest : string) (cur : option string),
  all_chars (fun c => negb (PyStr.is_space c)) t = true ->
  t <> "" ->
  PyStr.split_go (t +:+ rest) cur
  = PyStr.split_go rest (Some (default "" cur +:+ t)).
Proof.
  induction t as [|c t IH]; intros rest cur Ht Hne; [congruence|].
  rewrite append_cons. cbn [PyStr.split_go].
  cbn in Ht. apply andb_true_iff in Ht as [Hc Ht].
  apply negb_true_iff in Hc. rewrite Hc.
  destruct t as [|c' t].
  - now rewrite append_nil_l.
  - rewrite IH by (assumption || discriminate).
    cbn [default id]. now rewrite append_assoc.
Qed.

Lemma split_join (ts : list string) :
  Forall (fun t => run_of (fun c => negb (PyStr.is_space c)) t = true) ts ->
  PyStr.split (join " " ts) = ts.
Proof.
  unfold PyStr.split.
  induction ts as [|t ts IH]; intros Hts; [reflexivity|].
  apply Forall_cons_iff in Hts as [Ht Hts].
  apply andb_true_iff in Ht as [Hne Ht].
  assert (t <> "") by (intros ->; discriminate Hne).
  destruct ts as [|t' ts].
  - cbn [join]. rewrite <- (append_nil_r t) at 1.
    rewrite split_go_token by assumption. reflexivity.
  - change (join " " (t :: t' :: ts)) with (t +:+ " " +:+ join " " (t' :: ts)).
    rewrite split_go_token by assumption.
    change (" " +:+ ?s) with (String " " s). cbn [PyStr.split_go].
    change (PyStr.is_space " ") with true. cbv iota.
    cbn [default]. rewrite append_nil_l. f_equal. now apply IH.
Qed.

Lemma nonblank_token (t : string) :
  run_of (fun c => negb (PyStr.is_space c)) t = true -> nonblank t = true.
Proof.
  intros [Hne Ht]%andb_true_iff. unfold nonblank, PyStr.strip.
  rewrite strip_by_id by exact Ht. now destruct t.
Qed.

Lemma run_of_impl (p q : ascii -> bool) (s : string) :
  (forall c, p c = true -> q c = true) -> run_of p s = true -> run_of q s = true.
Proof.
  intros Hpq [Hne Hs]%andb_true_iff. unfold run_of.
  now rewrite Hne, (all_chars_impl p q s Hpq Hs).
Qed.

Lemma upper_hex_not_space (c : ascii) :
  is_upper_hex c = true -> negb (PyStr.is_space c) = true.
Proof. intros H. now apply word_not_space, upper_hex_is_word. Qed.

(** The payload text of the display, split and read as the parser
    does, is the payload. *)
Lemma data_str_read_back (payload : list Z) :
  Forall (fun b => 0 <= b) payload ->
  mapM PyStr.int16 (List.filter nonblank (PyStr.split (data_str payload))) = Ok payload.
Proof.
  intros Hp. unfold data_str.
  assert (Ht : Forall (fun t => run_of (fun c => negb (PyStr.is_space c)) t = true)
                 (List.map format_02X payload)).
  { apply List.Forall_map. revert Hp. apply List.Forall_impl. intros b Hb.
    eapply run_of_impl; [apply upper_hex_not_space|].
    now apply int16_format_02X. }
  rewrite split_join by exact Ht.
  replace (List.filter nonblank (List.map format_02X payload))
    with (List.map format_02X payload).
  - induction Hp as [|b payload Hb Hp IH]; [reflexivity|].
    cbn [List.map mapM].
    rewrite (proj1 (int16_format_02X b Hb)). cbn [bind].
    apply Forall_cons_iff in Ht as [_ Ht].
    now rewrite (IH Ht).
  - clear Hp. induction Ht as [|t ts Ht Hts IH]; [reflexivity|].
    cbn [List.filter]. rewrite (nonblank_token t Ht). now f_equal.
Qed.

(** ** Lines of the documented shape *)

Lemma literal_app (lit s : string) : literal lit (lit +:+ s) = Some s.
Proof.
  induction lit as [|c lit IH]; [now destruct s|].
  rewrite append_cons. cbn [literal]. now rewrite Ascii.eqb_refl.
Qed.

Lemma pattern_match_log_line (int_part frac_part id_text tag payload : string) :
  run_of PyStr.is_digit int_part = true ->
  run_of PyStr.is_digit frac_part = true ->
  run_of PyStr.is_word id_text = true ->
  run_of PyStr.is_word tag = true ->
  stops PyStr.is_space payload = true ->
  all_chars (fun c => negb (PyStr.is_newline c)) payload = true ->
  pattern_match (log_line int_part frac_part id_text tag payload)
  = Some (int_part, frac_part, id_text, tag, payload).
Proof.
  intros Hi Hf Hid Htag Hsp Hnl. unfold pattern_match, log_line.
  rewrite (plus_app _ int_part) by (exact Hi || reflexivity).
  cbn [mbind option_bind].
  rewrite (literal_app "."). cbn [mbind option_bind].
  rewrite (plus_app _ frac_part) by (exact Hf || reflexivity).
  cbn [mbind option_bind].
  change (" RX: [" +:+ ?s) with (" " +:+ "RX:" +:+ " " +:+ "[" +:+ s).
  rewrite (plus_app _ " ") by reflexivity. cbn [mbind option_bind].
  rewrite (literal_app "RX:"). cbn [mbind option_bind].
  rewrite (plus_app _ " ") by reflexivity. cbn [mbind option_bind].
  rewrite (literal_app "["). cbn [mbind option_bind].
  change ("](" +:+ ?s) with ("]" +:+ "(" +:+ s).
  rewrite (plus_app _ id_text) by (exact Hid || reflexivity).
  cbn [mbind option_bind].
  rewrite (literal_app "]"). cbn [mbind option_bind].
  rewrite (literal_app "("). cbn [mbind option_bind].
  change (") " +:+ ?s) with (")" +:+ " " +:+ s).
  rewrite (plus_app _ tag) by (exact Htag || reflexivity).
  cbn [mbind option_bind].
  rewrite (literal_app ")"). cbn [mbind option_bind].
  rewrite (plus_app _ " ") by (exact Hsp || reflexivity).
  cbn [mbind option_bind].
  now rewrite span_all by exact Hnl.
Qed.

(** ** What a parsed frame always satisfies *)

Lemma span_fst_all (p : ascii -> bool) (s : string) :
  all_chars p (fst (PyStr.span p s)) = true.
Proof.
  induction s as [|c s IH]; [reflexivity|]. cbn [PyStr.span].
  destruct (p c) eqn:Hc; [|reflexivity].
  destruct (PyStr.span p s) as [a b]. cbn in *. now rewrite Hc.
Qed.

Lemma plus_run_of (p : ascii -> bool) (s a b : string) :
  plus p s = Some (a, b) -> run_of p a = true.
Proof.
  unfold plus. pose proof (span_fst_all p s) as H.
  destruct (PyStr.span p s) as [a' b']. cbn in H.
  destruct a' as [|c a']; [discriminate|].
  intros [= <- <-]. unfold run_of. now rewrite H.
Qed.

Lemma pattern_match_groups (line int_part frac_part g2 g3 g4 : string) :
  pattern_match line = Some (int_part, frac_part, g2, g3, g4) ->
  run_of PyStr.is_digit int_part = true /\
  run_of PyStr.is_digit frac_part = true /\
  run_of PyStr.is_word g2 = true /\
  run_of PyStr.is_word g3 = true.
Proof.
  unfold pattern_match.
  destruct (plus PyStr.is_digit line) as [[a1 s1]|] eqn:E1; [|discriminate].
  cbn [mbind option_bind].
  destruct (literal "." s1) as [s2|]; [|discriminate]. cbn [mbind option_bind].
  destruct (plus PyStr.is_digit s2) as [[a3 s3]|] eqn:E3; [|discriminate].
  cbn [mbind option_bind].
  destruct (plus PyStr.is_space s3) as [[a4 s4]|]; [|discriminate].
  cbn [mbind option_bind].
  destruct (literal "RX:" s4) as [s5|]; [|discriminate]. cbn [mbind option_bind].
  destruct (plus PyStr.is_space s5) as [[a6 s6]|]; [|discriminate].
  cbn [mbind option_bind].
  destruct (literal "[" s6) as [s7|]; [|discriminate]. cbn [mbind option_bind].
  destruct (plus PyStr.is_word s7) as [[a8 s8]|] eqn:E8; [|discriminate].
  cbn [mbind option_bind].
  destruct (literal "]" s8) as [s9|]; [|discriminate]. cbn [mbind option_bind].
  destruct (literal "(" s9) as [s10|]; [|discriminate]. cbn [mbind option_bind].
  destruct (plus PyStr.is_word s10) as [[a11 s11]|] eqn:E11; [|discriminate].
  cbn [mbind option_bind].
  destruct (literal ")" s11) as [s12|]; [|discriminate]. cbn [mbind option_bind].
  destruct (plus PyStr.is_space s12) as [[a13 s13]|]; [|discriminate].
  cbn [mbind option_bind].
  destruct (PyStr.span _ s13) as [a14 s14].
  intros [= <- <- <- <- <-].
  repeat split; eapply plus_run_of; eassumption.
Qed.

Lemma hex_digit_range (c : ascii) (d : Z) : PyStr.hex_digit c = Some d -> 0 <= d.
Proof.
  unfold PyStr.hex_digit, PyStr.is_digit, PyStr.in_range.
  repeat match goal with
         | |- context [(?a <=? ?b) && ?r] => destruct (Z.leb_spec a b); cbn [andb]
         | |- context [?a <=? ?b] => destruct (Z.leb_spec a b)
         end; intros [= <-]; lia.
Qed.

Lemma hex_digits_nonneg (s : string) : forall (st : PyStr.scan) (acc z : Z),
  0 <= acc -> PyStr.hex_digits s st acc = Some z -> 0 <= z.
Proof.
  induction s as [|c s IH]; intros st acc z Hacc; cbn [PyStr.hex_digits].
  - destruct st; intros [= <-]; exact Hacc.
  - destruct (PyStr.code c =? 95).
    + destruct st; try discriminate. now apply IH.
    + destruct (PyStr.hex_digit c) as [d|] eqn:Hd; [|discriminate].
      apply IH. apply hex_digit_range in Hd. lia.
Qed.

Lemma hex_body_nonneg (s : string) (z : Z) : PyStr.hex_body s = Some z -> 0 <= z.
Proof.
  unfold PyStr.hex_body.
  repeat case_match; apply hex_digits_nonneg; lia.
Qed.

(** An identifier made of word characters has no sign. *)
Lemma int16_word_nonneg (s : string) (z : Z) :
  all_chars PyStr.is_word s = true -> PyStr.int16 s = Ok z -> 0 <= z.
Proof.
  intros Hw. unfold PyStr.int16.
  rewrite strip_by_id by (revert Hw; apply all_chars_impl, word_not_c_space).
  destruct s as [|c s]; [discriminate|].
  cbn in Hw. apply andb_true_iff in Hw as [Hc _].
  assert (Hsign : c <> "+"%char /\ c <> "-"%char)
    by (split; intros ->; discriminate Hc).
  replace (match String c s with
           | String "+" t => PyStr.hex_body t
           | String "-" t => Z.opp <$> PyStr.hex_body t
           | t => PyStr.hex_body t
           end) with (PyStr.hex_body (String c s)).
  - destruct (PyStr.hex_body (String c s)) as [v|] eqn:Hb; [|discriminate].
    intros [= <-]. now apply hex_body_nonneg in Hb.
  - clear -Hsign. destruct Hsign as [H1 H2]. each_ascii c; congruence.
Qed.

Lemma dec_digits_nonneg (s : string) : forall acc : Z,
  all_chars PyStr.is_digit s = true -> 0 <= acc -> 0 <= PyStr.dec_digits s acc.
Proof.
  induction s as [|c s IH]; intros acc Hs Hacc; cbn [PyStr.dec_digits]; [exact Hacc|].
  cbn in Hs. apply andb_true_iff in Hs as [Hc Hs].
  apply IH; [exact Hs|].
  unfold PyStr.is_digit, PyStr.in_range in Hc.
  apply andb_true_iff in Hc as [Hc _]. apply Z.leb_le in Hc. lia.
Qed.

Lemma binary_round_aux_nonneg (mx ex : Z) (lx : location) :
  0 <= mx ->
  PyFloat.leb (S754_zero false)
    (binary_round_aux PyFloat.prec PyFloat.emax false mx ex lx) = true.
Proof.
  intros Hm. unfold binary_round_aux.
  pose proof (shr_fexp_bounds mx ex lx Hm) as S1.
  destruct (shr_fexp PyFloat.prec PyFloat.emax mx ex lx) as [mrs' e'].
  destruct S1 as (A1 & _).
  destruct (round_nearest_even_bounds (shr_m mrs') (loc_of_shr_record mrs') A1) as [R1 _].
  pose proof (shr_fexp_bounds _ e' loc_Exact R1) as S2.
  destruct (shr_fexp PyFloat.prec PyFloat.emax _ e' loc_Exact) as [mrs'' e''].
  destruct S2 as (B1 & _).
  destruct (shr_m mrs'') as [|m|m]; [reflexivity| |lia].
  now destruct (e'' <=? PyFloat.emax - PyFloat.prec).
Qed.

Lemma div_core_nonneg (pa pb : positive) :
  PyFloat.leb (S754_zero false)
    (let '(mz, ez, lz) :=
       SFdiv_core_binary PyFloat.prec PyFloat.emax (Zpos pa) 0 (Zpos pb) 0 in
     binary_round_aux PyFloat.prec PyFloat.emax false mz ez lz) = true.
Proof.
  unfold SFdiv_core_binary.
  remember (Z.min _ _) as e' eqn:Ee'. clear Ee'.
  remember (match 0 - 0 - e' with
            | Zpos _ => Z.shiftl (Zpos pa) (0 - 0 - e')
            | Z0 => Zpos pa
            | Zneg _ => 0
            end) as m' eqn:Em'.
  assert (Hm' : 0 <= m').
  { subst m'. destruct (0 - 0 - e') as [|s|s]; try lia.
    rewrite Z.shiftl_mul_pow2 by lia.
    apply Z.mul_nonneg_nonneg; [lia|]. apply Z.pow_nonneg; lia. }
  clear Em'.
  pose proof (Z.div_pos m' (Zpos pb) Hm' ltac:(lia)) as Hq0.
  unfold Z.div in Hq0.
  destruct (Z.div_eucl m' (Zpos pb)) as [q r].
  now apply binary_round_aux_nonneg.
Qed.

(** The quotient of a natural number by a positive one is not negative. *)
Lemma ratio_nonneg (a b : Z) :
  0 <= a -> 0 < b -> PyFloat.leb (S754_zero false) (PyFloat.ratio a b) = true.
Proof.
  intros Ha Hb. unfold PyFloat.ratio, SFdiv.
  destruct a as [|pa|pa]; destruct b as [|pb|pb]; try lia;
    cbn [PyFloat.exact]; try reflexivity.
  apply div_core_nonneg.
Qed.

(** X8. Every frame that [parse_line] returns has an identifier that is
    not negative, and the text [can_id_hex], read as base 16, is that
    identifier again; its tag is a non-empty run of word characters, its
    [raw] is the stripped line, and its timestamp is a number that is
    not negative. *)
Theorem parsed_frame_invariants (line : string) (m : RawFrame) :
  parse_line line = Ok (Some m) ->
  0 <= can_id m /\
  can_id_hex m = "0x" +:+ PyStr.format_X (can_id m) /\
  PyStr.int16 (can_id_hex m) = Ok (can_id m) /\
  run_of PyStr.is_word (msg_type m) = true /\
  raw m = PyStr.strip line /\
  PyFloat.is_nan (timestamp m) = false /\
  PyFloat.leb (S754_zero false) (timestamp m) = true.
Proof.
  intros Hparse. pose proof (parse_line_not_nan line m Hparse) as Hnan.
  revert Hparse. unfold parse_line.
  destruct (pattern_match line) as [[[[[int_part frac_part] g2] g3] g4]|] eqn:Hm;
    [|discriminate].
  apply pattern_match_groups in Hm as (Hi & Hf & H2 & H3).
  destruct (PyStr.int16 g2) as [id|] eqn:Hid; [|discriminate]. cbn [bind].
  destruct (mapM _ _); [|discriminate]. cbn [bind].
  intros [= <-]. cbn [can_id can_id_hex msg_type raw timestamp] in *.
  apply andb_true_iff in H2 as [_ H2].
  pose proof (int16_word_nonneg g2 id H2 Hid) as Hnn.
  repeat split; try assumption.
  - now apply int16_format_X.
  - unfold PyStr.float_of_decimal, PyFloat.decimal.
    apply ratio_nonneg.
    + apply dec_digits_nonneg; [|lia].
      apply andb_true_iff in Hi as [_ Hi]. apply andb_true_iff in Hf as [_ Hf].
      now rewrite all_chars_app, Hi, Hf.
    + apply Z.pow_pos_nonneg; lia.
Qed.

Lemma parsed_frame_invariants_witness :
  0 <= 0x180 /\ PyStr.int16 "0x180" = Ok 0x180.
Proof.
  pose proof (parsed_frame_invariants scenario_line
                {| timestamp := PyStr.float_of_decimal "1000" "250";
                   can_id := 0x180; can_id_hex := "0x180"; msg_type := "ext";
                   data := [0x07; 0xD0; 0; 0; 0; 0x80; 0; 0];
                   raw := PyStr.strip scenario_line |}
                ltac:(vm_compute; reflexivity)) as H.
  exact (conj (proj1 H) (proj1 (proj2 (proj2 H)))).
Defined.

(** ** A frame written out and read back *)

Lemma stops_run (p q : ascii -> bool) (a b : string) :
  (forall c, q c = true -> negb (p c) = true) ->
  run_of q a = true -> stops p (a +:+ b) = true.
Proof.
  intros Hqp [Hne Ha]%andb_true_iff.
  destruct a as [|c a]; [discriminate Hne|].
  rewrite append_cons. cbn in Ha |- *.
  apply andb_true_iff in Ha as [Hc _]. now apply Hqp.
Qed.

Lemma upper_hex_not_newline (c : ascii) :
  is_upper_hex c = true -> negb (PyStr.is_newline c) = true.
Proof. intros H. now apply word_not_newline, upper_hex_is_word. Qed.

Lemma data_str_shape (payload : list Z) :
  Forall (fun b => 0 <= b) payload ->
  stops PyStr.is_space (data_str payload) = true /\
  all_chars (fun c => negb (PyStr.is_newline c)) (data_str payload) = true.
Proof.
  unfold data_str.
  induction 1 as [|b payload Hb Hp [IH1 IH2]]; [now split|].
  destruct (int16_format_02X b Hb) as [_ Hr].
  assert (Hnl : all_chars (fun c => negb (PyStr.is_newline c)) (format_02X b) = true).
  { apply andb_true_iff in Hr as [_ Hr]. revert Hr.
    apply all_chars_impl, upper_hex_not_newline. }
  destruct payload as [|b' payload].
  - cbn [List.map join]. split; [|exact Hnl].
    rewrite <- (append_nil_r (format_02X b)).
    eapply stops_run; [apply upper_hex_not_space|exact Hr].
  - change (join " " (List.map format_02X (b :: b' :: payload)))
      with (format_02X b +:+ " " +:+ join " " (List.map format_02X (b' :: payload))).
    split.
    + eapply stops_run; [apply upper_hex_not_space|exact Hr].
    + rewrite all_chars_app, Hnl.
      change (" " +:+ ?s) with (String " " s). cbn [all_chars].
      now rewrite IH2.
Qed.

(** X9. A frame written as a log line reads back as itself: the time as
    two runs of digits, the identifier as [format(id, "X")] with or
    without the prefix [0x], a tag of word characters, and the payload
    as the display renders it, two upper-case hexadecimal digits per
    value with single spaces, parse to the frame with that identifier,
    tag and payload. *)
Theorem rendered_frame_reads_back (int_part frac_part id_text tag : string)
    (id : Z) (payload : list Z) :
  run_of PyStr.is_digit int_part = true ->
  run_of PyStr.is_digit frac_part = true ->
  run_of PyStr.is_word tag = true ->
  0 <= id ->
  id_text = PyStr.format_X id \/ id_text = "0x" +:+ PyStr.format_X id ->
  Forall (fun b => 0 <= b) payload ->
  let line := log_line int_part frac_part id_text tag (data_str payload) in
  parse_line line
  = Ok (Some {| timestamp := PyStr.float_of_decimal int_part frac_part;
                can_id := id;
                can_id_hex := "0x" +:+ PyStr.format_X id;
                msg_type := tag;
                data := payload;
                raw := PyStr.strip line |}).
Proof.
  intros Hi Hf Htag Hid Htext Hp line.
  destruct (data_str_shape payload Hp) as [Hsp Hnl].
  destruct (int16_format_X id Hid) as [I1 I2].
  pose proof (format_X_upper_hex id Hid) as Hx.
  assert (Hw : run_of PyStr.is_word id_text = true /\ PyStr.int16 id_text = Ok id).
  { destruct Htext as [-> | ->].
    - split; [|exact I1]. revert Hx. apply run_of_impl, upper_hex_is_word.
    - split; [|exact I2].
      apply andb_true_iff in Hx as [_ Hx].
      change ("0x" +:+ ?s) with (String "0" (String "x" s)).
      unfold run_of. cbn [String.eqb all_chars]. cbn.
      revert Hx. apply all_chars_impl, upper_hex_is_word. }
  destruct Hw as [Hw Hint].
  unfold parse_line. subst line.
  rewrite (pattern_match_log_line _ _ _ _ _ Hi Hf Hw Htag Hsp Hnl).
  rewrite Hint. cbn [bind].
  rewrite (data_str_read_back payload Hp). reflexivity.
Qed.

Lemma rendered_frame_reads_back_witness :
  parse_line (log_line "1000" "250" "0x180" "ext"
                (data_str [0x07; 0xD0; 0; 0; 0; 0x80; 0; 0]))
  = Ok (Some {| timestamp := PyStr.float_of_decimal "1000" "250";
                can_id := 0x180;
                can_id_hex := "0x" +:+ PyStr.format_X 0x180;
                msg_type := "ext";
                data := [0x07; 0xD0; 0; 0; 0; 0x80; 0; 0];
                raw := PyStr.strip
                         (log_line "1000" "250" "0x180" "ext"
                            (data_str [0x07; 0xD0; 0; 0; 0; 0x80; 0; 0])) |}).
Proof.
  apply (rendered_frame_reads_back "1000" "250" "0x180" "ext" 0x180
           [0x07; 0xD0; 0; 0; 0; 0x80; 0; 0]).
  - reflexivity.
  - reflexivity.
  - reflexivity.
  - lia.
  - right. reflexivity.
  - repeat constructor; lia.
Defined.

(** ** Reading a log file *)

Lemma parse_line_needs_digit (line : string) :
  starts_with_digit line = false -> parse_line line = Ok None.
Proof.
  intros H. apply parse_line_no_match. unfold pattern_match, plus.
  destruct line as [|c line]; [reflexivity|]. cbn in H |- *. now rewrite H.
Qed.

Lemma decode_message_result (self : CANMessageParser) (m : RawFrame)
    (r : option dict) :
  decode_message self (Some m) = Ok r ->
  exists extra : dict, r = Some (base_fields self m ++ extra).
Proof.
  unfold decode_message. rewrite base_fields_eq. intros H.
  open_decode H.
  all: revert H; set_signals; intros [= <-].
  all: try (exists []; rewrite app_nil_r; reflexivity).
  all: eexists; reflexivity.
Qed.

Lemma read_lines_acc (parser : CANMessageParser) (lines : list string) :
  forall messages,
    fst (read_lines parser lines messages)
    = messages ++ flat_map (frames_of_line parser) (before_raise parser lines).
Proof.
  induction lines as [|line lines IH]; intros messages.
  - cbn. now rewrite app_nil_r.
  - cbn [read_lines before_raise]. unfold line_raises.
    destruct (parse_line line) as [[m|]|e] eqn:Hparse.
    + change (frame_truthy (Some m)) with true. cbv iota.
      destruct (decode_message parser (Some m)) as [r|e] eqn:Hdec.
      * destruct (decode_message_result parser m r Hdec) as (extra & ->).
        cbn [is_ok negb]. cbn [flat_map].
        unfold frames_of_line at 1. rewrite Hparse, Hdec.
        replace (truthy (Some (base_fields parser m ++ extra))) with true
          by (unfold base_fields, copy; reflexivity).
        cbn [default]. rewrite IH.
        rewrite <- app_assoc. reflexivity.
      * cbn [is_ok negb flat_map fst]. now rewrite app_nil_r.
    + cbn [frame_truthy]. cbn [decode_message is_ok negb flat_map].
      unfold frames_of_line at 1. rewrite Hparse. cbn [app].
      apply IH.
    + cbn [flat_map fst]. now rewrite app_nil_r.
Qed.

Lemma before_raise_app (parser : CANMessageParser) (before after : list string)
    (bad : string) :
  line_raises parser bad = true ->
  before_raise parser (before ++ bad :: after) = before_raise parser before.
Proof.
  intros Hbad. induction before as [|line before IH]; cbn [app before_raise].
  - now rewrite Hbad.
  - destruct (line_raises parser line); [reflexivity|]. now rewrite IH.
Qed.

Lemma read_all_frames (parser : CANMessageParser) (lines : list string) :
  read_all parser (Some lines)
  = flat_map (frames_of_line parser) (before_raise parser lines).
Proof. unfold read_all. now rewrite read_lines_acc. Qed.

(** X10. [read_all] returns, in the order of the file, one decoded frame
    for every line that parses, up to the first line on which the parser
    or the decoder raises: that line and all the lines after it give
    nothing. No test of the loop drops a frame that parsed. *)
Theorem read_all_reads_up_to_first_error (parser : CANMessageParser)
    (lines : list string) :
  read_all parser (Some lines)
  = flat_map (frames_of_line parser) (before_raise parser lines) /\
  (forall line, (List.length (frames_of_line parser line) <= 1)%nat) /\
  (forall line m, parse_line line = Ok (Some m) -> line_raises parser line = false ->
     exists extra, frames_of_line parser line = [base_fields parser m ++ extra]).
Proof.
  split; [apply read_all_frames|]. split.
  - intros line. unfold frames_of_line.
    repeat case_match; cbn; lia.
  - intros line m Hparse. unfold line_raises, frames_of_line. rewrite Hparse.
    destruct (decode_message parser (Some m)) as [r|e] eqn:Hdec; [|discriminate].
    destruct (decode_message_result parser m r Hdec) as (extra & ->).
    intros _. now exists extra.
Qed.

(** X11. A line on which the parser or the decoder raises ends the
    reading: the frames of the lines before it are returned, and
    whatever follows it in the file changes nothing. *)
Theorem read_all_loses_the_rest (parser : CANMessageParser)
    (before after : list string) (bad : string) :
  line_raises parser bad = true ->
  read_all parser (Some (before ++ bad :: after)) = read_all parser (Some before).
Proof.
  intros Hbad. rewrite !read_all_frames. now rewrite before_raise_app.
Qed.

Lemma read_all_loses_the_rest_witness :
  read_all no_catalog
    (Some (["1.0 RX: [0180](ext) 07 D0 00 00 00 80 00 00"]
           ++ "2.0 RX: [ZZ](ext) 00" :: ["3.0 RX: [0421](ext) 80"]))
  = read_all no_catalog (Some ["1.0 RX: [0180](ext) 07 D0 00 00 00 80 00 00"]).
Proof.
  apply (read_all_loses_the_rest no_catalog
           ["1.0 RX: [0180](ext) 07 D0 00 00 00 80 00 00"]
           ["3.0 RX: [0421](ext) 80"] "2.0 RX: [ZZ](ext) 00").
  vm_compute. reflexivity.
Defined.

Lemma foreign_line_no_digit (line : string) :
  foreign_line line -> starts_with_digit line = false.
Proof.
  intros [(t & i & d & ->)|(messages & Hin)]; [reflexivity|].
  unfold Pico.output in Hin. destruct Hin as [<-|Hin]; [reflexivity|].
  apply in_flat_map in Hin as ([id data] & _ & Hin).
  unfold Pico.message_lines in Hin.
  destruct Hin as [<-|[<-|[]]]; reflexivity.
Qed.

Lemma no_digit_no_frames (parser : CANMessageParser) (lines : list string) :
  Forall (fun line => starts_with_digit line = false) lines ->
  read_all parser (Some lines) = [].
Proof.
  intros H. rewrite read_all_frames.
  induction H as [|line lines Hline H IH]; [reflexivity|].
  cbn [before_raise]. unfold line_raises.
  rewrite (parse_line_needs_digit line Hline). cbn [decode_message is_ok negb].
  cbn [flat_map]. unfold frames_of_line at 1.
  now rewrite (parse_line_needs_digit line Hline).
Qed.

(** X12. The decoder reads nothing of what the other two programs of
    the repository write: on a file made of lines of the bus logger and
    of lines printed by the firmware, in any mix, [read_all] returns no
    frame, without raising, and [monitor_file] replays nothing. The same
    holds for any file none of whose lines begins with a digit, blank
    lines and indented lines included. *)
Theorem other_logs_give_no_frames (ids_file : Descriptor) (lines : list string)
    (env : Env) (fuel : nat) (use_curses : bool) (replay_speed : float) :
  Forall (fun line => foreign_line line \/ starts_with_digit line = false) lines ->
  Forall (fun line => parse_line line = Ok None) lines /\
  read_all (init_parser ids_file) (Some lines) = [] /\
  monitor_file ids_file (Some lines) env fuel use_curses replay_speed
  = ([], NothingToReplay).
Proof.
  intros H.
  assert (Hd : Forall (fun line => starts_with_digit line = false) lines).
  { revert H. apply List.Forall_impl. intros line [Hf|Hd]; [|exact Hd].
    now apply foreign_line_no_digit. }
  split; [|split].
  - revert Hd. apply List.Forall_impl. apply parse_line_needs_digit.
  - now apply no_digit_no_frames.
  - unfold monitor_file. now rewrite no_digit_no_frames.
Qed.

Lemma other_logs_give_no_frames_witness :
  monitor_file (Unreadable OSError)
    (Some (Logger.log_entry "1712844000.123" 0x180 "bytearray(b'\x07')"
           :: "  1.0 RX: [0180](ext) 07 D0" :: Pico.output [("384", "bytearray(b'\x07')")]))
    steady_env 10 false (PyFloat.decimal 10 1)
  = ([], NothingToReplay).
Proof.
  refine (proj2 (proj2 (other_logs_give_no_frames (Unreadable OSError) _
                          steady_env 10 false (PyFloat.decimal 10 1) _))).
  constructor; [left; left; now exists "1712844000.123", 0x180, "bytearray(b'\x07')"|].
  constructor; [right; reflexivity|].
  apply List.Forall_forall. intros line Hin. left. right.
  now exists [("384", "bytearray(b'\x07')")].
Defined.

(** ** The live queue keeps the order *)

Lemma read_step_frames (parser : CANMessageParser) (line : string)
    (r : CANSerialReader) :
  read_step parser line r = (r, NoFrame) \/
  (exists m, frames_of_line parser line = [m] /\
             read_step parser line r = (r, Dropped m)) \/
  (exists m, frames_of_line parser line = [m] /\
             read_step parser line r
             = ({| message_queue := message_queue r; in_hand := Some m |}, Checked m)).
Proof.
  unfold read_step, frames_of_line.
  destruct (parse_line line) as [[f|]|]; try now left.
  change (frame_truthy (Some f)) with true. cbv iota.
  destruct (decode_message parser (Some f)) as [[m|]|]; try now left.
  destruct (truthy (Some m)); cbn [andb]; [|now left].
  destruct (full (message_queue r)); cbn [negb]; right; [left|right]; eauto.
Qed.

Lemma step_conserves (parser : CANMessageParser) (r : CANSerialReader) (t : Turn) :
  let r' := fst (step parser r t) in
  let e := snd (step parser r t) in
  message_queue r ++ enqueued [e] = got [e] ++ message_queue r' /\
  held r ++ checked [e] = enqueued [e] ++ held r' /\
  (forall m, In m (checked [e] ++ dropped [e]) ->
     exists line, t = Producer line /\ frames_of_line parser line = [m]).
Proof.
  destruct t as [line|]; cbn [step].
  - destruct (in_hand r) as [m|] eqn:Hand.
    + unfold put. destruct (_ && _); cbn [fst snd]; unfold held; rewrite Hand;
        cbn; rewrite ?app_nil_r; (split; [reflexivity|split; [reflexivity|]]);
        intros ? [].
    + destruct (read_step_frames parser line r) as [E|[(m & Hf & E)|(m & Hf & E)]];
        rewrite E; cbn [fst snd]; unfold held; rewrite Hand; cbn;
        rewrite ?app_nil_r; (split; [reflexivity|split; [reflexivity|]]).
      * intros ? [].
      * intros ? [<-|[]]. eauto.
      * intros ? [<-|[]]. eauto.
  - unfold get_message. destruct r as [[|m q] h]; cbn;
      unfold held; cbn; rewrite ?app_nil_r;
      (split; [reflexivity|split; [reflexivity|]]); intros ? [].
Qed.

Lemma events_cons (f : Event -> list dict) (e : Event) (es : list Event) :
  flat_map f (e :: es) = flat_map f [e] ++ flat_map f es.
Proof. cbn. now rewrite app_nil_r. Qed.

(** X13. The live queue is first in, first out, and loses nothing: on
    every interleaving of the read thread and the consumer, the frames
    the consumer got followed by the frames still queued are the frames
    that were enqueued, in order; the frames that passed the test of
    [full()] are those enqueued followed by the one still in hand; and
    every frame that was checked or dropped is the decoded frame of a
    line that the read thread read. *)
Theorem queue_is_fifo (parser : CANMessageParser) (schedule : list Turn) :
  forall r : CANSerialReader,
    let r' := fst (run parser schedule r) in
    let events := snd (run parser schedule r) in
    message_queue r ++ enqueued events = got events ++ message_queue r' /\
    held r ++ checked events = enqueued events ++ held r' /\
    (forall m, In m (checked events ++ dropped events) ->
       exists line, In (Producer line) schedule /\ frames_of_line parser line = [m]).
Proof.
  induction schedule as [|t schedule IH]; intros r; cbn [run].
  - cbn. rewrite !app_nil_r. repeat split. intros ? [].
  - pose proof (step_conserves parser r t) as (Q1 & H1 & F1).
    destruct (step parser r t) as [r1 e]. cbn [fst snd] in Q1, H1, F1.
    specialize (IH r1). cbn zeta in IH. destruct IH as (Q2 & H2 & F2).
    destruct (run parser schedule r1) as [r2 es]. cbn [fst snd] in *.
    unfold enqueued, got, checked, dropped in *.
    rewrite !(events_cons _ e es).
    split; [|split].
    + rewrite app_assoc, Q1, <- !app_assoc. now rewrite Q2.
    + rewrite app_assoc, H1, <- !app_assoc. now rewrite H2.
    + intros m Hin.
      rewrite !in_app_iff in Hin.
      destruct Hin as [[Hin|Hin]|[Hin|Hin]].
      * destruct (F1 m) as (line & -> & Hf); [apply in_app_iff; now left|].
        exists line. split; [now left|exact Hf].
      * destruct (F2 m) as (line & Hl & Hf); [apply in_app_iff; now left|].
        exists line. split; [now right|exact Hf].
      * destruct (F1 m) as (line & -> & Hf); [apply in_app_iff; now right|].
        exists line. split; [now left|exact Hf].
      * destruct (F2 m) as (line & Hl & Hf); [apply in_app_iff; now right|].
        exists line. split; [now right|exact Hf].
Qed.

Lemma run_app (parser : CANMessageParser) (s1 s2 : list Turn) :
  forall r : CANSerialReader,
    run parser (s1 ++ s2) r
    = (fst (run parser s2 (fst (run parser s1 r))),
       snd (run parser s1 r) ++ snd (run parser s2 (fst (run parser s1 r)))).
Proof.
  induction s1 as [|t s1 IH]; intros r; cbn [app run].
  - cbn. now destruct (run parser s2 r).
  - destruct (step parser r t) as [r1 e]. rewrite IH.
    destruct (run parser s1 r1) as [r2 es]. reflexivity.
Qed.

(** X14. The live reader survives a bad line where the file reader
    stops: a line on which the parser or the decoder raises, or that
    does not match, read while the read thread holds no frame, leaves
    the reader as it was, and the turns after it run as if the line had
    not been there. *)
Theorem live_reader_skips_bad_line (parser : CANMessageParser)
    (s1 s2 : list Turn) (bad : string) (r : CANSerialReader) :
  frames_of_line parser bad = [] ->
  in_hand (fst (run parser s1 r)) = None ->
  fst (run parser (s1 ++ Producer bad :: s2) r) = fst (run parser (s1 ++ s2) r) /\
  snd (run parser (s1 ++ Producer bad :: s2) r)
  = snd (run parser s1 r) ++ NoFrame :: snd (run parser s2 (fst (run parser s1 r))).
Proof.
  intros Hbad Hand. rewrite !run_app. cbn [fst snd].
  set (r1 := fst (run parser s1 r)) in *.
  assert (E : step parser r1 (Producer bad) = (r1, NoFrame)).
  { cbn [step]. rewrite Hand. revert Hbad. unfold read_step, frames_of_line.
    destruct (parse_line bad) as [[f|]|]; try reflexivity.
    change (frame_truthy (Some f)) with true. cbv iota.
    destruct (decode_message parser (Some f)) as [[m|]|]; try reflexivity.
    discriminate. }
  cbn [run]. rewrite E.
  destruct (run parser s2 r1) as [r2 es]. now split.
Qed.

Lemma live_reader_skips_bad_line_witness :
  fst (run no_catalog
         ([Producer "1.0 RX: [0421](ext) 80"; Producer ""]
          ++ Producer "2.0 RX: [ZZ](ext) 00" :: [Producer "3.0 RX: [0421](ext) 18"; Consumer])
         new_reader)
  = fst (run no_catalog
           ([Producer "1.0 RX: [0421](ext) 80"; Producer ""]
            ++ [Producer "3.0 RX: [0421](ext) 18"; Consumer])
           new_reader).
Proof.
  refine (proj1 (live_reader_skips_bad_line no_catalog
                   [Producer "1.0 RX: [0421](ext) 80"; Producer ""]
                   [Producer "3.0 RX: [0421](ext) 18"; Consumer]
                   "2.0 RX: [ZZ](ext) 00" new_reader _ _)).
  - vm_compute. reflexivity.
  - vm_compute. reflexivity.
Defined.

(** ** Replay at speed zero *)

Lemma not_later_refl (x : dict) : stamped x = true -> not_later x x.
Proof.
  unfold stamped, not_later, stamp.
  destruct (timestamp_of x) as [t|]; [|discriminate].
  intros H. apply negb_true_iff in H. apply leb_rank; [assumption..|].
  unfold lex_lt. destruct (rank t) as [[a1 a2] a3]. lia.
Qed.

(** X15. In console mode a replay speed of zero, of either sign, makes
    the replay of a file with two frames or more fail with
    [ZeroDivisionError] in the pause before the second frame: the
    monitor has received the earliest frame and nothing else. *)
Theorem console_replay_at_speed_zero (env : Env) (fuel : nat)
    (messages : list dict) (sign : bool) :
  Forall (fun x => stamped x = true) messages ->
  (2 <= List.length messages)%nat ->
  stdin env 0%nat <> ord_q ->
  exists first : dict,
    In first messages /\
    (forall x, In x messages -> not_later first x) /\
    replay_messages env fuel messages false (S754_zero sign)
    = ([first], Failed ZeroDivisionError).
Proof.
  intros Hst Hlen Hq.
  destruct (sort_by_timestamp_sorts messages Hst) as (sorted & Hsort & Hperm & Hsorted & _).
  pose proof (Forall_stamped_perm _ _ Hperm Hst) as Hst'.
  pose proof (Permutation_length Hperm) as Hl.
  destruct sorted as [|s1 [|s2 rest]]; cbn in Hl; try lia.
  exists s1. split; [|split].
  - eapply Permutation_in; [exact Hperm|now left].
  - intros x Hx. apply Permutation_sym in Hperm.
    apply (Permutation_in _ Hperm) in Hx. destruct Hx as [<-|Hx].
    + apply not_later_refl. now inversion Hst'.
    + apply StronglySorted_inv in Hsorted as [_ Hall].
      rewrite List.Forall_forall in Hall. now apply Hall.
  - unfold replay_messages. rewrite Hsort.
    destruct messages as [|m0 messages]; [cbn in Hlen; lia|].
    unfold _replay_without_curses. cbn [getitem nth_error].
    apply Forall_cons_iff in Hst' as [H1 Hst'].
    apply Forall_cons_iff in Hst' as [H2 _].
    rewrite (stamped_timestamp s1 H1).
    cbn [replay_each Nat.ltb Nat.leb].
    change (Nat.modulo 0 10 =? 0)%nat with true. cbn [andb].
    destruct (Z.eqb_spec (stdin env 0%nat) ord_q) as [E|_]; [contradiction|].
    cbn [app replay_each].
    change (0 <? 1)%nat with true. cbv iota.
    rewrite (stamped_timestamp s2 H2). cbn [bind Nat.sub getitem nth_error].
    rewrite (stamped_timestamp s1 H1). cbn [bind].
    unfold pause, PyFloat.fdiv. reflexivity.
Qed.

Lemma console_replay_at_speed_zero_witness :
  exists first : dict,
    In first example_log /\
    (forall x, In x example_log -> not_later first x) /\
    replay_messages steady_env 0 example_log false (S754_zero false)
    = ([first], Failed ZeroDivisionError).
Proof.
  apply (console_replay_at_speed_zero steady_env 0 example_log false).
  - repeat constructor.
  - simpl. lia.
  - vm_compute. discriminate.
Defined.

(** ** The exported rows *)

Ltac known_keys H :=
  unfold keys in H;
  repeat match type of H with
         | context [List.map fst ?e] =>
             is_var e; destruct e as [|[? ?] e]; cbn in H; try discriminate H
         end;
  try discriminate H; simplify_eq.

Lemma export_row_decoded (self : CANMessageParser) (m : RawFrame) (d : dict) :
  decode_message self (Some m) = Ok (Some d) ->
  export_row d = Ok (csv_row d) /\
  exists extra, d = base_fields self m ++ extra /\
    csv_row d
    = [ ("timestamp", VFloat (timestamp m)); ("can_id", VStr (can_id_hex m));
        ("source", VStr (match ids_lookup self !! can_id m with
                         | Some entry => source entry
                         | None => "Unknown"
                         end));
        ("raw_data", VStr (data_str (data m))) ] ++ extra.
Proof.
  intros Hdec.
  destruct (decode_message_keys self m d Hdec) as (extra & -> & Hkeys).
  cbn [In] in Hkeys.
  enough (H : export_row (base_fields self m ++ extra)
              = Ok (csv_row (base_fields self m ++ extra)) /\
              csv_row (base_fields self m ++ extra)
              = [ ("timestamp", VFloat (timestamp m)); ("can_id", VStr (can_id_hex m));
                  ("source", VStr (match ids_lookup self !! can_id m with
                                   | Some entry => source entry
                                   | None => "Unknown"
                                   end));
                  ("raw_data", VStr (data_str (data m))) ] ++ extra).
  { destruct H as [H1 H2]. split; [exact H1|]. now exists extra. }
  clear Hdec. unfold export_row, csv_row, getitem_dict, base_fields, copy.
  repeat (destruct Hkeys as [Hk|Hkeys];
          [known_keys Hk;
           destruct (ids_lookup self !! can_id m) as [entry|];
           split; reflexivity|]).
  destruct Hkeys.
Qed.

Lemma frames_of_line_decoded (parser : CANMessageParser) (line : string) (d : dict) :
  In d (frames_of_line parser line) ->
  exists m, decode_message parser (Some m) = Ok (Some d).
Proof.
  unfold frames_of_line.
  destruct (parse_line line) as [[m|]|]; [|intros []..].
  destruct (decode_message parser (Some m)) as [[d'|]|] eqn:Hdec; [|intros []..].
  intros [<-|[]]. now exists m.
Qed.

Lemma read_all_decoded (parser : CANMessageParser) (file : option (list string)) :
  Forall (fun d => exists m, decode_message parser (Some m) = Ok (Some d))
         (read_all parser file).
Proof.
  destruct file as [lines|]; [|constructor].
  rewrite read_all_frames. apply List.Forall_forall. intros d Hin.
  apply in_flat_map in Hin as (line & _ & Hin).
  now apply frames_of_line_decoded in Hin.
Qed.

Lemma mapM_export_row (parser : CANMessageParser) (messages : list dict) :
  Forall (fun d => exists m, decode_message parser (Some m) = Ok (Some d)) messages ->
  mapM export_row messages = Ok (List.map csv_row messages).
Proof.
  induction 1 as [|d messages (m & Hdec) _ IH]; [reflexivity|].
  cbn [mapM List.map].
  rewrite (proj1 (export_row_decoded parser m d Hdec)). cbn [bind].
  now rewrite IH.
Qed.

(** X16. [export_to_csv] never raises on what [read_all] returns: with
    no frame it returns [False]; otherwise it builds one row per frame,
    in the order of the frames, and the row of a frame is the
    timestamp, the identifier as its hexadecimal text under [can_id],
    the source and the payload text, followed by the signals of the
    frame in their order and by nothing else. *)
Theorem export_to_csv_rows (parser : CANMessageParser) (file : option (list string)) :
  export_to_csv parser file
  = Ok (match read_all parser file with
        | [] => None
        | messages => Some (List.map csv_row messages)
        end) /\
  Forall (fun d =>
            exists (m : RawFrame) (extra : dict),
              d = base_fields parser m ++ extra /\
              csv_row d
              = [ ("timestamp", VFloat (timestamp m));
                  ("can_id", VStr (can_id_hex m));
                  ("source", VStr (match ids_lookup parser !! can_id m with
                                   | Some entry => source entry
                                   | None => "Unknown"
                                   end));
                  ("raw_data", VStr (data_str (data m))) ] ++ extra)
         (read_all parser file).
Proof.
  pose proof (read_all_decoded parser file) as Hall. split.
  - unfold export_to_csv.
    destruct (read_all parser file) as [|d messages] eqn:E; [reflexivity|].
    now rewrite (mapM_export_row parser _ Hall).
  - revert Hall. apply List.Forall_impl. intros d (m & Hdec).
    destruct (export_row_decoded parser m d Hdec) as (_ & extra & Hd & Hrow).
    now exists m, extra.
Qed.

(** ** The monitor *)

Lemma decoded_frame_items (d : dict) :
  decoded_frame d ->
  exists (parser : CANMessageParser) (m : RawFrame) (extra : dict),
    d = base_fields parser m ++ extra /\
    forall k v, In (k, v) (copy m) -> dict_get k d = Some v.
Proof.
  intros (parser & m & Hdec).
  destruct (decode_message_result parser m _ Hdec) as (extra & Hd).
  assert (E : d = base_fields parser m ++ extra) by congruence.
  clear Hd. subst d.
  exists parser, m, extra. split; [reflexivity|].
  intros k v Hin. apply dict_get_app_found. now apply base_fields_keep.
Qed.

Lemma deque_append_len (maxlen : Z) (d : list dict) (x : dict) :
  0 <= maxlen -> len d <= maxlen -> len (deque_append maxlen d x) <= maxlen.
Proof.
  intros H0 Hd. unfold deque_append.
  destruct (Z.ltb_spec maxlen (len (d ++ [x]))) as [Hlt|Hge]; [|exact Hge].
  rewrite len_app_one in Hlt. destruct d as [|y d]; cbn [app tl].
  - unfold len. cbn. lia.
  - rewrite len_app_one. unfold len in *. cbn [List.length] in *. lia.
Qed.

Lemma history_get_set (k k' : string) (d : list dict) (h : list (string * list dict)) :
  history_get k (history_set k' d h)
  = if String.eqb k k' then Some d else history_get k h.
Proof.
  induction h as [|[k0 d0] h IH]; cbn [history_set history_get].
  - destruct (String.eqb_spec k k'); reflexivity.
  - destruct (String.eqb_spec k' k0) as [->|Hne]; cbn [history_get].
    + destruct (String.eqb_spec k k0); reflexivity.
    + destruct (String.eqb_spec k k0) as [->|Hne'].
      * destruct (String.eqb_spec k0 k'); [congruence|reflexivity].
      * exact IH.
Qed.

Lemma history_get_none (k : string) (h : list (string * list dict)) :
  history_get k h = None <-> ~ In k (List.map fst h).
Proof.
  induction h as [|[k0 d0] h IH]; cbn [history_get List.map fst In]; [tauto|].
  destruct (String.eqb_spec k k0) as [->|Hne].
  - split; [discriminate|tauto].
  - rewrite IH. split; [intros H [E|E]; [congruence|tauto]|tauto].
Qed.

Lemma history_set_keys (k : string) (d : list dict) (h : list (string * list dict)) :
  List.map fst (history_set k d h)
  = match history_get k h with
    | Some _ => List.map fst h
    | None => List.map fst h ++ [k]
    end.
Proof.
  induction h as [|[k0 d0] h IH]; cbn [history_set history_get List.map fst app];
    [reflexivity|].
  destruct (String.eqb_spec k k0) as [->|Hne]; cbn [List.map fst]; [reflexivity|].
  rewrite IH. now destruct (history_get k h).
Qed.

Lemma history_set_Forall (P : list dict -> Prop) (k : string) (d : list dict)
    (h : list (string * list dict)) :
  P d -> Forall (fun entry => P (snd entry)) h ->
  Forall (fun entry => P (snd entry)) (history_set k d h).
Proof.
  intros Hd. induction 1 as [|[k0 d0] h H0 Hh IH]; cbn [history_set].
  - repeat constructor. exact Hd.
  - destruct (String.eqb k k0); constructor; assumption.
Qed.

Lemma history_get_Forall (P : list dict -> Prop) (k : string) (d : list dict)
    (h : list (string * list dict)) :
  Forall (fun entry => P (snd entry)) h -> history_get k h = Some d -> P d.
Proof.
  induction 1 as [|[k0 d0] h H0 Hh IH]; cbn [history_get]; [discriminate|].
  destruct (String.eqb k k0); [now intros [= <-]|exact IH].
Qed.

Lemma update_history_inv (hl : Z) (h h' : list (string * list dict))
    (k : string) (message : dict) :
  NoDup (List.map fst h) ->
  Forall (fun entry => len (snd entry) <= hl) h ->
  update_history hl h k message = Ok h' ->
  NoDup (List.map fst h') /\ Forall (fun entry => len (snd entry) <= hl) h'.
Proof.
  intros Hnd Hall. unfold update_history.
  destruct (history_get k h) as [d|] eqn:Hget; cbn [bind].
  - intros [= <-]. split.
    + now rewrite history_set_keys, Hget.
    + pose proof (history_get_Forall (fun d => len d <= hl) k d h Hall Hget) as Hd.
      cbn beta in Hd.
      apply (history_set_Forall (fun d => len d <= hl)); [|exact Hall].
      apply deque_append_len; [|exact Hd]. unfold len in *. lia.
  - destruct (Z.ltb_spec hl 0) as [Hneg|Hpos]; cbn [bind]; [discriminate|].
    intros [= <-]. split.
    + rewrite history_set_keys, Hget. apply NoDup_app. split; [exact Hnd|].
      split; [|apply NoDup_singleton].
      intros x Hx Hx'. apply list_elem_of_singleton in Hx' as ->.
      apply list_elem_of_In in Hx. now apply history_get_none in Hget.
    + apply (history_set_Forall (fun d => len d <= hl)); [|exact Hall].
      apply deque_append_len; [exact Hpos|]. unfold len. cbn. exact Hpos.
Qed.

Lemma update_fields (self : CANMonitor) (message : dict) :
  history_length (fst (update self message)) = history_length self /\
  monitor_session_id (fst (update self message)) = monitor_session_id self /\
  (message_history (fst (update self message)) = message_history self \/
   exists k h, snd (update self message) = draw (fst (update self message)) /\
               dict_get "can_id_hex" message = Some (VStr k) /\
               update_history (history_length self) (message_history self) k message
               = Ok h /\
               message_history (fst (update self message)) = h /\
               latest_values (fst (update self message))
               = update_latest (latest_values self) message).
Proof.
  unfold update.
  destruct (match db self with
            | Some d => let '(d', e) := update_db d message (monitor_session_id self) in
                        (Some d', e)
            | None => (None, None)
            end) as [db' [e|]]; cbn [fst snd]; [auto|].
  unfold getitem_dict.
  destruct (dict_get "can_id_hex" message) as [v|]; cbn [fst snd]; [|auto].
  destruct v as [n|x|s|l|]; cbn [history_key fst snd]; auto.
  destruct (update_history _ _ s message) as [h|e] eqn:Hh; cbn [fst snd]; [|auto].
  split; [reflexivity|]. split; [reflexivity|]. right. exists s, h. auto.
Qed.

Lemma update_screen_db (self : CANMonitor) (message : dict) :
  screen (fst (update self message)) = screen self /\
  (db self = None -> db (fst (update self message)) = None).
Proof.
  unfold update. destruct (db self) as [database|].
  - destruct (update_db database message (monitor_session_id self)) as [d' [e|]];
      cbn [fst snd]; [split; [reflexivity|discriminate]|].
    destruct (getitem_dict message "can_id_hex") as [v|e]; cbn [fst];
      [|split; [reflexivity|discriminate]].
    destruct (history_key v) as [k|e]; cbn [fst];
      [|split; [reflexivity|discriminate]].
    destruct (update_history _ _ k message) as [h|e]; cbn [fst];
      split; first [reflexivity|discriminate].
  - destruct (getitem_dict message "can_id_hex") as [v|e]; cbn [fst];
      [|split; reflexivity].
    destruct (history_key v) as [k|e]; cbn [fst]; [|split; reflexivity].
    destruct (update_history _ _ k message) as [h|e]; cbn [fst];
      split; reflexivity.
Qed.

Lemma update_keeps_history_inv (self : CANMonitor) (message : dict) :
  history_inv self -> history_inv (fst (update self message)).
Proof.
  intros [Hnd Hall]. unfold history_inv.
  destruct (update_fields self message) as (Hl & _ & [Hh|(k & h & _ & _ & Hup & Hh & _)]).
  - now rewrite Hl, Hh.
  - rewrite Hl, Hh. eapply update_history_inv; eassumption.
Qed.

Lemma feed_keeps_history_inv (messages : list dict) : forall self : CANMonitor,
  history_inv self -> history_inv (fst (feed self messages)).
Proof.
  induction messages as [|message messages IH]; intros self Hinv; cbn [feed];
    [exact Hinv|].
  pose proof (update_keeps_history_inv self message Hinv) as H1.
  destruct (update self message) as [self' [e|]]; cbn [fst] in *; [exact H1|].
  now apply IH.
Qed.

Lemma feed_history_length (messages : list dict) : forall self : CANMonitor,
  history_length (fst (feed self messages)) = history_length self.
Proof.
  induction messages as [|message messages IH]; intros self; cbn [feed]; [reflexivity|].
  destruct (update_fields self message) as (Hl & _).
  destruct (update self message) as [self' [e|]]; cbn [fst] in *; [exact Hl|].
  now rewrite IH.
Qed.

Lemma updates_keep_history_inv (messages : list dict) : forall self : CANMonitor,
  history_inv self ->
  history_inv (fold_left (fun s message => fst (update s message)) messages self).
Proof.
  induction messages as [|message messages IH]; intros self Hinv; cbn [fold_left];
    [exact Hinv|].
  apply IH. now apply update_keeps_history_inv.
Qed.

Lemma updates_history_length (messages : list dict) : forall self : CANMonitor,
  history_length (fold_left (fun s message => fst (update s message)) messages self)
  = history_length self.
Proof.
  induction messages as [|message messages IH]; intros self; cbn [fold_left];
    [reflexivity|].
  rewrite IH. now destruct (update_fields self message) as (Hl & _).
Qed.

(** X17. The history of the monitor is bounded: whatever messages are
    given to [update], well-formed or not, no identifier ever has two
    deques and no deque ever holds more than [history_length] messages.
    This holds when the calls go on after one of them raised, and when
    the first exception ends them, as in a replay. *)
Theorem history_is_bounded (screen : option Screen) (existing : option Database)
    (sid : string) (n : Z) (messages : list dict) (monitor : CANMonitor) :
  monitor = fold_left (fun s message => fst (update s message)) messages
              (new_monitor screen existing sid n)
  \/ monitor = fst (feed (new_monitor screen existing sid n) messages) ->
  NoDup (List.map fst (message_history monitor)) /\
  forall k d, history_get k (message_history monitor) = Some d -> len d <= n.
Proof.
  assert (Hinit : history_inv (new_monitor screen existing sid n)).
  { split; cbn; constructor. }
  intros Hm.
  assert (H : history_inv monitor /\ history_length monitor = n).
  { destruct Hm as [-> | ->].
    - split; [now apply updates_keep_history_inv|apply updates_history_length].
    - split; [now apply feed_keeps_history_inv|apply feed_history_length]. }
  destruct H as [[Hnd Hall] Hlen]. split; [exact Hnd|].
  intros k d Hget. rewrite <- Hlen.
  exact (history_get_Forall (fun d => len d <= history_length monitor)
           k d _ Hall Hget).
Qed.

Lemma history_is_bounded_witness :
  NoDup (List.map fst
           (message_history
              (fst (feed (new_monitor None None "20240101_120000" 1)
                      (example_log ++ example_log))))).
Proof.
  exact (proj1 (history_is_bounded None None "20240101_120000" 1
                  (example_log ++ example_log) _ (or_intror eq_refl))).
Defined.

(** *** Updates with decoded frames *)

Lemma getitem_Forall {A : Type} (P : A -> Prop) (l : list A) (i : nat) (x : A) :
  Forall P l -> getitem l i = Ok x -> P x.
Proof.
  intros Hall. unfold getitem.
  destruct (nth_error l i) as [y|] eqn:Hnth; [|discriminate].
  intros [= <-]. apply nth_error_In in Hnth.
  exact (proj1 (List.Forall_forall P l) Hall y Hnth).
Qed.

Lemma bind_param_int64 (n : Z) :
  - 2 ^ 63 <= n < 2 ^ 63 -> bind_param (VInt n) = Ok tt.
Proof.
  intros [Hlo Hhi]. unfold bind_param.
  apply Z.leb_le in Hlo. apply Z.ltb_lt in Hhi. now rewrite Hlo, Hhi.
Qed.

(** The numeral of a byte is far below the limit of [str]. *)
Lemma json_dumps_bytes (payload : list Z) :
  Forall is_byte payload -> json_dumps (VList payload) = Ok tt.
Proof.
  intros Hall. unfold json_dumps.
  replace (forallb _ payload) with true; [reflexivity|].
  symmetry. apply forallb_forall. intros b Hb.
  pose proof (proj1 (List.Forall_forall is_byte payload) Hall b Hb) as Hbyte.
  unfold is_byte in Hbyte. apply Z.ltb_lt.
  assert (Hpow : 10 ^ 3 <= 10 ^ int_max_str_digits).
  { apply Z.pow_le_mono_r; unfold int_max_str_digits; lia. }
  change (10 ^ 3) with 1000 in Hpow. lia.
Qed.

Lemma storable_inv (d : dict) (id : Z) (payload : list Z) :
  dict_get "can_id" d = Some (VInt id) ->
  dict_get "data" d = Some (VList payload) ->
  storable d = true ->
  bind_param (VInt id) = Ok tt /\ Forall is_byte payload.
Proof.
  intros Hid Hdata. unfold storable. rewrite Hid, Hdata.
  intros H. apply andb_true_iff in H as [Hrange Hbytes]. split.
  - unfold bind_param. now rewrite Hrange.
  - apply List.Forall_forall. intros b Hb.
    rewrite forallb_forall in Hbytes. specialize (Hbytes b Hb).
    apply andb_true_iff in Hbytes as [Hlo Hhi].
    apply Z.leb_le in Hlo. apply Z.ltb_lt in Hhi. split; assumption.
Qed.

Lemma base_fields_not_persisted (self : CANMessageParser) (m : RawFrame) :
  List.filter persisted (base_fields self m) = [].
Proof.
  unfold base_fields, copy.
  destruct (ids_lookup self !! can_id m); reflexivity.
Qed.

(** Decoded from bytes, a frame has only values that the database
    binds: floats, text, [None], and integers made from one byte. *)
Lemma decode_message_binds (self : CANMessageParser) (m : RawFrame) (d : dict) :
  Forall is_byte (data m) ->
  decode_message self (Some m) = Ok (Some d) ->
  Forall (fun item => bind_param (snd item) = Ok tt) (List.filter persisted d).
Proof.
  intros Hbytes Hdec.
  assert (H : exists extra : dict,
             d = base_fields self m ++ extra /\
             Forall (fun item => bind_param (snd item) = Ok tt) extra).
  { revert Hdec. unfold decode_message. rewrite base_fields_eq. intros H.
    open_decode H.
    all: revert H; set_signals; intros [= <-].
    all: try (exists []; rewrite app_nil_r; split; [reflexivity|constructor]).
    all: eexists; split; [reflexivity|].
    all: repeat match goal with
           | Hg : getitem _ _ = Ok _ |- _ =>
               apply (getitem_Forall _ _ _ _ Hbytes) in Hg; unfold is_byte in Hg
           end.
    all: repeat constructor; cbn [snd].
    all: try reflexivity.
    all: apply bind_param_int64; lia. }
  destruct H as (extra & -> & Hextra).
  rewrite List.filter_app, base_fields_not_persisted. cbn [app].
  eapply incl_Forall; [apply incl_filter|exact Hextra].
Qed.

Lemma insert_raw_message_decoded (table : list RawRow) (d : dict) (sid : string) :
  decoded_frame d -> storable d = true ->
  exists m : RawFrame,
    (forall k v, In (k, v) (copy m) -> dict_get k d = Some v) /\
    insert_raw_message table d sid
    = Ok (table ++ [ {| rm_timestamp := VFloat (timestamp m);
                        rm_can_id := VInt (can_id m);
                        rm_can_id_hex := VStr (can_id_hex m);
                        rm_message_type := VStr (msg_type m);
                        rm_data := VList (data m);
                        rm_raw_text := VStr (raw m);
                        rm_session_id := sid |} ]).
Proof.
  intros Hd Hst.
  destruct (decoded_frame_items d Hd) as (parser & m & extra & -> & Hget).
  exists m. split; [exact Hget|].
  destruct (storable_inv _ (can_id m) (data m)
              (Hget "can_id" (VInt (can_id m)) ltac:(cbn; tauto))
              (Hget "data" (VList (data m)) ltac:(cbn; tauto)) Hst)
    as [Hid Hbytes].
  unfold insert_raw_message, getitem_dict.
  rewrite (Hget "timestamp" (VFloat (timestamp m))) by (cbn; tauto).
  rewrite (Hget "can_id" (VInt (can_id m))) by (cbn; tauto).
  rewrite (Hget "can_id_hex" (VStr (can_id_hex m))) by (cbn; tauto).
  rewrite (Hget "msg_type" (VStr (msg_type m))) by (cbn; tauto).
  rewrite (Hget "data" (VList (data m))) by (cbn; tauto).
  rewrite (Hget "raw" (VStr (raw m))) by (cbn; tauto).
  cbn [bind]. rewrite (json_dumps_bytes _ Hbytes). cbn [bind].
  rewrite Hid. reflexivity.
Qed.

(** An identifier of 64 bits or more does not bind. *)
Lemma insert_raw_message_wide (table : list RawRow) (d : dict) (sid : string)
    (id : Z) (payload : list Z) :
  decoded_frame d ->
  dict_get "can_id" d = Some (VInt id) ->
  dict_get "data" d = Some (VList payload) ->
  Forall is_byte payload -> 2 ^ 63 <= id ->
  insert_raw_message table d sid = Raise OverflowError.
Proof.
  intros Hd Hid Hdata Hbytes Hwide.
  destruct (decoded_frame_items d Hd) as (parser & m & extra & E & Hget).
  unfold insert_raw_message, getitem_dict.
  rewrite (Hget "timestamp" (VFloat (timestamp m))) by (cbn; tauto).
  rewrite Hid.
  rewrite (Hget "can_id_hex" (VStr (can_id_hex m))) by (cbn; tauto).
  rewrite (Hget "msg_type" (VStr (msg_type m))) by (cbn; tauto).
  rewrite Hdata.
  rewrite (Hget "raw" (VStr (raw m))) by (cbn; tauto).
  cbn [bind]. rewrite (json_dumps_bytes _ Hbytes). cbn [bind bind_param].
  apply Z.ltb_ge in Hwide. rewrite Hwide, andb_false_r. reflexivity.
Qed.

Lemma update_db_decoded (database : Database) (d : dict) (sid : string) :
  decoded_frame d -> storable d = true ->
  exists (database' : Database) (raw_row : RawRow) (rows : list DecodedRow),
    update_db database d sid = (database', None) /\
    raw_messages database' = raw_messages database ++ [raw_row] /\
    rm_session_id raw_row = sid /\
    dict_get "can_id_hex" d = Some (rm_can_id_hex raw_row) /\
    dict_get "raw" d = Some (rm_raw_text raw_row) /\
    decoded_values database' = decoded_values database ++ rows /\
    Forall (fun r => session_id r = sid) rows.
Proof.
  intros Hd Hst.
  destruct (insert_raw_message_decoded (raw_messages database) d sid Hd Hst)
    as (m & Hget & Hraw).
  destruct (storable_inv _ (can_id m) (data m)
              (Hget "can_id" (VInt (can_id m)) ltac:(cbn; tauto))
              (Hget "data" (VList (data m)) ltac:(cbn; tauto)) Hst)
    as [Hid Hbytes].
  assert (Hbinds : Forall (fun item => bind_param (snd item) = Ok tt)
                     (List.filter persisted d)).
  { destruct Hd as (parser & m' & Hdec).
    apply (decode_message_binds parser m' d); [|exact Hdec].
    destruct (decode_message_shape parser m' d Hdec) as (extra & E & _).
    assert (Hdata : dict_get "data" d = Some (VList (data m'))).
    { rewrite E. apply dict_get_app_found. apply base_fields_keep. cbn. tauto. }
    rewrite (Hget "data" (VList (data m))) in Hdata by (cbn; tauto).
    injection Hdata as <-. exact Hbytes. }
  unfold update_db. rewrite Hraw.
  rewrite (insert_items_binds d sid (VFloat (timestamp m)) (VInt (can_id m))
             (decoded_values database))
    by first [apply Hget; cbn; tauto | reflexivity | assumption].
  eexists _, _, _. split; [reflexivity|]. cbn.
  repeat split; try (apply Hget; cbn; tauto).
  apply List.Forall_map. apply List.Forall_forall. reflexivity.
Qed.

Lemma update_decoded (self : CANMonitor) (d : dict) :
  decoded_frame d -> 0 <= history_length self ->
  db self = None \/ storable d = true ->
  exists (k : string) (h : list (string * list dict)),
    snd (update self d) = draw (fst (update self d)) /\
    dict_get "can_id_hex" d = Some (VStr k) /\
    update_history (history_length self) (message_history self) k d = Ok h /\
    message_history (fst (update self d)) = h /\
    latest_values (fst (update self d)) = update_latest (latest_values self) d /\
    (db self = None -> db (fst (update self d)) = None) /\
    (forall database, db self = Some database ->
       exists database', db (fst (update self d)) = Some database' /\
                         fst (update_db database d (monitor_session_id self)) = database').
Proof.
  intros Hd Hl Hst.
  destruct (decoded_frame_items d Hd) as (parser & m & extra & Heq & Hget).
  assert (Hhex : dict_get "can_id_hex" d = Some (VStr (can_id_hex m)))
    by (apply Hget; cbn; tauto).
  assert (Hh : exists h, update_history (history_length self) (message_history self)
                           (can_id_hex m) d = Ok h).
  { unfold update_history.
    destruct (history_get _ _); cbn [bind]; [eauto|].
    destruct (Z.ltb_spec (history_length self) 0); [lia|]. cbn [bind]. eauto. }
  destruct Hh as (h & Hh).
  exists (can_id_hex m), h. unfold update.
  destruct (db self) as [database|] eqn:Hdb.
  - destruct Hst as [Hst|Hst]; [discriminate Hst|].
    destruct (update_db_decoded database d (monitor_session_id self) Hd Hst)
      as (database' & raw_row & rows & Hup & _).
    rewrite Hup. unfold getitem_dict. rewrite Hhex. cbn [history_key].
    rewrite Hh. cbn [fst snd db message_history latest_values].
    do 5 (split; [first [reflexivity|assumption]|]).
    split; [discriminate|]. intros ? [= <-].
    exists database'. now rewrite Hup.
  - unfold getitem_dict. rewrite Hhex. cbn [history_key].
    rewrite Hh. cbn [fst snd db message_history latest_values].
    do 5 (split; [first [reflexivity|assumption]|]).
    split; [reflexivity|discriminate].
Qed.

Lemma draw_quiet (self : CANMonitor) : quiet (screen self) -> draw self = None.
Proof.
  unfold quiet, draw. destruct (screen self) as [drawing|]; [|reflexivity].
  intros H. apply H.
Qed.

Lemma feed_decoded (messages : list dict) : forall self : CANMonitor,
  Forall decoded_frame messages -> 0 <= history_length self ->
  quiet (screen self) ->
  db self = None \/ Forall (fun d => storable d = true) messages ->
  snd (feed self messages) = None.
Proof.
  induction messages as [|d messages IH]; intros self Hall Hl Hq Hst; cbn [feed];
    [reflexivity|].
  apply Forall_cons_iff in Hall as [Hd Hall].
  assert (Hst1 : db self = None \/ storable d = true).
  { destruct Hst as [Hno|Hst]; [now left|right].
    now apply Forall_cons_iff in Hst as [Hst _]. }
  destruct (update_decoded self d Hd Hl Hst1) as (k & h & Hdraw & _).
  destruct (update_fields self d) as (Hlen & _).
  destruct (update_screen_db self d) as (Hscreen & Hno).
  rewrite draw_quiet in Hdraw by now rewrite Hscreen.
  destruct (update self d) as [self' [e|]]; cbn [fst snd] in *; [discriminate|].
  apply IH; [exact Hall|now rewrite Hlen|now rewrite Hscreen|].
  destruct Hst as [Hnone|Hst]; [left; now apply Hno|right].
  now apply Forall_cons_iff in Hst as [_ Hst].
Qed.

(** X18. What [update] does with a frame that the decoder returned, for
    a history length that is not negative. When the monitor has no
    database, or the identifier of the frame fits a signed 64-bit
    integer and its payload is made of bytes, nothing is raised before
    the screen is drawn: [update] raises what the drawing of the new
    state raises, so nothing without a screen or on a screen that takes
    every drawing. With a database, [raw_messages] gains one row, which
    carries the session identifier and the identifier text and raw line
    of the frame, and [decoded_values] gains rows that all carry the
    session identifier; no row of either table is changed or removed.
    When the monitor has a database and the identifier is 2^63 or more,
    on a payload of bytes, [update] raises [OverflowError] and leaves
    the monitor as it was. *)
Theorem update_accepts_decoded_frames (self : CANMonitor) (d : dict) :
  decoded_frame d -> 0 <= history_length self ->
  (db self = None \/ storable d = true ->
   snd (update self d) = draw (fst (update self d)) /\
   (quiet (screen self) -> snd (update self d) = None) /\
   history_length (fst (update self d)) = history_length self /\
   monitor_session_id (fst (update self d)) = monitor_session_id self /\
   screen (fst (update self d)) = screen self /\
   (db self = None -> db (fst (update self d)) = None) /\
   (forall database, db self = Some database ->
      exists (database' : Database) (raw_row : RawRow) (rows : list DecodedRow),
        db (fst (update self d)) = Some database' /\
        raw_messages database' = raw_messages database ++ [raw_row] /\
        rm_session_id raw_row = monitor_session_id self /\
        dict_get "can_id_hex" d = Some (rm_can_id_hex raw_row) /\
        dict_get "raw" d = Some (rm_raw_text raw_row) /\
        decoded_values database' = decoded_values database ++ rows /\
        Forall (fun r => session_id r = monitor_session_id self) rows)) /\
  (forall (database : Database) (id : Z) (payload : list Z),
      db self = Some database ->
      dict_get "can_id" d = Some (VInt id) ->
      dict_get "data" d = Some (VList payload) ->
      Forall is_byte payload -> 2 ^ 63 <= id ->
      update self d = (self, Some OverflowError)).
Proof.
  intros Hd Hl. split.
  - intros Hst.
    destruct (update_decoded self d Hd Hl Hst)
      as (k & h & Hdraw & _ & _ & _ & _ & Hno & Hdb).
    destruct (update_fields self d) as (Hlen & Hsid & _).
    destruct (update_screen_db self d) as (Hscreen & _).
    split; [exact Hdraw|]. split.
    { intros Hq. rewrite Hdraw. apply draw_quiet. now rewrite Hscreen. }
    do 4 (split; [assumption|]).
    intros database Hsome.
    destruct Hst as [Hst|Hst]; [congruence|].
    destruct (Hdb database Hsome) as (database' & Hdb' & Hfst).
    destruct (update_db_decoded database d (monitor_session_id self) Hd Hst)
      as (database'' & raw_row & rows & Hup & Hrest).
    rewrite Hup in Hfst. cbn [fst] in Hfst. subst database''.
    exists database', raw_row, rows. split; [exact Hdb'|exact Hrest].
  - intros database id payload Hsome Hid Hdata Hbytes Hwide.
    unfold update, update_db. rewrite Hsome.
    rewrite (insert_raw_message_wide _ d _ id payload Hd Hid Hdata Hbytes Hwide).
    destruct self as [sc dbase sid hl latest history].
    cbn in Hsome. subst dbase. reflexivity.
Qed.

Lemma update_accepts_decoded_frames_witness :
  snd (update (new_monitor (Some (fun _ _ => None))
                 (Some {| raw_messages := []; decoded_values := [] |})
                 "20240101_120000" 100)
         (base_fields no_catalog (frame 0x421 [0x80]) ++ [("gear", VStr "1")]))
  = None.
Proof.
  refine (proj1 (proj2 (proj1 (update_accepts_decoded_frames _ _ _ _) _)) _).
  - exists no_catalog, (frame 0x421 [0x80]). reflexivity.
  - cbn. lia.
  - right. vm_compute. reflexivity.
  - cbn. reflexivity.
Defined.

(** *** What the history and the latest values hold *)

Lemma last_n_all {A : Type} (n : Z) (l : list A) : len l <= n -> last_n n l = l.
Proof.
  intros H. unfold last_n, len in *.
  replace (List.length l - Z.to_nat n)%nat with 0%nat by lia. reflexivity.
Qed.

Lemma deque_append_last_n (n : Z) (d : list dict) (x : dict) :
  0 <= n -> len d <= n -> deque_append n d x = last_n n (d ++ [x]).
Proof.
  intros H0 Hd. unfold deque_append.
  destruct (Z.ltb_spec n (len (d ++ [x]))) as [Hlt|Hge].
  - rewrite len_app_one in Hlt. unfold last_n.
    rewrite List.length_app. cbn [List.length]. unfold len in *.
    replace (List.length d + 1 - Z.to_nat n)%nat with 1%nat by lia.
    reflexivity.
  - now rewrite last_n_all.
Qed.

Lemma last_n_app {A : Type} (n : Z) (l fs : list A) :
  0 <= n -> last_n n (last_n n l ++ fs) = last_n n (l ++ fs).
Proof.
  intros H0. unfold last_n. rewrite !List.length_app, List.length_skipn.
  destruct (Nat.le_gt_cases (List.length l) (Z.to_nat n)) as [Hle|Hgt].
  - replace (List.length l - Z.to_nat n)%nat with 0%nat by lia.
    cbn [skipn]. f_equal. lia.
  - replace (List.length l - (List.length l - Z.to_nat n) + List.length fs - Z.to_nat n)%nat
      with (List.length fs) by lia.
    replace (List.length l + List.length fs - Z.to_nat n)%nat
      with (List.length fs + (List.length l - Z.to_nat n))%nat by lia.
    rewrite <- List.skipn_skipn. f_equal.
    rewrite List.skipn_app.
    replace (List.length l - Z.to_nat n - List.length l)%nat with 0%nat by lia.
    reflexivity.
Qed.

Lemma update_ok (self self' : CANMonitor) (message : dict) :
  update self message = (self', None) ->
  exists (k : string) (h : list (string * list dict)),
    dict_get "can_id_hex" message = Some (VStr k) /\
    update_history (history_length self) (message_history self) k message = Ok h /\
    message_history self' = h /\
    latest_values self' = update_latest (latest_values self) message /\
    history_length self' = history_length self.
Proof.
  unfold update.
  destruct (match db self with
            | Some d => let '(d', e) := update_db d message (monitor_session_id self) in
                        (Some d', e)
            | None => (None, None)
            end) as [db' [e|]]; [discriminate|].
  unfold getitem_dict.
  destruct (dict_get "can_id_hex" message) as [v|]; [|discriminate].
  destruct v as [n|x|s|l|]; cbn [history_key]; try discriminate.
  destruct (update_history _ _ s message) as [h|e] eqn:Hh; [|discriminate].
  intros [= <- _]. exists s, h. auto.
Qed.

Lemma history_after_feed (k : string) (messages : list dict) :
  forall self self' : CANMonitor,
    history_inv self ->
    feed self messages = (self', None) ->
    history_get k (message_history self')
    = match List.filter (has_id k) messages with
      | [] => history_get k (message_history self)
      | frames =>
          Some (last_n (history_length self)
                  (default [] (history_get k (message_history self)) ++ frames))
      end.
Proof.
  induction messages as [|m messages IH]; intros self self' Hinv; cbn [feed].
  - now intros [= <-].
  - destruct (update self m) as [self1 [e|]] eqn:Hup; [discriminate|].
    intros Hfeed.
    pose proof (update_keeps_history_inv self m Hinv) as Hinv1.
    rewrite Hup in Hinv1. cbn [fst] in Hinv1.
    destruct (update_ok self self1 m Hup) as (k0 & h & Hhex & Hh & Hhist & _ & Hlen).
    rewrite (IH self1 self' Hinv1 Hfeed), Hhist, Hlen.
    cbn [List.filter]. unfold has_id at 2. rewrite Hhex.
    destruct Hinv as [_ Hall].
    revert Hh. unfold update_history.
    set (d0 := history_get k0 (message_history self)).
    assert (Hd0 : 0 <= history_length self ->
                  len (default [] d0) <= history_length self).
    { intros Hpos. destruct d0 as [d|] eqn:E; cbn [default]; [|exact Hpos].
      apply (history_get_Forall (fun d => len d <= history_length self) k0 d _ Hall E). }
    assert (Hpos : forall r, match d0 with
                             | Some d => Ok d
                             | None => if history_length self <? 0
                                       then Raise ValueError else Ok []
                             end = Ok r ->
                             0 <= history_length self /\ r = default [] d0).
    { intros r. destruct d0 as [d|] eqn:E; cbn [default].
      - intros [= <-]. split; [|reflexivity].
        pose proof (history_get_Forall (fun d => len d <= history_length self)
                      k0 d _ Hall E) as Hd. cbn beta in Hd. unfold len in Hd. lia.
      - destruct (Z.ltb_spec (history_length self) 0); [discriminate|].
        intros [= <-]. split; [assumption|reflexivity]. }
    destruct (match d0 with
              | Some d => Ok d
              | None => if history_length self <? 0 then Raise ValueError else Ok []
              end) as [r|] eqn:Hr; [|discriminate].
    destruct (Hpos r eq_refl) as [H0 ->]. cbn [bind]. intros [= <-].
    rewrite history_get_set.
    destruct (String.eqb_spec k k0) as [->|Hne].
    + fold d0.
      rewrite (deque_append_last_n _ _ _ H0 (Hd0 H0)).
      clearbody d0.
      destruct (List.filter (has_id k0) messages) as [|f fs].
      * reflexivity.
      * cbn [default from_option id]. rewrite last_n_app by exact H0.
        now rewrite <- app_assoc.
    + reflexivity.
Qed.

Lemma latest_after_feed (messages : list dict) :
  forall self self' : CANMonitor,
    feed self messages = (self', None) ->
    latest_values self'
    = List.map (fun item => (fst item, last_value (fst item) (snd item) messages))
               (latest_values self).
Proof.
  induction messages as [|m messages IH]; intros self self'; cbn [feed].
  - intros [= <-]. unfold last_value. cbn [fold_left].
    induction (latest_values self) as [|[k v] l IHl]; [reflexivity|].
    cbn [List.map fst snd]. now rewrite <- IHl.
  - destruct (update self m) as [self1 [e|]] eqn:Hup; [discriminate|].
    intros Hfeed.
    destruct (update_ok self self1 m Hup) as (k0 & h & _ & _ & _ & Hlatest & _).
    rewrite (IH self1 self' Hfeed), Hlatest. unfold update_latest.
    rewrite List.map_map. reflexivity.
Qed.

(** X19. After a replay in which every update succeeded, the deque of
    an identifier holds the last [history_length] frames of that
    identifier, oldest first, and an identifier that no frame carried
    has no deque. *)
Theorem history_keeps_last_frames (screen : option Screen)
    (existing : option Database) (sid : string)
    (n : Z) (messages : list dict) (monitor : CANMonitor) (k : string) :
  feed (new_monitor screen existing sid n) messages = (monitor, None) ->
  history_get k (message_history monitor)
  = match List.filter (has_id k) messages with
    | [] => None
    | frames => Some (last_n n frames)
    end.
Proof.
  intros Hfeed.
  assert (Hinit : history_inv (new_monitor screen existing sid n)).
  { split; cbn; constructor. }
  exact (history_after_feed k messages _ _ Hinit Hfeed).
Qed.

Lemma history_keeps_last_frames_witness :
  history_get "0x421"
    (message_history
       (fst (feed (new_monitor None None "20240101_120000" 1) example_log)))
  = Some (last_n 1 (List.filter (has_id "0x421") example_log)).
Proof.
  apply (history_keeps_last_frames None None "20240101_120000" 1 example_log
           (fst (feed (new_monitor None None "20240101_120000" 1) example_log)) "0x421").
  vm_compute. reflexivity.
Defined.

(** X20. After a replay in which every update succeeded, the latest
    values have the nine keys they began with, in the same order, and
    under each key the value of the last frame that carried the key,
    [None] included, or the initial value when no frame carried it. *)
Theorem latest_values_follow_last_frame (screen : option Screen)
    (existing : option Database) (sid : string)
    (n : Z) (messages : list dict) (monitor : CANMonitor) :
  feed (new_monitor screen existing sid n) messages = (monitor, None) ->
  latest_values monitor
  = List.map (fun item => (fst item, last_value (fst item) (snd item) messages))
             initial_values /\
  List.map fst (latest_values monitor)
  = [ "rpm"; "speed_kph"; "throttle_pct"; "steering_angle"; "engine_temp";
      "gear"; "clutch"; "cruise_status"; "cruise_setpoint_kph" ].
Proof.
  intros Hfeed. pose proof (latest_after_feed messages _ _ Hfeed) as H.
  cbn [new_monitor latest_values] in H. split; [exact H|].
  rewrite H. reflexivity.
Qed.

Lemma latest_values_follow_last_frame_witness :
  dict_get "cruise_setpoint_kph"
    (latest_values
       (fst (feed (new_monitor None None "20240101_120000" 100)
               [ base_fields no_catalog (frame 0x551 [0x5A; 0; 0; 0; 0; 2])
                 ++ [ ("engine_temp", VInt 50); ("cruise_setpoint_kph", VNone);
                      ("cruise_status", VStr "Active") ] ])))
  = Some VNone.
Proof.
  rewrite (proj1 (latest_values_follow_last_frame None None "20240101_120000" 100
                    [ base_fields no_catalog (frame 0x551 [0x5A; 0; 0; 0; 0; 2])
                      ++ [ ("engine_temp", VInt 50); ("cruise_setpoint_kph", VNone);
                           ("cruise_status", VStr "Active") ] ]
                    (fst (feed (new_monitor None None "20240101_120000" 100)
                            [ base_fields no_catalog (frame 0x551 [0x5A; 0; 0; 0; 0; 2])
                              ++ [ ("engine_temp", VInt 50);
                                   ("cruise_setpoint_kph", VNone);
                                   ("cruise_status", VStr "Active") ] ]))
                    ltac:(vm_compute; reflexivity))).
  reflexivity.
Defined.

Lemma firstn_Forall {A : Type} (P : A -> Prop) (n : nat) (l : list A) :
  Forall P l -> Forall P (firstn n l).
Proof.
  intros H. revert n. induction H as [|x l Hx Hl IH]; intros [|n]; cbn;
    constructor; auto.
Qed.

(** X21. No update of a replay fails in the monitor or the database:
    on any log file and any catalog, in either mode and at any speed,
    every frame that [monitor_file] gives to the monitor is a frame
    that the decoder returned, and [update] accepts them all in turn,
    for a monitor with a history length that is not negative, without a
    screen or with a screen that takes every drawing, and without a
    database or when every frame of the file has an identifier that
    fits a signed 64-bit integer and a payload of bytes. *)
Theorem replay_updates_never_fail (ids_file : Descriptor) (file : option (list string))
    (env : Env) (fuel : nat) (use_curses : bool) (replay_speed : float)
    (screen : option Screen) (existing : option Database) (sid : string) (n : Z) :
  0 <= n -> quiet screen ->
  existing = None
  \/ Forall (fun d => storable d = true) (read_all (init_parser ids_file) file) ->
  let delivered := fst (monitor_file ids_file file env fuel use_curses replay_speed) in
  Forall decoded_frame delivered /\
  snd (feed (new_monitor screen existing sid n) delivered) = None.
Proof.
  intros Hn Hq Hst delivered.
  pose proof (read_all_stamped (init_parser ids_file) file) as Hstamped.
  destruct (sort_by_timestamp_sorts _ Hstamped) as (sorted & Hsort & Hperm & _).
  destruct (replay_messages_prefix env fuel _ sorted use_curses replay_speed
              Hsort Hperm (Forall_stamped_perm _ _ Hperm Hstamped)) as [(k & Hk) _].
  assert (Hdel : delivered = firstn k sorted) by exact Hk.
  assert (Hall : Forall decoded_frame delivered).
  { rewrite Hdel. apply firstn_Forall.
    eapply Permutation_Forall; [symmetry; exact Hperm|].
    pose proof (read_all_decoded (init_parser ids_file) file) as Hdec.
    revert Hdec. apply List.Forall_impl. intros d (m & Hd).
    now exists (init_parser ids_file), m. }
  split; [exact Hall|].
  apply feed_decoded; [exact Hall|exact Hn|exact Hq|].
  destruct Hst as [Hnone|Hst]; [now left|right].
  rewrite Hdel. apply firstn_Forall.
  eapply Permutation_Forall; [symmetry; exact Hperm|exact Hst].
Qed.

Lemma replay_updates_never_fail_witness :
  snd (feed (new_monitor (Some (fun _ _ => None))
               (Some {| raw_messages := []; decoded_values := [] |})
               "20240101_120000" 100)
         (fst (monitor_file (Unreadable OSError)
                 (Some ["2.0 RX: [0421](ext) 80"; "1.0 RX: [0180](ext) 07 D0"])
                 steady_env 10 false (PyFloat.decimal 10 1))))
  = None.
Proof.
  refine (proj2 (replay_updates_never_fail (Unreadable OSError)
                   (Some ["2.0 RX: [0421](ext) 80"; "1.0 RX: [0180](ext) 07 D0"])
                   steady_env 10 false (PyFloat.decimal 10 1)
                   (Some (fun _ _ => None))
                   (Some {| raw_messages := []; decoded_values := [] |})
                   "20240101_120000" 100 _ _ _)).
  - lia.
  - intros latest history. reflexivity.
  - right. apply List.Forall_forall. apply (proj1 (forallb_forall _ _)).
    vm_compute. reflexivity.
Defined.

(** ** The live monitor *)

Lemma step_frames_decoded (parser : CANMessageParser) (r : CANSerialReader) (t : Turn) :
  Forall decoded_frame (message_queue r ++ held r) ->
  Forall decoded_frame (message_queue (fst (step parser r t))
                        ++ held (fst (step parser r t))) /\
  Forall decoded_frame (got [snd (step parser r t)]).
Proof.
  intros Hall. apply Forall_app in Hall as [Hq Hh].
  destruct t as [line|]; cbn [step].
  - destruct (in_hand r) as [m|] eqn:Hand.
    + unfold put. unfold held in Hh. rewrite Hand in Hh.
      destruct (_ && _); cbn [fst snd]; (split; [|constructor]).
      * unfold held. rewrite Hand. apply Forall_app. now split.
      * unfold held. cbn [message_queue in_hand]. rewrite app_nil_r.
        apply Forall_app. now split.
    + destruct (read_step_frames parser line r) as [E|[(m & Hf & E)|(m & Hf & E)]];
        rewrite E; cbn [fst snd]; (split; [|constructor]).
      * apply Forall_app. now split.
      * apply Forall_app. now split.
      * unfold held at 1. cbn [message_queue in_hand].
        apply Forall_app. split; [exact Hq|]. constructor; [|constructor].
        destruct (frames_of_line_decoded parser line m) as (f & Hdec);
          [rewrite Hf; now left|].
        now exists parser, f.
  - unfold get_message. destruct r as [[|m q] h]; cbn [message_queue] in *;
      cbn [fst snd message_queue].
    + split; [|constructor]. apply Forall_app. now split.
    + apply Forall_cons_iff in Hq as [Hm Hq]. split.
      * apply Forall_app. now split.
      * cbn. now constructor.
Qed.

Lemma run_frames_decoded (parser : CANMessageParser) (schedule : list Turn) :
  forall r : CANSerialReader,
    Forall decoded_frame (message_queue r ++ held r) ->
    Forall decoded_frame (got (snd (run parser schedule r))).
Proof.
  induction schedule as [|t schedule IH]; intros r Hall; cbn [run].
  - constructor.
  - destruct (step_frames_decoded parser r t Hall) as [H1 Hg].
    destruct (step parser r t) as [r1 e]. cbn [fst snd] in *.
    specialize (IH r1 H1).
    destruct (run parser schedule r1) as [r2 es]. cbn [fst snd] in *.
    unfold got in *. rewrite (events_cons _ e es).
    apply Forall_app. now split.
Qed.

(** X22. No update of the live monitor fails in the monitor or the
    database: on every interleaving of the read thread and the
    consumer, each frame that [get_message] returns is a frame that the
    decoder returned, it is not an empty dictionary, so the consumer
    loop does not skip it, and [update] accepts all of them in turn,
    for a monitor with a history length that is not negative, without a
    screen or with a screen that takes every drawing, and without a
    database or when every frame received has an identifier that fits a
    signed 64-bit integer and a payload of bytes. *)
Theorem live_updates_never_fail (parser : CANMessageParser) (schedule : list Turn)
    (screen : option Screen) (existing : option Database) (sid : string) (n : Z) :
  0 <= n -> quiet screen ->
  let received := got (snd (run parser schedule new_reader)) in
  existing = None \/ Forall (fun d => storable d = true) received ->
  Forall decoded_frame received /\
  Forall (fun m => truthy (Some m) = true) received /\
  snd (feed (new_monitor screen existing sid n) received) = None.
Proof.
  intros Hn Hq received Hst.
  assert (Hall : Forall decoded_frame received).
  { apply run_frames_decoded. constructor. }
  split; [exact Hall|]. split.
  - revert Hall. apply List.Forall_impl. intros d Hd.
    destruct (decoded_frame_items d Hd) as (p & m & extra & -> & _).
    reflexivity.
  - now apply feed_decoded.
Qed.

Lemma live_updates_never_fail_witness :
  snd (feed (new_monitor (Some (fun _ _ => None))
               (Some {| raw_messages := []; decoded_values := [] |})
               "20240101_120000" 100)
         (got (snd (run no_catalog
                      [Producer "1.0 RX: [0421](ext) 80"; Producer ""; Consumer]
                      new_reader))))
  = None.
Proof.
  refine (proj2 (proj2 (live_updates_never_fail no_catalog
                          [Producer "1.0 RX: [0421](ext) 80"; Producer ""; Consumer]
                          (Some (fun _ _ => None))
                          (Some {| raw_messages := []; decoded_values := [] |})
                          "20240101_120000" 100 _ _ _))).
  - lia.
  - intros latest history. reflexivity.
  - right. apply List.Forall_forall. apply (proj1 (forallb_forall _ _)).
    vm_compute. reflexivity.
Defined.

(** ** The catalog and the frames it annotates *)

Lemma span_map_chars (p : ascii -> bool) (f : ascii -> ascii) (s : string) :
  (forall c, p (f c) = p c) ->
  PyStr.span p (PyStr.map_chars f s)
  = (PyStr.map_chars f (fst (PyStr.span p s)), PyStr.map_chars f (snd (PyStr.span p s))).
Proof.
  intros Hp. induction s as [|c s IH]; [reflexivity|].
  cbn [PyStr.map_chars PyStr.span]. rewrite Hp.
  destruct (p c); [|reflexivity].
  rewrite IH. now destruct (PyStr.span p s).
Qed.

Lemma rstrip_by_map_chars (p : ascii -> bool) (f : ascii -> ascii) (s : string) :
  (forall c, p (f c) = p c) ->
  PyStr.rstrip_by p (PyStr.map_chars f s) = PyStr.map_chars f (PyStr.rstrip_by p s).
Proof.
  intros Hp. induction s as [|c s IH]; [reflexivity|].
  cbn [PyStr.map_chars PyStr.rstrip_by]. rewrite IH, Hp.
  destruct (PyStr.rstrip_by p s); [|reflexivity].
  now destruct (p c).
Qed.

Lemma strip_by_map_chars (p : ascii -> bool) (f : ascii -> ascii) (s : string) :
  (forall c, p (f c) = p c) ->
  PyStr.strip_by p (PyStr.map_chars f s) = PyStr.map_chars f (PyStr.strip_by p s).
Proof.
  intros Hp. unfold PyStr.strip_by.
  rewrite span_map_chars by exact Hp. cbn [snd].
  now apply rstrip_by_map_chars.
Qed.

Lemma to_lower_c_space (c : ascii) : PyStr.is_c_space (PyStr.to_lower c) = PyStr.is_c_space c.
Proof. each_ascii c. Qed.

Lemma to_lower_hex_digit (c : ascii) : PyStr.hex_digit (PyStr.to_lower c) = PyStr.hex_digit c.
Proof. each_ascii c. Qed.

Lemma to_lower_underscore (c : ascii) :
  (PyStr.code (PyStr.to_lower c) =? 95) = (PyStr.code c =? 95).
Proof. each_ascii c. Qed.

Lemma to_lower_x (c : ascii) :
  (PyStr.code (PyStr.to_lower c) =? 120) || (PyStr.code (PyStr.to_lower c) =? 88)
  = (PyStr.code c =? 120) || (PyStr.code c =? 88).
Proof. each_ascii c. Qed.

Lemma hex_digits_lower (s : string) : forall (st : PyStr.scan) (acc : Z),
  PyStr.hex_digits (PyStr.lower s) st acc = PyStr.hex_digits s st acc.
Proof.
  induction s as [|c s IH]; intros st acc; [reflexivity|].
  change (PyStr.lower (String c s)) with (String (PyStr.to_lower c) (PyStr.lower s)).
  cbn [PyStr.hex_digits]. rewrite to_lower_underscore, to_lower_hex_digit.
  destruct (PyStr.code c =? 95).
  - destruct st; try reflexivity. apply IH.
  - destruct (PyStr.hex_digit c); [apply IH|reflexivity].
Qed.

(** The body of a numeral, by cases on its first characters. *)
Lemma hex_body_cases (s : string) :
  PyStr.hex_body s
  = match s with
    | String c (String x s') =>
        if Ascii.eqb c "0" && ((PyStr.code x =? 120) || (PyStr.code x =? 88)) then
          match s' with
          | String u s'' =>
              if PyStr.code u =? 95 then PyStr.hex_digits s'' PyStr.AtStart 0
              else PyStr.hex_digits s' PyStr.AtStart 0
          | EmptyString => PyStr.hex_digits s' PyStr.AtStart 0
          end
        else PyStr.hex_digits s PyStr.AtStart 0
    | _ => PyStr.hex_digits s PyStr.AtStart 0
    end.
Proof.
  destruct s as [|c [|x s']]; [reflexivity|now each_ascii c|].
  destruct (Ascii.eqb_spec c "0") as [->|Hc].
  - cbn [andb]. unfold PyStr.hex_body.
    destruct ((PyStr.code x =? 120) || (PyStr.code x =? 88)); [|reflexivity].
    destruct s' as [|u s'']; [reflexivity|]. now each_ascii u.
  - cbn [andb]. revert Hc. clear. each_ascii c. congruence.
Qed.

Lemma to_lower_zero (c : ascii) : Ascii.eqb (PyStr.to_lower c) "0" = Ascii.eqb c "0".
Proof. each_ascii c. Qed.

Lemma hex_body_lower (s : string) : PyStr.hex_body (PyStr.lower s) = PyStr.hex_body s.
Proof.
  destruct s as [|c [|x s']]; [reflexivity| |].
  - rewrite !hex_body_cases. apply (hex_digits_lower (String c "")).
  - change (PyStr.lower (String c (String x s')))
      with (String (PyStr.to_lower c) (String (PyStr.to_lower x) (PyStr.lower s'))).
    rewrite !hex_body_cases. cbv iota.
    rewrite to_lower_zero, to_lower_x.
    destruct (Ascii.eqb c "0" && _).
    + destruct s' as [|u s'']; [reflexivity|].
      change (PyStr.lower (String u s''))
        with (String (PyStr.to_lower u) (PyStr.lower s'')).
      cbv iota. rewrite to_lower_underscore.
      destruct (PyStr.code u =? 95); [apply hex_digits_lower|].
      apply (hex_digits_lower (String u s'')).
    + apply (hex_digits_lower (String c (String x s'))).
Qed.

(** [int(s, 16)] does not look at the case of the letters. *)
Lemma int16_lower (s : string) : PyStr.int16 (PyStr.lower s) = PyStr.int16 s.
Proof.
  unfold PyStr.int16, PyStr.lower.
  rewrite strip_by_map_chars by apply to_lower_c_space.
  destruct (PyStr.strip_by PyStr.is_c_space s) as [|c t]; [reflexivity|].
  change (PyStr.map_chars PyStr.to_lower (String c t))
    with (String (PyStr.to_lower c) (PyStr.lower t)).
  assert (H : match String (PyStr.to_lower c) (PyStr.lower t) with
              | String "+" t0 => PyStr.hex_body t0
              | String "-" t0 => Z.opp <$> PyStr.hex_body t0
              | t0 => PyStr.hex_body t0
              end
              = match String c t with
                | String "+" t0 => PyStr.hex_body t0
                | String "-" t0 => Z.opp <$> PyStr.hex_body t0
                | t0 => PyStr.hex_body t0
                end).
  { destruct (Ascii.eqb_spec c "+") as [->|H1];
      [change (PyStr.to_lower "+") with "+"%char; cbv iota; apply hex_body_lower|].
    destruct (Ascii.eqb_spec c "-") as [->|H2];
      [change (PyStr.to_lower "-") with "-"%char; cbv iota;
       now rewrite hex_body_lower|].
    transitivity (PyStr.hex_body (String (PyStr.to_lower c) (PyStr.lower t))).
    - revert H1 H2. clear. each_ascii c; congruence.
    - change (String (PyStr.to_lower c) (PyStr.lower t))
        with (PyStr.lower (String c t)).
      rewrite (hex_body_lower (String c t)).
      revert H1 H2. clear. each_ascii c; congruence. }
  exact (f_equal (fun body : option Z =>
                    match body with
                    | Some z => Ok z
                    | None => Raise ValueError
                    end) H).
Qed.

Lemma lower_hex_not_space (s : string) :
  all_chars is_upper_hex s = true ->
  all_chars (fun c => negb (PyStr.is_space c)) (PyStr.lower s) = true.
Proof.
  induction s as [|c s IH]; [reflexivity|]. cbn [all_chars].
  intros [Hc Hs]%andb_true_iff.
  change (PyStr.lower (String c s)) with (String (PyStr.to_lower c) (PyStr.lower s)).
  cbn [all_chars]. rewrite (IH Hs), andb_true_r.
  revert Hc. clear. each_ascii c.
Qed.

Lemma loading_prefix_app (before : list (list string)) (row : list string) :
  loading_prefix before = before -> row_loads row = true ->
  loading_prefix (before ++ [row]) = before ++ [row].
Proof.
  intros Hb Hr. induction before as [|r before IH]; cbn [app loading_prefix] in *.
  - now rewrite Hr.
  - destruct (row_loads r); [|discriminate]. injection Hb as Hb. now rewrite IH.
Qed.

(** X23. A catalog row keyed by the identifier text of a frame annotates
    that frame: when the rows before it load and the last row has, as
    its first field, the [can_id_hex] of a parsed frame, the catalog
    maps the identifier of the frame to the fields of that row, and the
    decoded frame carries the source and the frequency of the row. *)
Theorem catalog_row_annotates_frame (line : string) (m : RawFrame)
    (header : list string) (before : list (list string))
    (src freq bytes : string) (rest : list string) :
  parse_line line = Ok (Some m) ->
  loading_prefix before = before ->
  let parser :=
    init_parser (Rows (header :: before ++ [can_id_hex m :: src :: freq :: bytes :: rest])) in
  ids_lookup parser !! can_id m
  = Some {| source := src; frequency := freq; data_bytes := bytes |} /\
  forall d, decode_message parser (Some m) = Ok (Some d) ->
    dict_get "source" d = Some (VStr src) /\
    dict_get "frequency" d = Some (VStr freq).
Proof.
  intros Hparse Hbefore parser.
  assert (Hkey : row_key (can_id_hex m :: src :: freq :: bytes :: rest) = Ok (can_id m)).
  { revert Hparse. unfold parse_line.
    destruct (pattern_match line) as [[[[[int_part frac_part] g2] g3] g4]|] eqn:Hm;
      [|discriminate].
    apply pattern_match_groups in Hm as (_ & _ & H2 & _).
    destruct (PyStr.int16 g2) as [id|] eqn:Hid; [|discriminate]. cbn [bind].
    destruct (mapM _ _); [|discriminate]. cbn [bind].
    intros [= <-]. cbn [can_id can_id_hex].
    apply andb_true_iff in H2 as [_ H2].
    pose proof (int16_word_nonneg g2 id H2 Hid) as Hnn.
    unfold row_key. cbn [nth]. unfold PyStr.strip.
    rewrite strip_by_id.
    - rewrite int16_lower. now apply int16_format_X.
    - pose proof (format_X_upper_hex id Hnn) as Hx.
      apply andb_true_iff in Hx as [_ Hx].
      change ("0x" +:+ ?s) with (String "0" (String "x" s)).
      change (PyStr.lower (String "0" (String "x" ?s)))
        with (String "0" (String "x" (PyStr.lower s))).
      cbn [all_chars]. now rewrite (lower_hex_not_space _ Hx). }
  assert (Hlookup : ids_lookup parser !! can_id m
                    = Some {| source := src; frequency := freq; data_bytes := bytes |}).
  { unfold parser, init_parser, _load_ids. cbn [ids_lookup].
    rewrite load_rows_prefix. cbn [fst].
    rewrite loading_prefix_app;
      [|exact Hbefore|unfold row_loads; rewrite Hkey; apply orb_true_r].
    rewrite fold_left_app. cbn [fold_left].
    assert (Hadd : forall ids,
              add_row ids (can_id_hex m :: src :: freq :: bytes :: rest) !! can_id m
              = Some {| source := src; frequency := freq; data_bytes := bytes |}).
    { intros ids. unfold add_row. rewrite Hkey. apply lookup_insert_eq. }
    case_decide; cbn [fst]; apply Hadd. }
  split; [exact Hlookup|].
  intros d Hdec.
  destruct (decode_message_result parser m _ Hdec) as (extra & Hd).
  assert (E : d = base_fields parser m ++ extra) by congruence.
  rewrite E. unfold base_fields. rewrite Hlookup.
  split; apply dict_get_app_found; reflexivity.
Qed.

Lemma catalog_row_annotates_frame_witness :
  ids_lookup
    (init_parser (Rows [ ["id"; "source"; "frequency"; "bytes"];
                         ["0x180"; "ECM"; "100"; "8"] ])) !! 0x180
  = Some {| source := "ECM"; frequency := "100"; data_bytes := "8" |}.
Proof.
  refine (proj1 (catalog_row_annotates_frame scenario_line
                   {| timestamp := PyStr.float_of_decimal "1000" "250";
                      can_id := 0x180; can_id_hex := "0x180"; msg_type := "ext";
                      data := [0x07; 0xD0; 0; 0; 0; 0x80; 0; 0];
                      raw := PyStr.strip scenario_line |}
                   ["id"; "source"; "frequency"; "bytes"] [] "ECM" "100" "8" [] _ _)).
  - vm_compute. reflexivity.
  - reflexivity.
Defined.
